(** * Structured Cognitive Loop: a shallow embedding of [scl_core.py]

    The development follows the layout of the Python sources:
    - [Py]      : the Python values the loop passes around (dictionaries,
                  truthiness, string formatting, [json.dumps]);
    - [SclCore] : [MetaPrompt], [Memory], [ToolRegistry] and
                  [StructuredCognitiveLoop] of [scl_core.py];
    - [MockCognition] : [MockCognitionEngine._generate_decision] of
                  [mock_cognition.py];
    followed by the statements proved about them. *)

From Stdlib Require Import List String Ascii ZArith NArith Bool Lia.
From Stdlib Require Import Permutation DecimalString DecimalPos RelationClasses.
From Stdlib Require OrdersEx.
Import ListNotations.

Set Warnings "-register-all".

Local Open Scope string_scope.
Local Open Scope Z_scope.

(* ===================================================================== *)
(** * Python values                                                       *)
(* ===================================================================== *)

Module Py.

(** The values that travel through the loop are what [Dict[str, Any]]
    holds in the sources: [None], booleans, integers, strings, lists and
    string-keyed dictionaries.  A dictionary is kept as the list of its
    items in insertion order (Python dictionaries iterate in that order,
    and the order is visible in the prompt handed to the cognition
    engine).  Floating point numbers are not part of the model. *)
Inductive value : Type :=
| VNone
| VBool (b : bool)
| VInt (z : Z)
| VStr (s : string)
| VList (l : list value)
| VDict (d : list (string * value)).

(** A dictionary with string keys and payload [A]. *)
Definition pydict (A : Type) : Type := list (string * A).

Definition keys {A : Type} (d : pydict A) : list string := map fst d.

(** [d.get(k)] as an option: the first (and, for a well-formed
    dictionary, only) item stored under [k]. *)
Fixpoint lookup {A : Type} (k : string) (d : pydict A) : option A :=
  match d with
  | [] => None
  | (k', v) :: r => if String.eqb k k' then Some v else lookup k r
  end.

(** [k in d]. *)
Definition contains {A : Type} (k : string) (d : pydict A) : bool :=
  match lookup k d with Some _ => true | None => false end.

(** [d[k] = v]: an existing key keeps its position and takes the new
    payload, a new key goes to the end. *)
Fixpoint setitem {A : Type} (k : string) (v : A) (d : pydict A) : pydict A :=
  match d with
  | [] => [(k, v)]
  | (k', v') :: r =>
      if String.eqb k k' then (k, v) :: r else (k', v') :: setitem k v r
  end.

(** [d.get(k)] on a dictionary of values: [None] when the key is absent. *)
Definition get (k : string) (d : pydict value) : value :=
  match lookup k d with Some v => v | None => VNone end.

(** [d.get(k, dflt)]. *)
Definition get_default (k : string) (dflt : value) (d : pydict value) : value :=
  match lookup k d with Some v => v | None => dflt end.

(** Python truthiness ([if x:], [not x]). *)
Definition truthy (v : value) : bool :=
  match v with
  | VNone => false
  | VBool b => b
  | VInt z => negb (z =? 0)
  | VStr s => match s with EmptyString => false | String _ _ => true end
  | VList l => match l with [] => false | _ :: _ => true end
  | VDict d => match d with [] => false | _ :: _ => true end
  end.

(** [str(n)] for an integer. *)
Definition str_of_Z (z : Z) : string := NilZero.string_of_int (Z.to_int z).

(** [sep.join(l)]. *)
Fixpoint join (sep : string) (l : list string) : string :=
  match l with
  | [] => EmptyString
  | [x] => x
  | x :: r => x ++ sep ++ join sep r
  end.

(** ** [json.dumps(v, sort_keys=True)] *)

Definition dquote : ascii := "034"%char.
Definition backslash : ascii := "092"%char.

Definition hex_digit (n : N) : ascii :=
  (if n <? 10 then ascii_of_N (48 + n) else ascii_of_N (87 + n))%N.

(** The replacement [json.encoder.py_encode_basestring_ascii] makes for
    one character: the short escapes of [ESCAPE_DCT], a [\u00XX] escape
    for every other character outside the printable ASCII range
    [' '..'~'], and the character itself otherwise.  A character of the
    model is one code point below 256. *)
Definition escape_char (c : ascii) : string :=
  let n := N_of_ascii c in
  (if n =? 34 then String backslash (String dquote EmptyString)
   else if n =? 92 then String backslash (String backslash EmptyString)
   else if n =? 8 then String backslash "b"
   else if n =? 12 then String backslash "f"
   else if n =? 10 then String backslash "n"
   else if n =? 13 then String backslash "r"
   else if n =? 9 then String backslash "t"
   else if (n <? 32) || (126 <? n) then
     String backslash
       (String "u" (String "0" (String "0"
          (String (hex_digit (n / 16)) (String (hex_digit (n mod 16)) EmptyString)))))
   else String c EmptyString)%N.

Fixpoint escape_string (s : string) : string :=
  match s with
  | EmptyString => EmptyString
  | String c r => escape_char c ++ escape_string r
  end.

Definition encode_basestring_ascii (s : string) : string :=
  String dquote (escape_string s ++ String dquote EmptyString).

(** The order of [str]: lexicographic on code points. *)
Definition str_leb (a b : string) : bool :=
  match OrdersEx.String_as_OT.compare a b with
  | Gt => false
  | _ => true
  end.

(** [sorted(items)] for the items of a dictionary.  The items are
    compared on their keys: Python compares the [(key, value)] tuples,
    and as the keys of one dictionary are pairwise different the payloads
    are never looked at.  Any sorting algorithm returns the same list on
    such input; a stable insertion sort is used here. *)
Fixpoint insert_item {A : Type} (x : string * A) (l : list (string * A))
  : list (string * A) :=
  match l with
  | [] => [x]
  | y :: r => if str_leb (fst x) (fst y) then x :: y :: r else y :: insert_item x r
  end.

Definition sorted_items {A : Type} (l : list (string * A)) : list (string * A) :=
  fold_right insert_item [] l.

(** The text of one dictionary item, [key: value]. *)
Definition dumps_item (kv : string * string) : string :=
  encode_basestring_ascii (fst kv) ++ ": " ++ snd kv.

(** [json.dumps(v, sort_keys=True)] with the default separators and
    [ensure_ascii].  At a dictionary the encoder sorts the items and
    writes each one; here the payloads are written first and the written
    items are then sorted on their keys, which gives the same text and
    keeps the recursion structural. *)
Fixpoint dumps (v : value) : string :=
  match v with
  | VNone => "null"
  | VBool true => "true"
  | VBool false => "false"
  | VInt z => str_of_Z z
  | VStr s => encode_basestring_ascii s
  | VList l => "[" ++ join ", " (map dumps l) ++ "]"
  | VDict d =>
      "{" ++ join ", "
               (map dumps_item
                  (sorted_items (map (fun kv => (fst kv, dumps (snd kv))) d)))
          ++ "}"
  end.

(** ** Values with the same JSON text *)

(** [same_content v v']: [v] and [v'] are the same value up to the order
    in which dictionaries, at any depth, list their items.  Numbers,
    booleans and strings have to be identical: [1] and [True], equal in
    Python, are not related. *)
Inductive same_content : value -> value -> Prop :=
| same_value : forall v, same_content v v
| same_list : forall l l',
    same_elements l l' -> same_content (VList l) (VList l')
| same_dict : forall d d' p,
    NoDup (keys d) -> Permutation d p -> same_items p d' ->
    same_content (VDict d) (VDict d')
with same_elements : list value -> list value -> Prop :=
| same_elements_nil : same_elements [] []
| same_elements_cons : forall x y l l',
    same_content x y -> same_elements l l' ->
    same_elements (x :: l) (y :: l')
with same_items : pydict value -> pydict value -> Prop :=
| same_items_nil : same_items [] []
| same_items_cons : forall k x y d d',
    same_content x y -> same_items d d' ->
    same_items ((k, x) :: d) ((k, y) :: d').

(** ** String formatting *)

(** What the running interpreter contributes and the repository does not
    fix: the text [str] gives for a list or a dictionary, and the texts of
    the [TypeError]s the interpreter raises by itself when a call is set
    up. *)
Record Interp : Type := {
  repr_container : value -> string;
  msg_not_a_mapping : value -> string;
  msg_multiple_values : pydict value -> string;
  msg_unhashable : value -> string
}.

(** [str(v)], as an f-string field [{v}] formats it. *)
Definition py_str (I : Interp) (v : value) : string :=
  match v with
  | VNone => "None"
  | VBool true => "True"
  | VBool false => "False"
  | VInt z => str_of_Z z
  | VStr s => s
  | VList _ | VDict _ => repr_container I v
  end.

Fixpoint zeros (n : nat) : string :=
  match n with
  | O => EmptyString
  | S k => String "0" (zeros k)
  end.

(** The format [{n:03d}]: zero padding to width three, sign included. *)
Definition fmt_03d (z : Z) : string :=
  let digits := str_of_Z (Z.abs z) in
  if z <? 0 then String "-" (zeros (2 - String.length digits) ++ digits)
  else zeros (3 - String.length digits) ++ digits.

(** ** Numbers *)

(** The integer a value stands for in arithmetic and comparisons
    ([True] is [1], [False] is [0]); [None] for a value that is no
    number. *)
Definition as_number (v : value) : option Z :=
  match v with
  | VInt z => Some z
  | VBool true => Some 1
  | VBool false => Some 0
  | _ => None
  end.

(** [v > n] against an integer [n]; [None] when Python raises
    [TypeError]. *)
Definition py_gt_int (v : value) (n : Z) : option bool :=
  match as_number v with
  | Some z => Some (n <? z)
  | None => None
  end.

(** [a < b] between two numbers.  Only numbers are compared this way in
    the sources ([None] for anything else). *)
Definition num_lt (a b : value) : option bool :=
  match as_number a, as_number b with
  | Some x, Some y => Some (x <? y)
  | _, _ => None
  end.

End Py.


(* ===================================================================== *)
(** * scl_core.py                                                         *)
(* ===================================================================== *)

Module SclCore.
Import Py.

Inductive ModuleType : Type := RETRIEVAL | COGNITION | CONTROL | ACTION | MEMORY.

Definition ModuleType_value (m : ModuleType) : string :=
  match m with
  | RETRIEVAL => "Retrieval"
  | COGNITION => "Cognition"
  | CONTROL => "Control"
  | ACTION => "Action"
  | MEMORY => "Memory"
  end.

(** [LoopTrace].  The [timestamp] field holds the wall clock and is left
    out.  [input_state] and [output_state] hold the dictionary as it is
    when the trace is appended; the source stores a reference to it, and
    no statement below reads these two fields of an old trace. *)
Record LoopTrace : Type := {
  loop_id : string;
  module : string;
  input_state : value;
  output_state : value;
  decision : value;
  validation_result : option bool;
  evidence_refs : value
}.

(** ** MetaPrompt *)

(** [MetaPrompt.rules]: five named flags.  The [instructions] text is
    prose for the prompt and is left out. *)
Record MetaPrompt : Type := {
  must_cite_stored_evidence : bool;
  no_final_answer_without_control_pass : bool;
  single_final_action : bool;
  avoid_redundant_tool_calls : bool;
  validate_conditional_branches : bool
}.

(** [MetaPrompt.__init__] *)
Definition MetaPrompt_init : MetaPrompt :=
  {| must_cite_stored_evidence := true;
     no_final_answer_without_control_pass := true;
     single_final_action := true;
     avoid_redundant_tool_calls := true;
     validate_conditional_branches := true |}.

(** [list(self.rules.keys())] *)
Definition rule_names : list string :=
  [ "must_cite_stored_evidence"; "no_final_answer_without_control_pass";
    "single_final_action"; "avoid_redundant_tool_calls";
    "validate_conditional_branches" ].

Definition missing_citations : string := "Missing evidence citations".
Definition final_without_validation : string :=
  "Final action without Control validation".

(** The local list [issues] of [MetaPrompt.validate]. *)
Definition validate_issues (mp : MetaPrompt) (cognition_output : pydict value)
  : list string :=
  (if must_cite_stored_evidence mp
   then if negb (truthy (get "evidence_refs" cognition_output))
        then [missing_citations] else []
   else [])
  ++
  (if truthy (get "is_final_action" cognition_output)
   then if negb (truthy (get "control_validated" cognition_output))
        then [final_without_validation] else []
   else []).

(** [MetaPrompt.validate] *)
Definition validate (mp : MetaPrompt) (cognition_output : pydict value)
  : bool * string :=
  let issues := validate_issues mp cognition_output in
  let is_valid := Nat.eqb (List.length issues) 0 in
  let message :=
    if is_valid then "PASS" else "VIOLATIONS: " ++ join "; " issues in
  (is_valid, message).

(** ** Memory *)

(** One entry of [Memory.store] (its [timestamp] left out). *)
Record Entry : Type := {
  entry_value : value;
  entry_evidence_id : option string
}.

Record Memory : Type := {
  store : pydict Entry;
  history : list LoopTrace;
  evidence_cache : pydict value
}.

(** [Memory.__init__] *)
Definition Memory_init : Memory :=
  {| store := []; history := []; evidence_cache := [] |}.

Definition write (key : string) (v : value) (evidence_id : option string)
  (m : Memory) : Memory :=
  {| store := setitem key {| entry_value := v; entry_evidence_id := evidence_id |}
                (store m);
     history := history m;
     evidence_cache := evidence_cache m |}.

(** [entry["value"] if entry else None]: an entry is a dictionary of
    three keys, so it is truthy whenever it is there. *)
Definition read (key : string) (m : Memory) : value :=
  match lookup key (store m) with
  | Some entry => entry_value entry
  | None => VNone
  end.

Definition has_evidence (evidence_id : string) (m : Memory) : bool :=
  contains evidence_id (evidence_cache m).

(** [Memory.store_evidence]; the method returns [None]. *)
Definition store_evidence (evidence_id : string) (data : value) (m : Memory)
  : Memory :=
  {| store := store m;
     history := history m;
     evidence_cache := setitem evidence_id data (evidence_cache m) |}.

Definition get_evidence (evidence_id : string) (m : Memory) : value :=
  get evidence_id (evidence_cache m).

Definition log_trace (trace : LoopTrace) (m : Memory) : Memory :=
  {| store := store m;
     history := history m ++ [trace];
     evidence_cache := evidence_cache m |}.

Definition get_state_summary (m : Memory) : value :=
  VDict
    [ ("stored_values",
        VDict (map (fun kv => (fst kv, entry_value (snd kv))) (store m)));
      ("available_evidence", VList (map VStr (keys (evidence_cache m))));
      ("loop_count", VInt (Z.of_nat (List.length (history m)))) ].

(** ** ToolRegistry *)

(** How a call ends: with a value, with an exception that
    [except Exception] catches (carrying [str(e)]), or with one it does
    not catch ([KeyboardInterrupt], [SystemExit], ...). *)
Inductive tool_outcome : Type :=
| Returned (v : value)
| RaisedException (msg : string)
| RaisedBaseException.

(** How a call of the cognition engine ends. *)
Inductive engine_outcome : Type :=
| EngineReturned (response : value)
| EngineRaised.

(** A stage either returns or lets an exception escape to the caller of
    [run]. *)
Inductive outcome (A : Type) : Type :=
| Ok (a : A)
| Raise.
Arguments Ok {A} a.
Arguments Raise {A}.

(** The two ways out of the [while] loop of [run]: the [break] taken
    after the [COMPLETION] banner is printed, or the loop condition
    [loop_counter < max_loops] found false. *)
Inductive loop_exit : Type := Completed | CeilingReached.

Record Summary : Type := {
  total_loops : Z;
  policy_violations : Z;
  final_state : value
}.

(** The dictionary [_generate_audit_report] builds. *)
Record AuditReport : Type := {
  task : value;
  policies : list string;
  log : list LoopTrace;
  summary : Summary
}.

Section Loop.

(** Everything outside the loop that calls can read and change: the
    environment of the tools, the random generator, the internal state of
    the cognition engine. *)
Context {World : Type}.
Variable I : Interp.

(** A registered callable, applied to its keyword arguments. *)
Definition tool_fn : Type := pydict value -> World -> tool_outcome * World.

Record Tool : Type := {
  tool_function : tool_fn;
  tool_description : string;
  tool_registered_name : string
}.

Definition ToolRegistry : Type := pydict Tool.

(** [ToolRegistry.__init__] *)
Definition ToolRegistry_init : ToolRegistry := [].

Definition register (name : string) (func : tool_fn) (description : string)
  (reg : ToolRegistry) : ToolRegistry :=
  setitem name
    {| tool_function := func;
       tool_description := description;
       tool_registered_name := name |} reg.

Definition get_tool_descriptions (reg : ToolRegistry) : value :=
  VList
    (map (fun t => VDict [ ("name", VStr (tool_registered_name t));
                           ("description", VStr (tool_description t)) ])
         (map snd reg)).

(** [ToolRegistry.execute(tool_name, **kwargs)].  The membership test
    hashes [tool_name], which raises [TypeError] for a list or a
    dictionary; a name that is no string is in no case a key. *)
Definition execute (reg : ToolRegistry) (tool_name : value)
  (kwargs : pydict value) (w : World) : tool_outcome * World :=
  match tool_name with
  | VList _ | VDict _ => (RaisedException (msg_unhashable I tool_name), w)
  | VStr s =>
      match lookup s reg with
      | Some t => tool_function t kwargs w
      | None => (RaisedException ("Tool '" ++ s ++ "' not registered"), w)
      end
  | VNone | VBool _ | VInt _ =>
      (RaisedException ("Tool '" ++ py_str I tool_name ++ "' not registered"), w)
  end.

(** The call [self.tools.execute(tool_name, **parameters)] as the
    interpreter sets it up: [parameters] has to be a mapping, and none of
    its keys may name a positional parameter of [execute]. *)
Definition call_execute (reg : ToolRegistry) (tool_name parameters : value)
  (w : World) : tool_outcome * World :=
  match parameters with
  | VDict kwargs =>
      if contains "self" kwargs || contains "tool_name" kwargs
      then (RaisedException (msg_multiple_values I kwargs), w)
      else execute reg tool_name kwargs w
  | _ => (RaisedException (msg_not_a_mapping I parameters), w)
  end.

(** ** StructuredCognitiveLoop *)

(** The cognition engine is called with the prompt and the context.  The
    prompt is a text made of the fixed instructions and of the state
    summary, the tool descriptions and the context; the engine of the
    model receives these three values. *)
Definition engine_fn : Type :=
  value -> value -> pydict value -> World -> engine_outcome * World.

Record StructuredCognitiveLoop : Type := {
  cognition_engine : engine_fn;
  tools : ToolRegistry;
  metaprompt : MetaPrompt;
  memory : Memory;
  max_loops : Z;
  loop_counter : Z
}.

(** [StructuredCognitiveLoop.__init__] *)
Definition StructuredCognitiveLoop_init (engine : engine_fn)
  (tool_registry : ToolRegistry) (mp : MetaPrompt) (ceiling : Z)
  : StructuredCognitiveLoop :=
  {| cognition_engine := engine;
     tools := tool_registry;
     metaprompt := mp;
     memory := Memory_init;
     max_loops := ceiling;
     loop_counter := 0 |}.

Definition with_memory (m : Memory) (self : StructuredCognitiveLoop)
  : StructuredCognitiveLoop :=
  {| cognition_engine := cognition_engine self;
     tools := tools self;
     metaprompt := metaprompt self;
     memory := m;
     max_loops := max_loops self;
     loop_counter := loop_counter self |}.

Definition with_loop_counter (n : Z) (self : StructuredCognitiveLoop)
  : StructuredCognitiveLoop :=
  {| cognition_engine := cognition_engine self;
     tools := tools self;
     metaprompt := metaprompt self;
     memory := memory self;
     max_loops := max_loops self;
     loop_counter := n |}.

Definition retrieval_plan : value :=
  VDict
    [ ("evidence_needed",
        VList [VStr "SF_weather"; VStr "Miami_weather"; VStr "Atlanta_weather"]);
      ("base_temperature", VInt 55);
      ("conditions_parsed", VBool true);
      ("tools_required",
        VList [VStr "get_weather"; VStr "send_email"; VStr "generate_image";
               VStr "cancel_trip"]) ].

Definition retrieval (self : StructuredCognitiveLoop) (task_text : string)
  : value * StructuredCognitiveLoop :=
  let plan := retrieval_plan in
  let m1 := write "task" (VStr task_text) None (memory self) in
  let m2 := write "retrieval_plan" plan None m1 in
  let trace :=
    {| loop_id := "R-001";
       module := ModuleType_value RETRIEVAL;
       input_state := VDict [("task", VStr task_text)];
       output_state := plan;
       decision := VNone;
       validation_result := None;
       evidence_refs := VNone |} in
  (plan, with_memory (log_trace trace m2) self).

(** [cognition]: the counter goes up first, the engine is called, and the
    trace is appended once the engine has returned a dictionary (the
    source calls [response.get], which a value that is no dictionary does
    not have). *)
Definition cognition (self : StructuredCognitiveLoop) (context : pydict value)
  (w : World) : outcome (pydict value * StructuredCognitiveLoop * World) :=
  let self1 := with_loop_counter (loop_counter self + 1) self in
  let id := "CCAM-" ++ fmt_03d (loop_counter self1) in
  let state_summary := get_state_summary (memory self1) in
  let available_tools := get_tool_descriptions (tools self1) in
  match cognition_engine self1 state_summary available_tools context w with
  | (EngineRaised, _) => Raise
  | (EngineReturned (VDict response), w1) =>
      let trace :=
        {| loop_id := id;
           module := ModuleType_value COGNITION;
           input_state := VDict context;
           output_state := VDict response;
           decision := VNone;
           validation_result := None;
           evidence_refs := get "evidence_refs" response |} in
      Ok (response, with_memory (log_trace trace (memory self1)) self1, w1)
  | (EngineReturned _, _) => Raise
  end.

Definition redundant_message : string :=
  "REJECTED: Redundant tool call (evidence already in Memory)".

(** The f-string both [control] and [action] build. *)
Definition evidence_id_of (tool_name parameters : value) : string :=
  "evidence_" ++ py_str I tool_name ++ "_" ++ dumps parameters.

(** The first statement of [control]: a final proposal gets
    [control_validated] set. *)
Definition mark_validated (cognition_output : pydict value) : pydict value :=
  if truthy (get "is_final_action" cognition_output)
  then setitem "control_validated" (VBool true) cognition_output
  else cognition_output.

(** The pair [(is_valid, message)] of [control] before it is logged:
    [None] when [proposed_action] is present and is no dictionary, in
    which case [proposed_action.get] raises. *)
Definition control_verdict (mp : MetaPrompt) (m : Memory)
  (cognition_output : pydict value) : option (bool * string) :=
  let verdict := validate mp cognition_output in
  match get_default "proposed_action" (VDict []) cognition_output with
  | VDict proposed_action =>
      let tool_name := get "tool_name" proposed_action in
      if truthy tool_name
      then
        let evidence_id :=
          evidence_id_of tool_name
            (get_default "parameters" (VDict []) proposed_action) in
        if has_evidence evidence_id m
        then Some (false, redundant_message)
        else Some verdict
      else Some verdict
  | _ => None
  end.

(** [control] returns the verdict; the dictionary it was given has been
    updated in place and is returned with it. *)
Definition control (self : StructuredCognitiveLoop)
  (cognition_output : pydict value)
  : outcome ((bool * string) * pydict value * StructuredCognitiveLoop) :=
  let cognition_output := mark_validated cognition_output in
  match control_verdict (metaprompt self) (memory self) cognition_output with
  | None => Raise
  | Some (is_valid, message) =>
      let trace :=
        {| loop_id := "CTL-" ++ fmt_03d (loop_counter self);
           module := ModuleType_value CONTROL;
           input_state := VDict cognition_output;
           output_state :=
             VDict [("validation", VBool is_valid); ("message", VStr message)];
           decision := VNone;
           validation_result := Some is_valid;
           evidence_refs := VNone |} in
      Ok ((is_valid, message), cognition_output,
          with_memory (log_trace trace (memory self)) self)
  end.

Definition no_action_result : value :=
  VDict [("status", VStr "no_action"); ("result", VNone)].

Definition error_result (msg : string) : value :=
  VDict [("status", VStr "error");
         ("message", VStr ("Action execution failed: " ++ msg))].

Definition action (self : StructuredCognitiveLoop)
  (cognition_output : pydict value) (w : World)
  : outcome (value * StructuredCognitiveLoop * World) :=
  match get_default "proposed_action" (VDict []) cognition_output with
  | VDict proposed_action =>
      let tool_name := get "tool_name" proposed_action in
      let parameters := get_default "parameters" (VDict []) proposed_action in
      if negb (truthy tool_name) then Ok (no_action_result, self, w)
      else
        match call_execute (tools self) tool_name parameters w with
        | (Returned result, w1) =>
            let evidence_id := evidence_id_of tool_name parameters in
            let m1 := store_evidence evidence_id result (memory self) in
            let trace :=
              {| loop_id := "ACT-" ++ fmt_03d (loop_counter self);
                 module := ModuleType_value ACTION;
                 input_state := VDict proposed_action;
                 output_state :=
                   VDict [("result", result); ("evidence_id", VStr evidence_id)];
                 decision := VNone;
                 validation_result := None;
                 evidence_refs := VNone |} in
            Ok (result, with_memory (log_trace trace m1) self, w1)
        | (RaisedException msg, w1) => Ok (error_result msg, self, w1)
        | (RaisedBaseException, _) => Raise
        end
  | _ => Raise
  end.

Definition _generate_audit_report (self : StructuredCognitiveLoop)
  : AuditReport :=
  {| task := read "task" (memory self);
     policies := rule_names;
     log := history (memory self);
     summary :=
       {| total_loops := loop_counter self;
          policy_violations :=
            Z.of_nat
              (List.length
                 (filter (fun t => match validation_result t with
                                   | Some false => true
                                   | _ => false
                                   end)
                         (history (memory self))));
          final_state := get_state_summary (memory self) |} |}.

(** One pass through the body of the [while] loop of [run]: it raises,
    reaches the [continue] or the end of the body, or reaches the
    [break]. *)
Inductive body_result : Type :=
| BodyRaised
| BodyContinue (self : StructuredCognitiveLoop) (context : pydict value)
    (w : World)
| BodyBreak (self : StructuredCognitiveLoop) (context : pydict value)
    (w : World).

Definition loop_body (self : StructuredCognitiveLoop) (context : pydict value)
  (w : World) : body_result :=
  match cognition self context w with
  | Raise => BodyRaised
  | Ok (cognition_output, self1, w1) =>
      match control self1 cognition_output with
      | Raise => BodyRaised
      | Ok ((is_valid, validation_msg), cognition_output, self2) =>
          if negb is_valid then
            BodyContinue self2
              (setitem "last_rejection" (VStr validation_msg) context) w1
          else
            match action self2 cognition_output w1 with
            | Raise => BodyRaised
            | Ok (action_result, self3, w2) =>
                let context :=
                  setitem "last_action_result" action_result context in
                if truthy (get "is_final_action" cognition_output)
                then BodyBreak self3 context w2
                else BodyContinue self3 context w2
            end
      end
  end.

(** How the [while] loop of [run] ends. *)
Inductive loop_result : Type :=
| LoopRaised
| LoopOutOfFuel
| LoopExit (how : loop_exit) (self : StructuredCognitiveLoop)
    (context : pydict value) (w : World).

(** The [while] loop of [run].  [fuel] bounds the number of times the
    loop condition is evaluated; [run] supplies enough of it. *)
Fixpoint ccam_loop (fuel : nat) (self : StructuredCognitiveLoop)
  (context : pydict value) (w : World) : loop_result :=
  match fuel with
  | O => LoopOutOfFuel
  | S fuel' =>
      if loop_counter self <? max_loops self then
        match loop_body self context w with
        | BodyRaised => LoopRaised
        | BodyBreak self' context' w' => LoopExit Completed self' context' w'
        | BodyContinue self' context' w' => ccam_loop fuel' self' context' w'
        end
      else LoopExit CeilingReached self context w
  end.

Inductive run_result : Type :=
| RunRaised
| RunOutOfFuel
| RunReturned (report : AuditReport) (how : loop_exit)
    (self : StructuredCognitiveLoop) (w : World).

Definition run_fuel (self : StructuredCognitiveLoop) : nat :=
  S (Z.to_nat (max_loops self - loop_counter self)).

Definition run (self : StructuredCognitiveLoop) (task_text : string) (w : World)
  : run_result :=
  let (retrieval_result, self1) := retrieval self task_text in
  let context :=
    [ ("task", VStr task_text);
      ("retrieval_plan", retrieval_result);
      ("status", VStr "in_progress") ] in
  match ccam_loop (run_fuel self1) self1 context w with
  | LoopRaised => RunRaised
  | LoopOutOfFuel => RunOutOfFuel
  | LoopExit how self2 _ w2 =>
      RunReturned (_generate_audit_report self2) how self2 w2
  end.


End Loop.

Arguments tool_fn : clear implicits.
Arguments Tool : clear implicits.
Arguments ToolRegistry : clear implicits.
Arguments engine_fn : clear implicits.
Arguments StructuredCognitiveLoop : clear implicits.
Arguments body_result : clear implicits.
Arguments loop_result : clear implicits.
Arguments run_result : clear implicits.

(** ** What the statements below speak of *)

(** The number of traces of one stage in a log. *)
Definition count_module (m : ModuleType) (l : list LoopTrace) : Z :=
  Z.of_nat
    (List.length
       (filter (fun t => String.eqb (module t) (ModuleType_value m)) l)).

(** The proposal cites no evidence: its [evidence_refs] is missing or
    falsy. *)
Definition cites_nothing (cognition_output : pydict value) : bool :=
  negb (truthy (get "evidence_refs" cognition_output)).

(** The proposal is final and its [control_validated] flag is false. *)
Definition final_unvalidated (cognition_output : pydict value) : bool :=
  truthy (get "is_final_action" cognition_output)
  && negb (truthy (get "control_validated" cognition_output)).

(** The tool name and the parameters of the action descriptor of a
    proposal, when it has one. *)
Definition descriptor_of (cognition_output : pydict value)
  : option (value * value) :=
  match get_default "proposed_action" (VDict []) cognition_output with
  | VDict proposed_action =>
      Some (get "tool_name" proposed_action,
            get_default "parameters" (VDict []) proposed_action)
  | _ => None
  end.

(** The proposal names a tool and its evidence identifier is in the
    cache. *)
Definition already_cached (I : Interp) (m : Memory)
  (cognition_output : pydict value) : bool :=
  match descriptor_of cognition_output with
  | Some (tool_name, parameters) =>
      truthy tool_name && has_evidence (evidence_id_of I tool_name parameters) m
  | None => false
  end.

(** What a stage leaves alone: the configuration of the loop object and
    the working store; the counter moves by [dc]. *)
Record frame {World : Type} (dc : Z)
  (self self' : StructuredCognitiveLoop World) : Prop := {
  frame_engine : cognition_engine self' = cognition_engine self;
  frame_tools : tools self' = tools self;
  frame_metaprompt : metaprompt self' = metaprompt self;
  frame_max_loops : max_loops self' = max_loops self;
  frame_store : store (memory self') = store (memory self);
  frame_counter : loop_counter self' = loop_counter self + dc
}.

End SclCore.

(* ===================================================================== *)
(** * mock_cognition.py                                                   *)
(* ===================================================================== *)

Module MockCognition.
Import Py.

(** A weather record is the dictionary a weather tool returned.  [None]
    as a result stands for an exception ([KeyError], [TypeError]) leaving
    the method. *)

Notation "x <- e ;; k" :=
  (match e with Some x => k | None => None end)
  (at level 61, e at next level, right associativity, only parsing).

(** The degree sign of the message texts, one code point. *)
Definition degree_F : string := String "176"%char "F".

(** [[w for w in weather_data if w.get("temperature_f", 0) > base_temp]] *)
Fixpoint above_threshold (weather_data : list (pydict value)) (base_temp : Z)
  : option (list (pydict value)) :=
  match weather_data with
  | [] => Some []
  | w :: rest =>
      hot <- py_gt_int (get_default "temperature_f" (VInt 0) w) base_temp ;;
      others <- above_threshold rest base_temp ;;
      Some (if hot then w :: others else others)
  end.

(** The scan [min] makes once it holds a first candidate: a later item
    replaces the candidate when its key is strictly smaller. *)
Fixpoint min_scan (best : pydict value) (best_key : value)
  (rest : list (pydict value)) : option (pydict value) :=
  match rest with
  | [] => Some best
  | x :: rest' =>
      k <- lookup "temperature_f" x ;;
      smaller <- num_lt k best_key ;;
      if smaller then min_scan x k rest' else min_scan best best_key rest'
  end.

(** [min(l, key=lambda x: x["temperature_f"])] *)
Definition min_by_temperature (l : list (pydict value)) : option (pydict value) :=
  match l with
  | [] => None
  | x :: rest => k <- lookup "temperature_f" x ;; min_scan x k rest
  end.

(** ['Bring umbrella' if w.get('precipitation_chance', 0) > 30 else ...] *)
Definition umbrella_needed (w : pydict value) : option bool :=
  py_gt_int (get_default "precipitation_chance" (VInt 0) w) 30.

Definition umbrella_text (needed : bool) : string :=
  if needed then "Bring umbrella" else "No umbrella needed".

Definition all_weather_refs : value :=
  VList [VStr "weather_sf"; VStr "weather_miami"; VStr "weather_atlanta"].

(** [[w['city'] for w in l]] *)
Fixpoint cities_of (l : list (pydict value)) : option (list value) :=
  match l with
  | [] => Some []
  | w :: rest =>
      c <- lookup "city" w ;;
      cs <- cities_of rest ;;
      Some (c :: cs)
  end.

(** [[f"{w['city']}={w['temperature_f']}°F" for w in l]] *)
Fixpoint temps_of (I : Interp) (l : list (pydict value)) : option (list string) :=
  match l with
  | [] => Some []
  | w :: rest =>
      c <- lookup "city" w ;;
      t <- lookup "temperature_f" w ;;
      ts <- temps_of I rest ;;
      Some ((py_str I c ++ "=" ++ py_str I t ++ degree_F) :: ts)
  end.

Definition _generate_decision (I : Interp) (weather_data : list (pydict value))
  (base_temp : Z) : option (pydict value) :=
  if (List.length weather_data <? 3)%nat then
    Some [ ("reasoning", VStr "Not enough weather data collected yet");
           ("proposed_action", VNone);
           ("evidence_refs", VList []);
           ("is_final_action", VBool false) ]
  else
    above <- above_threshold weather_data base_temp ;;
    if (List.length above =? 3)%nat then
      coolest <- min_by_temperature above ;;
      city <- lookup "city" coolest ;;
      temp <- lookup "temperature_f" coolest ;;
      cond <- lookup "condition" coolest ;;
      umbrella <- umbrella_needed coolest ;;
      Some
        [ ("reasoning",
            VStr ("All three cities are above base temperature "
                  ++ str_of_Z base_temp ++ degree_F
                  ++ ". Per task specification, travel to coolest: "
                  ++ py_str I city ++ " at " ++ py_str I temp ++ degree_F
                  ++ ". Will generate weather image."));
          ("proposed_action",
            VDict
              [ ("tool_name", VStr "generate_image");
                ("parameters",
                  VDict
                    [ ("description",
                        VStr (py_str I city ++ " weather: " ++ py_str I cond
                              ++ ", " ++ py_str I temp ++ degree_F)) ]) ]);
          ("evidence_refs", all_weather_refs);
          ("decision_branch", VStr "all_above_threshold");
          ("is_final_action", VBool true);
          ("control_validated", VBool false);
          ("destination", city);
          ("umbrella_needed", VBool umbrella) ]
    else if (List.length above =? 2)%nat then
      cooler <- min_by_temperature above ;;
      cities <- cities_of above ;;
      city <- lookup "city" cooler ;;
      temp <- lookup "temperature_f" cooler ;;
      cond <- lookup "condition" cooler ;;
      umbrella <- umbrella_needed cooler ;;
      Some
        [ ("reasoning",
            VStr ("Two cities above base temperature: "
                  ++ py_str I (VList cities)
                  ++ ". Per task specification, choose cooler ("
                  ++ py_str I city ++ " at " ++ py_str I temp ++ degree_F
                  ++ ") and send email notification."));
          ("proposed_action",
            VDict
              [ ("tool_name", VStr "send_email");
                ("parameters",
                  VDict
                    [ ("recipient", VStr "test-scl@test.com");
                      ("subject",
                        VStr ("Travel Plan Confirmed: " ++ py_str I city));
                      ("body",
                        VStr ("Based on weather analysis, traveling to "
                              ++ py_str I city ++ ". Temperature: "
                              ++ py_str I temp ++ degree_F ++ ", Condition: "
                              ++ py_str I cond ++ ". "
                              ++ umbrella_text umbrella ++ ".")) ]) ]);
          ("evidence_refs", all_weather_refs);
          ("decision_branch", VStr "two_above_threshold");
          ("is_final_action", VBool true);
          ("control_validated", VBool false);
          ("destination", city);
          ("umbrella_needed", VBool umbrella) ]
    else if (List.length above =? 1)%nat then
      match above with
      | [] => None
      | destination :: _ =>
          city <- lookup "city" destination ;;
          temp <- lookup "temperature_f" destination ;;
          umbrella <- umbrella_needed destination ;;
          Some
            [ ("reasoning",
                VStr ("Only " ++ py_str I city
                      ++ " is above base temperature (" ++ py_str I temp
                      ++ degree_F ++ " > " ++ str_of_Z base_temp ++ degree_F
                      ++ "). Per task specification, travel to that location."));
              ("proposed_action",
                VDict
                  [ ("tool_name", VStr "send_email");
                    ("parameters",
                      VDict
                        [ ("recipient", VStr "test-scl@test.com");
                          ("subject", VStr ("Travel Plan: " ++ py_str I city));
                          ("body",
                            VStr ("Traveling to " ++ py_str I city
                                  ++ ". Temperature: " ++ py_str I temp
                                  ++ degree_F ++ ". "
                                  ++ umbrella_text umbrella ++ ".")) ]) ]);
              ("evidence_refs", all_weather_refs);
              ("decision_branch", VStr "one_above_threshold");
              ("is_final_action", VBool true);
              ("control_validated", VBool false);
              ("destination", city);
              ("umbrella_needed", VBool umbrella) ]
      end
    else
      temps <- temps_of I weather_data ;;
      Some
        [ ("reasoning",
            VStr ("All cities are at or below base temperature "
                  ++ str_of_Z base_temp ++ degree_F ++ ": "
                  ++ join ", " temps
                  ++ ". Per task specification, cancel trip and recommend convenience store snacks."));
          ("proposed_action",
            VDict
              [ ("tool_name", VStr "cancel_trip");
                ("parameters",
                  VDict
                    [ ("reason",
                        VStr "All destinations below comfortable temperature threshold") ]) ]);
          ("evidence_refs", all_weather_refs);
          ("decision_branch", VStr "all_below_threshold");
          ("is_final_action", VBool false);
          ("control_validated", VBool false) ].

End MockCognition.

(* ===================================================================== *)
(** * Concrete instances                                                  *)
(* ===================================================================== *)

Module Examples.
Import Py SclCore.

Definition interp : Interp :=
  {| repr_container := fun _ => "<container>";
     msg_not_a_mapping := fun _ => "argument after ** must be a mapping";
     msg_multiple_values := fun _ => "got multiple values for argument";
     msg_unhashable := fun _ => "unhashable type" |}.

(** A weather tool with a fixed answer, and a tool that always fails. *)
Definition fixed_weather : tool_fn unit :=
  fun kwargs w =>
    (Returned (VDict [("city", get "city" kwargs); ("temperature_f", VInt 60)]), w).

Definition broken_tool : tool_fn unit :=
  fun _ w => (RaisedException "service unavailable", w).

Definition registry : ToolRegistry unit :=
  register "broken" broken_tool "Always fails"
    (register "get_weather" fixed_weather "Get current weather for a city"
       ToolRegistry_init).

(** The proposal [_generate_weather_query] builds for a city. *)
Definition weather_query (city : string) : pydict value :=
  [ ("reasoning", VStr "Need weather data");
    ("proposed_action",
      VDict [ ("tool_name", VStr "get_weather");
              ("parameters", VDict [("city", VStr city)]) ]);
    ("evidence_refs", VList [VStr "retrieval_plan"]);
    ("is_final_action", VBool false);
    ("control_validated", VBool false) ].

(** A proposal for [tool] that cites nothing. *)
Definition uncited_query (tool : string) : pydict value :=
  [ ("reasoning", VStr "No evidence at hand");
    ("proposed_action",
      VDict [ ("tool_name", VStr tool); ("parameters", VDict []) ]);
    ("evidence_refs", VList []);
    ("is_final_action", VBool false) ].

(** A final proposal as [_generate_decision] leaves it. *)
Definition final_email : pydict value :=
  [ ("reasoning", VStr "Decision made");
    ("proposed_action",
      VDict [ ("tool_name", VStr "send_email");
              ("parameters", VDict [("recipient", VStr "test-scl@test.com")]) ]);
    ("evidence_refs", VList [VStr "weather_sf"]);
    ("is_final_action", VBool true);
    ("control_validated", VBool false) ].

(** An engine that answers every call with the same proposal. *)
Definition constant_engine (response : pydict value) : engine_fn unit :=
  fun _ _ _ w => (EngineReturned (VDict response), w).

Definition loop_of (response : pydict value) (ceiling : Z)
  : StructuredCognitiveLoop unit :=
  StructuredCognitiveLoop_init (constant_engine response) registry
    MetaPrompt_init ceiling.

(** The weather records of the two-above-threshold scenario, shaped as
    the weather tool of [mock_tools.py] returns them. *)
Definition weather_record (city : string) (temperature : Z) (condition : string)
  (precipitation : Z) (api_ref : string) : pydict value :=
  [ ("city", VStr city);
    ("temperature_f", VInt temperature);
    ("condition", VStr condition);
    ("precipitation_chance", VInt precipitation);
    ("api_ref", VStr api_ref) ].

Definition san_francisco (condition : string) (precipitation : Z) : pydict value :=
  weather_record "San Francisco" 60 condition precipitation "wx-sanfrancisco-001".

Definition miami (condition : string) (precipitation : Z) : pydict value :=
  weather_record "Miami" 75 condition precipitation "wx-miami-001".

Definition atlanta (condition : string) (precipitation : Z) : pydict value :=
  weather_record "Atlanta" 50 condition precipitation "wx-atlanta-001".

Definition scenario_A (c1 c2 c3 : string) (p1 p2 p3 : Z) : list (pydict value) :=
  [ san_francisco c1 p1; miami c2 p2; atlanta c3 p3 ].

(** A fresh loop object after [retrieval]. *)
Definition retrieved (response : pydict value) (ceiling : Z)
  : StructuredCognitiveLoop unit :=
  snd (retrieval (loop_of response ceiling) "plan a trip").




(** A rule set with the three flags under discussion switched off. *)
Definition relaxed_rules : MetaPrompt :=
  {| must_cite_stored_evidence := true;
     no_final_answer_without_control_pass := true;
     single_final_action := false;
     avoid_redundant_tool_calls := false;
     validate_conditional_branches := false |}.

Definition relaxed_loop (response : pydict value) : StructuredCognitiveLoop unit :=
  StructuredCognitiveLoop_init (constant_engine response) registry
    relaxed_rules 20.

End Examples.

(* ===================================================================== *)
(** * The shape of the audit log                                          *)
(* ===================================================================== *)

Module AuditLog.
Import Py SclCore.

(** What identifies a trace in the log: its [loop_id] and its stage. *)
Definition stamp (t : LoopTrace) : string * string := (loop_id t, module t).

(** The loop id and stage the stages write for pass [k], with the
    format of the source. *)
Definition cognition_stamp (k : Z) : string * string :=
  ("CCAM-" ++ fmt_03d k, ModuleType_value COGNITION).

Definition control_stamp (k : Z) : string * string :=
  ("CTL-" ++ fmt_03d k, ModuleType_value CONTROL).

Definition action_stamp (k : Z) : string * string :=
  ("ACT-" ++ fmt_03d k, ModuleType_value ACTION).

(** The number of a pass as the loop ids show it: three decimal digits
    up to 999, the plain decimal numeral from 1000 on. *)
Definition digit_char (d : Z) : ascii := ascii_of_N (48 + Z.to_N d).

Definition pass_number (k : Z) : string :=
  if k <? 1000
  then String (digit_char (k / 100))
         (String (digit_char ((k / 10) mod 10))
            (String (digit_char (k mod 10)) EmptyString))
  else str_of_Z k.

(** The traces of pass number [k], by loop id and stage: Cognition,
    Control, and an Action trace when a tool was run and returned. *)
Inductive pass_block (k : Z) : list (string * string) -> Prop :=
| block_without_action :
    pass_block k
      [ ("CCAM-" ++ pass_number k, "Cognition");
        ("CTL-" ++ pass_number k, "Control") ]
| block_with_action :
    pass_block k
      [ ("CCAM-" ++ pass_number k, "Cognition");
        ("CTL-" ++ pass_number k, "Control");
        ("ACT-" ++ pass_number k, "Action") ].

(** [pass_blocks k k' l]: [l] is made of the blocks of the passes
    [k], [k + 1], ..., [k' - 1], in this order. *)
Inductive pass_blocks : Z -> Z -> list (string * string) -> Prop :=
| blocks_none : forall k, pass_blocks k k []
| blocks_more : forall k k' l b,
    pass_blocks k k' l -> pass_block k' b ->
    pass_blocks k (k' + 1) (l ++ b).

(** The traces that record a rejection by the gate. *)
Definition is_rejection (t : LoopTrace) : bool :=
  String.eqb (module t) (ModuleType_value CONTROL)
  && match validation_result t with Some false => true | _ => false end.

Definition count_rejections (l : list LoopTrace) : Z :=
  Z.of_nat (List.length (filter is_rejection l)).

(** Only the traces of the gate carry a validation result. *)
Definition verdicts_with_control (l : list LoopTrace) : Prop :=
  Forall (fun t => validation_result t <> None ->
                   module t = ModuleType_value CONTROL) l.

(** What the counters of the log are while the loop runs. *)
Definition counts_hold {World : Type}
  (self : StructuredCognitiveLoop World) : Prop :=
  verdicts_with_control (history (memory self))
  /\ count_module RETRIEVAL (history (memory self)) = 1
  /\ count_module COGNITION (history (memory self)) = loop_counter self
  /\ count_module CONTROL (history (memory self)) = loop_counter self
  /\ count_module ACTION (history (memory self))
     + count_rejections (history (memory self)) <= loop_counter self.

(** The log is the Retrieval trace followed by the blocks of the passes
    made so far. *)
Definition log_in_order {World : Type}
  (self : StructuredCognitiveLoop World) : Prop :=
  0 <= loop_counter self
  /\ exists l,
       map stamp (history (memory self)) = ("R-001", "Retrieval") :: l
       /\ pass_blocks 1 (loop_counter self + 1) l.

End AuditLog.

(* ===================================================================== *)
(** * mock_cognition.py: the engine as a whole                            *)
(* ===================================================================== *)

Module MockEngine.
Import Py MockCognition.

(** ** Equality and membership of Python values *)

(** [a == b]: numbers by their value ([True == 1]), strings and lists
    item by item, dictionaries as sets of items, and [False] across
    kinds. *)
Fixpoint py_eq (a b : value) {struct a} : bool :=
  match a, b with
  | VNone, VNone => true
  | VStr s, VStr t => String.eqb s t
  | VList l, VList l' =>
      (fix items_eq (l l' : list value) {struct l} : bool :=
         match l, l' with
         | [], [] => true
         | x :: r, y :: r' => py_eq x y && items_eq r r'
         | _, _ => false
         end) l l'
  | VDict d, VDict d' =>
      Nat.eqb (List.length d) (List.length d')
      && forallb (fun kv => match lookup (fst kv) d' with
                            | Some v' => py_eq (snd kv) v'
                            | None => false
                            end) d
  | _, _ =>
      match as_number a, as_number b with
      | Some x, Some y => x =? y
      | _, _ => false
      end
  end.

(** [x in l] for a list [l]. *)
Definition py_in (x : value) (l : list value) : bool :=
  existsb (fun e => py_eq e x) l.

(** [a < b]; [None] when Python raises [TypeError].  Numbers compare by
    value, strings by code points, lists by their first pair of unequal
    items (a proper prefix being smaller); nothing else is ordered. *)
Fixpoint py_lt (a b : value) {struct a} : option bool :=
  match a, b with
  | VStr s, VStr t => Some (negb (str_leb t s))
  | VList l, VList l' =>
      (fix items_lt (l l' : list value) {struct l} : option bool :=
         match l, l' with
         | [], [] => Some false
         | [], _ :: _ => Some true
         | _ :: _, [] => Some false
         | x :: r, y :: r' => if py_eq x y then items_lt r r' else py_lt x y
         end) l l'
  | _, _ =>
      match as_number a, as_number b with
      | Some x, Some y => Some (x <? y)
      | _, _ => None
      end
  end.

(** [needle in hay] for two strings. *)
Fixpoint is_substring (needle hay : string) : bool :=
  if String.prefix needle hay then true
  else match hay with
       | EmptyString => false
       | String _ rest => is_substring needle rest
       end.

Fixpoint characters (s : string) : list value :=
  match s with
  | EmptyString => []
  | String c rest => VStr (String c EmptyString) :: characters rest
  end.

(** The items a [for] loop goes through; [None] when the value is not
    iterable. *)
Definition iterate (v : value) : option (list value) :=
  match v with
  | VList l => Some l
  | VStr s => Some (characters s)
  | VDict d => Some (map VStr (keys d))
  | VNone | VBool _ | VInt _ => None
  end.

(** ** [_generate_weather_query] *)

Definition city_map : pydict value :=
  [ ("SF_weather", VStr "San Francisco");
    ("Miami_weather", VStr "Miami");
    ("Atlanta_weather", VStr "Atlanta") ].

(** [city_map.get(city_key, city_key)]; [None] when the key cannot be
    hashed. *)
Definition mapped_city (city_key : value) : option value :=
  match city_key with
  | VList _ | VDict _ => None
  | VStr s => Some (get_default s city_key city_map)
  | VNone | VBool _ | VInt _ => Some city_key
  end.

Definition weather_query_for (I : Interp) (city_name : value) : pydict value :=
  [ ("reasoning",
      VStr ("Need weather data for " ++ py_str I city_name
            ++ ". Consulting Memory shows no existing data for this city. Will query weather API."));
    ("proposed_action",
      VDict [ ("tool_name", VStr "get_weather");
              ("parameters", VDict [("city", city_name)]) ]);
    ("evidence_refs", VList [VStr "retrieval_plan"]);
    ("is_final_action", VBool false);
    ("control_validated", VBool false) ].

Definition all_collected_response : pydict value :=
  [ ("reasoning",
      VStr "All weather data collected. Ready to analyze and make travel decision.");
    ("proposed_action", VNone);
    ("evidence_refs", all_weather_refs);
    ("is_final_action", VBool false) ].

(** The [for] loop over the cities needed. *)
Fixpoint next_query (I : Interp) (cities_needed collected_cities : list value)
  : option (pydict value) :=
  match cities_needed with
  | [] => Some all_collected_response
  | city_key :: rest =>
      city_name <- mapped_city city_key ;;
      if negb (py_in city_name collected_cities)
      then Some (weather_query_for I city_name)
      else next_query I rest collected_cities
  end.

Definition _generate_weather_query (I : Interp) (cities_needed : value)
  (already_collected : list (pydict value)) : option (pydict value) :=
  let collected_cities := map (get "city") already_collected in
  needed <- iterate cities_needed ;;
  next_query I needed collected_cities.

(** ** [_generate_decision] for a base temperature of any kind *)

(** [[w for w in weather_data if w.get("temperature_f", 0) > base_temp]],
    with [base_temp < v] for [v > base_temp]. *)
Fixpoint above_base (base_temp : value) (weather_data : list (pydict value))
  : option (list (pydict value)) :=
  match weather_data with
  | [] => Some []
  | w :: rest =>
      hot <- py_lt base_temp (get_default "temperature_f" (VInt 0) w) ;;
      others <- above_base base_temp rest ;;
      Some (if hot then w :: others else others)
  end.

Fixpoint min_scan_any (best : pydict value) (best_key : value)
  (rest : list (pydict value)) : option (pydict value) :=
  match rest with
  | [] => Some best
  | x :: rest' =>
      k <- lookup "temperature_f" x ;;
      smaller <- py_lt k best_key ;;
      if smaller then min_scan_any x k rest' else min_scan_any best best_key rest'
  end.

Definition min_by_temperature_any (l : list (pydict value))
  : option (pydict value) :=
  match l with
  | [] => None
  | x :: rest => k <- lookup "temperature_f" x ;; min_scan_any x k rest
  end.

(** [w.get('precipitation_chance', 0) > 30] *)
Definition umbrella_needed_any (w : pydict value) : option bool :=
  py_lt (VInt 30) (get_default "precipitation_chance" (VInt 0) w).

(** [_generate_decision], the base temperature being any value: the
    same statements as in [MockCognition._generate_decision], with the
    comparisons of Python values. *)
Definition _generate_decision_any (I : Interp)
  (weather_data : list (pydict value)) (base_temp : value)
  : option (pydict value) :=
  if (List.length weather_data <? 3)%nat then
    Some [ ("reasoning", VStr "Not enough weather data collected yet");
           ("proposed_action", VNone);
           ("evidence_refs", VList []);
           ("is_final_action", VBool false) ]
  else
    above <- above_base base_temp weather_data ;;
    if (List.length above =? 3)%nat then
      coolest <- min_by_temperature_any above ;;
      city <- lookup "city" coolest ;;
      temp <- lookup "temperature_f" coolest ;;
      cond <- lookup "condition" coolest ;;
      umbrella <- umbrella_needed_any coolest ;;
      Some
        [ ("reasoning",
            VStr ("All three cities are above base temperature "
                  ++ py_str I base_temp ++ degree_F
                  ++ ". Per task specification, travel to coolest: "
                  ++ py_str I city ++ " at " ++ py_str I temp ++ degree_F
                  ++ ". Will generate weather image."));
          ("proposed_action",
            VDict
              [ ("tool_name", VStr "generate_image");
                ("parameters",
                  VDict
                    [ ("description",
                        VStr (py_str I city ++ " weather: " ++ py_str I cond
                              ++ ", " ++ py_str I temp ++ degree_F)) ]) ]);
          ("evidence_refs", all_weather_refs);
          ("decision_branch", VStr "all_above_threshold");
          ("is_final_action", VBool true);
          ("control_validated", VBool false);
          ("destination", city);
          ("umbrella_needed", VBool umbrella) ]
    else if (List.length above =? 2)%nat then
      cooler <- min_by_temperature_any above ;;
      cities <- cities_of above ;;
      city <- lookup "city" cooler ;;
      temp <- lookup "temperature_f" cooler ;;
      cond <- lookup "condition" cooler ;;
      umbrella <- umbrella_needed_any cooler ;;
      Some
        [ ("reasoning",
            VStr ("Two cities above base temperature: "
                  ++ py_str I (VList cities)
                  ++ ". Per task specification, choose cooler ("
                  ++ py_str I city ++ " at " ++ py_str I temp ++ degree_F
                  ++ ") and send email notification."));
          ("proposed_action",
            VDict
              [ ("tool_name", VStr "send_email");
                ("parameters",
                  VDict
                    [ ("recipient", VStr "test-scl@test.com");
                      ("subject",
                        VStr ("Travel Plan Confirmed: " ++ py_str I city));
                      ("body",
                        VStr ("Based on weather analysis, traveling to "
                              ++ py_str I city ++ ". Temperature: "
                              ++ py_str I temp ++ degree_F ++ ", Condition: "
                              ++ py_str I cond ++ ". "
                              ++ umbrella_text umbrella ++ ".")) ]) ]);
          ("evidence_refs", all_weather_refs);
          ("decision_branch", VStr "two_above_threshold");
          ("is_final_action", VBool true);
          ("control_validated", VBool false);
          ("destination", city);
          ("umbrella_needed", VBool umbrella) ]
    else if (List.length above =? 1)%nat then
      match above with
      | [] => None
      | destination :: _ =>
          city <- lookup "city" destination ;;
          temp <- lookup "temperature_f" destination ;;
          umbrella <- umbrella_needed_any destination ;;
          Some
            [ ("reasoning",
                VStr ("Only " ++ py_str I city
                      ++ " is above base temperature (" ++ py_str I temp
                      ++ degree_F ++ " > " ++ py_str I base_temp ++ degree_F
                      ++ "). Per task specification, travel to that location."));
              ("proposed_action",
                VDict
                  [ ("tool_name", VStr "send_email");
                    ("parameters",
                      VDict
                        [ ("recipient", VStr "test-scl@test.com");
                          ("subject", VStr ("Travel Plan: " ++ py_str I city));
                          ("body",
                            VStr ("Traveling to " ++ py_str I city
                                  ++ ". Temperature: " ++ py_str I temp
                                  ++ degree_F ++ ". "
                                  ++ umbrella_text umbrella ++ ".")) ]) ]);
              ("evidence_refs", all_weather_refs);
              ("decision_branch", VStr "one_above_threshold");
              ("is_final_action", VBool true);
              ("control_validated", VBool false);
              ("destination", city);
              ("umbrella_needed", VBool umbrella) ]
      end
    else
      temps <- temps_of I weather_data ;;
      Some
        [ ("reasoning",
            VStr ("All cities are at or below base temperature "
                  ++ py_str I base_temp ++ degree_F ++ ": "
                  ++ join ", " temps
                  ++ ". Per task specification, cancel trip and recommend convenience store snacks."));
          ("proposed_action",
            VDict
              [ ("tool_name", VStr "cancel_trip");
                ("parameters",
                  VDict
                    [ ("reason",
                        VStr "All destinations below comfortable temperature threshold") ]) ]);
          ("evidence_refs", all_weather_refs);
          ("decision_branch", VStr "all_below_threshold");
          ("is_final_action", VBool false);
          ("control_validated", VBool false) ].

(** ** [__call__] *)

Record engine_state : Type := {
  call_count : Z;
  collected_weather : list (pydict value)
}.

(** [MockCognitionEngine.__init__] *)
Definition engine_init : engine_state :=
  {| call_count := 0; collected_weather := [] |}.

(** How a call of the engine ends. *)
Inductive call_result : Type :=
| CallRaised
| CallReturned (response : pydict value) (st : engine_state).

(** [self._generate_decision(collected, base_temp)] *)
Definition decide (I : Interp) (collected : list (pydict value))
  (base_temp : value) : option (pydict value) :=
  match base_temp with
  | VInt z => _generate_decision I collected z
  | _ => _generate_decision_any I collected base_temp
  end.

(** The record the call keeps from [last_action_result], if any; [None]
    when looking at it raises. *)
Definition tracked (last_action_result : value)
  (collected : list (pydict value)) : option (list (pydict value)) :=
  match last_action_result with
  | VDict d =>
      if truthy last_action_result && contains "temperature_f" d then
        let city := get "city" d in
        let temp := get "temperature_f" d in
        if truthy city
           && match temp with VNone => false | _ => true end
           && negb (py_in city (map (get "city") collected))
        then Some (collected ++ [d])%list
        else Some collected
      else Some collected
  | VStr s =>
      if truthy last_action_result && is_substring "temperature_f" s
      then None else Some collected
  | VList l =>
      if truthy last_action_result && py_in (VStr "temperature_f") l
      then None else Some collected
  | VInt _ | VBool _ =>
      if truthy last_action_result then None else Some collected
  | VNone => Some collected
  end.

Definition call (I : Interp) (st : engine_state) (context : pydict value)
  : call_result :=
  let count := call_count st + 1 in
  let state_summary := get_default "retrieval_plan" (VDict []) context in
  let last_action_result := get_default "last_action_result" (VDict []) context in
  match tracked last_action_result (collected_weather st) with
  | None => CallRaised
  | Some collected =>
      match state_summary with
      | VDict plan =>
          let evidence_needed := get_default "evidence_needed" (VList []) plan in
          let base_temp := get_default "base_temperature" (VInt 55) plan in
          let st' := {| call_count := count; collected_weather := collected |} in
          if (List.length collected <? 3)%nat then
            match _generate_weather_query I evidence_needed collected with
            | Some response => CallReturned response st'
            | None => CallRaised
            end
          else
            match decide I collected base_temp with
            | Some response => CallReturned response st'
            | None => CallRaised
            end
      | _ => CallRaised
      end
  end.

(** The records kept name pairwise different cities: none names a city
    of a record kept before it. *)
Fixpoint cities_differ (seen : list value) (l : list (pydict value)) : bool :=
  match l with
  | [] => true
  | w :: rest =>
      negb (py_in (get "city" w) seen)
      && cities_differ (seen ++ [get "city" w]) rest
  end.

(** The number a record holds under [temperature_f]. *)
Definition temperature_of (w : pydict value) : option Z :=
  match lookup "temperature_f" w with
  | Some v => as_number v
  | None => None
  end.

(** The record counts as above the base temperature in
    [_generate_decision]: its [temperature_f] (0 when missing) is a
    number greater than the base. *)
Definition is_above (base_temp : Z) (w : pydict value) : bool :=
  match py_gt_int (get_default "temperature_f" (VInt 0) w) base_temp with
  | Some hot => hot
  | None => false
  end.



End MockEngine.

(* ===================================================================== *)
(** * mock_cognition.py: [SimplifiedCognitionEngine]                      *)
(* ===================================================================== *)

Module SimplifiedEngine.
Import Py SclCore.

(** The object: [phase] is set once and never read; [weather_data] is
    the dictionary [store_weather] fills, its keys taken to be strings,
    as [store_weather] declares them. *)
Record SimplifiedCognitionEngine : Type := {
  phase : string;
  weather_data : pydict value
}.

(** [SimplifiedCognitionEngine.__init__] *)
Definition SimplifiedCognitionEngine_init : SimplifiedCognitionEngine :=
  {| phase := "init"; weather_data := [] |}.

(** The three proposals that ask for the weather of a city. *)
Definition query (reasoning city : string) (refs : list value)
  : pydict value :=
  [ ("reasoning", VStr reasoning);
    ("proposed_action",
      VDict [ ("tool_name", VStr "get_weather");
              ("parameters", VDict [("city", VStr city)]) ]);
    ("evidence_refs", VList refs);
    ("is_final_action", VBool false) ].

Definition travel_decision : pydict value :=
  [ ("reasoning",
      VStr "All weather data collected. Making travel decision based on temperatures.");
    ("proposed_action",
      VDict [ ("tool_name", VStr "send_email");
              ("parameters",
                VDict [ ("recipient", VStr "test-scl@test.com");
                        ("subject", VStr "Travel Decision");
                        ("body",
                          VStr "Decision made based on weather analysis.") ]) ]);
    ("evidence_refs",
      VList [VStr "weather_sf"; VStr "weather_miami"; VStr "weather_atlanta"]);
    ("is_final_action", VBool true) ].

(** [SimplifiedCognitionEngine.__call__]: neither the prompt nor the
    context is read, and the object is left as it is. *)
Definition call (self : SimplifiedCognitionEngine) : pydict value :=
  if negb (contains "San Francisco" (weather_data self)) then
    query "Need San Francisco weather data first" "San Francisco" []
  else if negb (contains "Miami" (weather_data self)) then
    query "Need Miami weather data" "Miami" [VStr "weather_sf"]
  else if negb (contains "Atlanta" (weather_data self)) then
    query "Need Atlanta weather data" "Atlanta"
      [VStr "weather_sf"; VStr "weather_miami"]
  else travel_decision.

(** [SimplifiedCognitionEngine.store_weather] *)
Definition store_weather (city : string) (data : value)
  (self : SimplifiedCognitionEngine) : SimplifiedCognitionEngine :=
  {| phase := phase self;
     weather_data := setitem city data (weather_data self) |}.

(** The object as the loop calls it: it is the world the tools may act
    on, through [store_weather]. *)
Definition engine : engine_fn SimplifiedCognitionEngine :=
  fun _ _ _ w => (EngineReturned (VDict (call w)), w).

End SimplifiedEngine.

(* ===================================================================== *)
(** * mock_tools.py                                                       *)
(* ===================================================================== *)

Module MockTools.
Import Py SclCore MockEngine.

(** What the process the tools run in contributes: the successive
    results of [random.randint], the [hash] of a string, and the texts
    of the exceptions the interpreter raises in a tool. *)
Record Host : Type := {
  randint : nat -> Z -> Z -> Z;
  hash : string -> Z;
  msg_bad_call : string -> pydict value -> string;
  msg_bad_argument : string -> value -> string
}.

(** [random.randint(a, b)] returns a number between [a] and [b]. *)
Definition randint_in_range (H : Host) : Prop :=
  forall n a b, a <= b -> a <= randint H n a b <= b.

(** The world of the experiment: how many random numbers were drawn, and
    the state of the cognition engine. *)
Record world : Type := {
  drawn : nat;
  engine : engine_state
}.

Definition draw (k : nat) (w : world) : world :=
  {| drawn := drawn w + k; engine := engine w |}.

(** A call with keyword arguments binds when every keyword names a
    parameter and every parameter without default is given. *)
Definition binds (required optional : list string) (kwargs : pydict value)
  : bool :=
  forallb (fun k => existsb (String.eqb k) (required ++ optional)) (keys kwargs)
  && forallb (fun k => contains k kwargs) required.

(** ** Strings *)

(** [s.replace(c, new)] for a one-character [c]. *)
Fixpoint replace_char (c : ascii) (new : string) (s : string) : string :=
  match s with
  | EmptyString => EmptyString
  | String x rest =>
      if Ascii.eqb x c then new ++ replace_char c new rest
      else String x (replace_char c new rest)
  end.

(** [s.lower()] on code points below 256: the letters [A]-[Z] and the
    accented capitals [0xC0]-[0xDE], the sign [0xD7] apart, move up by
    32. *)
Definition lower_char (x : ascii) : ascii :=
  let n := N_of_ascii x in
  (if ((65 <=? n) && (n <=? 90))
      || ((192 <=? n) && (n <=? 222) && negb (n =? 215))
   then ascii_of_N (n + 32) else x)%N.

Fixpoint lower (s : string) : string :=
  match s with
  | EmptyString => EmptyString
  | String x rest => String (lower_char x) (lower rest)
  end.


Definition space : ascii := "032"%char.
Definition underscore : string := "_".

(** ** [get_weather] *)

(** The dictionary [weather_db], built anew at every call from three
    random numbers. *)
Definition weather_db (H : Host) (n : nat) : pydict (Z * string) :=
  [ ("San Francisco", (randint H n 50 75, "Partly Cloudy"));
    ("Miami", (randint H (n + 1) 70 90, "Sunny"));
    ("Atlanta", (randint H (n + 2) 55 80, "Clear")) ].

Definition city_not_found (city : value) : value :=
  VDict [ ("city", city);
          ("error", VStr "City not found");
          ("temperature_f", VNone) ].

Definition get_weather (H : Host) (I : Interp) : tool_fn world :=
  fun kwargs w =>
    if binds ["city"] [] kwargs then
      let city := get "city" kwargs in
      let n := drawn w in
      match city with
      | VList _ | VDict _ => (RaisedException (msg_unhashable I city), draw 3 w)
      | VStr s =>
          match lookup s (weather_db H n) with
          | Some (temp, condition) =>
              (Returned
                 (VDict
                    [ ("city", city);
                      ("temperature_f", VInt (temp + randint H (n + 3) (-5) 5));
                      ("condition", VStr condition);
                      ("precipitation_chance", VInt (randint H (n + 4) 0 50));
                      ("api_ref",
                        VStr ("wx-"
                              ++ lower (replace_char space EmptyString s)
                              ++ "-001")) ]),
               draw 5 w)
          | None => (Returned (city_not_found city), draw 3 w)
          end
      | VNone | VBool _ | VInt _ => (Returned (city_not_found city), draw 3 w)
      end
    else (RaisedException (msg_bad_call H "get_weather" kwargs), w).

(** ** [send_email] *)

(** The body is sliced and hashed; both work on a string, and one of
    them raises on any other value of the model. *)
Definition send_email (H : Host) : tool_fn world :=
  fun kwargs w =>
    if binds ["recipient"; "subject"; "body"] [] kwargs then
      match get "body" kwargs with
      | VStr body =>
          (Returned
             (VDict
                [ ("status", VStr "sent");
                  ("recipient", get "recipient" kwargs);
                  ("subject", get "subject" kwargs);
                  ("timestamp", VStr "2024-01-15T10:30:00Z");
                  ("message_id",
                    VStr ("msg-" ++ str_of_Z (hash H body mod 10000))) ]),
           w)
      | other => (RaisedException (msg_bad_argument H "body" other), w)
      end
    else (RaisedException (msg_bad_call H "send_email" kwargs), w).

(** ** [generate_image] *)

Definition generate_image (H : Host) : tool_fn world :=
  fun kwargs w =>
    if binds ["description"] [] kwargs then
      match get "description" kwargs with
      | VStr description =>
          (Returned
             (VDict
                [ ("status", VStr "generated");
                  ("description", VStr description);
                  ("image_url",
                    VStr ("https://placeholder.com/weather/"
                          ++ replace_char space underscore description
                          ++ ".jpg"));
                  ("format", VStr "JPEG");
                  ("size", VStr "1024x768") ]),
           w)
      | other => (RaisedException (msg_bad_argument H "description" other), w)
      end
    else (RaisedException (msg_bad_call H "generate_image" kwargs), w).

(** ** [cancel_trip] *)

Definition cancel_trip (H : Host) : tool_fn world :=
  fun kwargs w =>
    if binds ["reason"] [] kwargs then
      (Returned
         (VDict
            [ ("status", VStr "cancelled");
              ("reason", get "reason" kwargs);
              ("refund_initiated", VBool true) ]),
       w)
    else (RaisedException (msg_bad_call H "cancel_trip" kwargs), w).

(** ** [recommend_snacks] *)

Definition snack_lists : pydict (list string) :=
  [ ("general",
      ["Honey Butter Chips"; "Choco Pie"; "Pepero Sticks"; "Shin Ramyun Cup";
       "Market O Brownies"]);
    ("sweet",
      ["Choco Pie"; "Market O Brownies"; "Custard Cake"; "Pepero Almond";
       "Crown Sando"]);
    ("savory",
      ["Honey Butter Chips"; "Shin Ramyun Cup"; "Squid Peanut Snack";
       "Turtle Chips"; "Seaweed Snack"]) ].

Definition general_snacks : list string :=
  match lookup "general" snack_lists with Some l => l | None => [] end.

Definition recommend_snacks (H : Host) (I : Interp) : tool_fn world :=
  fun kwargs w =>
    if binds [] ["preferences"] kwargs then
      let preferences := get_default "preferences" (VStr "general") kwargs in
      match preferences with
      | VList _ | VDict _ =>
          (RaisedException (msg_unhashable I preferences), w)
      | _ =>
          let snacks :=
            match preferences with
            | VStr p =>
                match lookup p snack_lists with
                | Some l => l
                | None => general_snacks
                end
            | _ => general_snacks
            end in
          (Returned
             (VDict
                [ ("status", VStr "recommended");
                  ("preference", preferences);
                  ("snacks", VList (map VStr snacks));
                  ("total_items", VInt (Z.of_nat (List.length snacks))) ]),
           w)
      end
    else (RaisedException (msg_bad_call H "recommend_snacks" kwargs), w).

(** ** [check_umbrella_needed] *)

Definition check_umbrella_needed (H : Host) : tool_fn world :=
  fun kwargs w =>
    if binds ["city"; "precipitation_chance"] [] kwargs then
      let chance := get "precipitation_chance" kwargs in
      match as_number chance with
      | Some p =>
          (Returned
             (VDict
                [ ("city", get "city" kwargs);
                  ("precipitation_chance", chance);
                  ("recommendation",
                    VStr (if 30 <? p then "Bring umbrella"
                          else "No umbrella needed"));
                  ("confidence",
                    VStr (if 20 <? Z.abs (p - 30) then "high" else "medium")) ]),
           w)
      | None =>
          (RaisedException (msg_bad_argument H "precipitation_chance" chance), w)
      end
    else (RaisedException (msg_bad_call H "check_umbrella_needed" kwargs), w).

End MockTools.

(* ===================================================================== *)
(** * run_experiment.py                                                   *)
(* ===================================================================== *)

Module RunExperiment.
Import Py SclCore AuditLog MockEngine MockTools.

(** The [MockCognitionEngine] object as the loop calls it: its state
    lives in the world, and the prompt goes unread. *)
Definition mock_cognition_engine (I : Interp) : engine_fn world :=
  fun _ _ context w =>
    match call I (engine w) context with
    | CallReturned response st =>
        (EngineReturned (VDict response), {| drawn := drawn w; engine := st |})
    | CallRaised => (EngineRaised, w)
    end.

(** The six registrations of [setup_experiment], in order. *)
Definition tool_registry (H : Host) (I : Interp) : ToolRegistry world :=
  register "check_umbrella" (check_umbrella_needed H)
    "Determine if umbrella is needed based on precipitation"
    (register "recommend_snacks" (recommend_snacks H I)
       "Get convenience store snack recommendations"
       (register "cancel_trip" (cancel_trip H)
          "Cancel travel plans with specified reason"
          (register "generate_image" (generate_image H)
             "Generate weather visualization image from description"
             (register "send_email" (send_email H)
                "Send email notification with subject and body"
                (register "get_weather" (get_weather H I)
                   "Get current weather for a city (temperature, condition, precipitation)"
                   ToolRegistry_init))))).

Definition setup_experiment (H : Host) (I : Interp)
  : StructuredCognitiveLoop world :=
  StructuredCognitiveLoop_init (mock_cognition_engine I) (tool_registry H I)
    MetaPrompt_init 20.

(** The world [run_weather_scenario] starts in: the random numbers the
    process has drawn before, and a fresh engine. *)
Definition initial_world (already_drawn : nat) : world :=
  {| drawn := already_drawn; engine := engine_init |}.

(** [run_weather_scenario], from the set-up to the report.  The task
    text, a constant of the source, is a parameter here: the cognition
    engine does not read it. *)
Definition run_weather_scenario (H : Host) (I : Interp) (task_text : string)
  (already_drawn : nat) : run_result world :=
  run I (setup_experiment H I) task_text (initial_world already_drawn).

(** The loop object of the experiment after [k] passes that each ran a
    tool, with the evidence cache [cache]. *)
Definition experiment_state (H : Host) (I : Interp)
  (self : StructuredCognitiveLoop world) (k : Z) (cache : pydict value) : Prop :=
  cognition_engine self = mock_cognition_engine I
  /\ tools self = tool_registry H I
  /\ metaprompt self = MetaPrompt_init
  /\ max_loops self = 20
  /\ loop_counter self = k
  /\ evidence_cache (memory self) = cache
  /\ count_module ACTION (history (memory self)) = k
  /\ count_rejections (history (memory self)) = 0
  /\ counts_hold self.

End RunExperiment.

(* ===================================================================== *)
(** * Further concrete instances                                          *)
(* ===================================================================== *)

Module Instances.
Import Py SclCore MockEngine MockTools RunExperiment Examples.

(** A host whose random numbers are always the lower bound, and whose
    hash of a string is its length. *)
Definition lowest_host : Host :=
  {| randint := fun _ a _ => a;
     hash := fun s => Z.of_nat (String.length s);
     msg_bad_call := fun name _ => name ++ "() got an unexpected keyword argument";
     msg_bad_argument := fun name _ => name ++ ": unsupported operand" |}.

(** A final proposal for the tool that always fails. *)
Definition final_broken : pydict value :=
  [ ("reasoning", VStr "Decision made");
    ("proposed_action",
      VDict [ ("tool_name", VStr "broken"); ("parameters", VDict []) ]);
    ("evidence_refs", VList [VStr "retrieval_plan"]);
    ("is_final_action", VBool true);
    ("control_validated", VBool false) ].

(** A final proposal that names no action. *)
Definition final_idle : pydict value :=
  [ ("reasoning", VStr "Nothing left to do");
    ("evidence_refs", VList [VStr "retrieval_plan"]);
    ("is_final_action", VBool true) ].

(** The context of the second pass of the experiment: the retrieval plan
    and the weather of San Francisco as the last action result. *)
Definition second_pass_context : pydict value :=
  [ ("task", VStr "plan a trip");
    ("retrieval_plan", retrieval_plan);
    ("status", VStr "in_progress");
    ("last_action_result", VDict (san_francisco "Partly Cloudy" 10)) ].

End Instances.

(* ===================================================================== *)
(** * Properties of the Python values                                     *)
(* ===================================================================== *)

Module PyFacts.
Import Py.

Module SO := OrdersEx.String_as_OT.

Lemma lt_irrefl (a : string) : ~ SO.lt a a.
Proof. destruct SO.lt_strorder as [Irr _]. exact (Irr a). Qed.

Lemma lt_trans (a b c : string) : SO.lt a b -> SO.lt b c -> SO.lt a c.
Proof. destruct SO.lt_strorder as [_ Tr]. exact (Tr a b c). Qed.

Lemma str_leb_true (a b : string) : str_leb a b = true <-> a = b \/ SO.lt a b.
Proof.
  unfold str_leb.
  destruct (SO.compare_spec a b) as [E | L | G]; unfold SO.eq in *;
    split; intros H; try reflexivity; try discriminate; auto.
  exfalso. destruct H as [H | H].
  - subst. exact (lt_irrefl _ G).
  - exact (lt_irrefl _ (lt_trans _ _ _ H G)).
Qed.

Lemma str_leb_false (a b : string) : str_leb a b = false <-> SO.lt b a.
Proof.
  unfold str_leb.
  destruct (SO.compare_spec a b) as [E | L | G]; unfold SO.eq in *;
    split; intros H; try reflexivity; try discriminate; auto; exfalso.
  - subst. exact (lt_irrefl _ H).
  - exact (lt_irrefl _ (lt_trans _ _ _ H L)).
Qed.

Lemma str_leb_total (a b : string) : str_leb a b = false -> str_leb b a = true.
Proof.
  intros H. apply str_leb_true. right. now apply str_leb_false.
Qed.

Lemma str_leb_antisym (a b : string) :
  str_leb a b = true -> str_leb b a = true -> a = b.
Proof.
  intros H1 H2. apply str_leb_true in H1. apply str_leb_true in H2.
  destruct H1 as [H1 | H1]; auto. destruct H2 as [H2 | H2]; auto.
  exfalso. exact (lt_irrefl _ (lt_trans _ _ _ H1 H2)).
Qed.

Lemma str_leb_trans (a b c : string) :
  str_leb a b = true -> str_leb b c = true -> str_leb a c = true.
Proof.
  intros H1 H2. apply str_leb_true in H1. apply str_leb_true in H2.
  apply str_leb_true.
  destruct H1 as [H1 | H1]; destruct H2 as [H2 | H2]; subst; auto.
  right. exact (lt_trans _ _ _ H1 H2).
Qed.

(** Inserting two items with different keys gives the same list in
    either order. *)
Ltac order_absurd :=
  match goal with
  | Hne : fst ?x <> fst ?y,
    H1 : str_leb (fst ?x) (fst ?y) = true,
    H2 : str_leb (fst ?y) (fst ?x) = true |- _ =>
      exfalso; apply Hne; exact (str_leb_antisym _ _ H1 H2)
  | H1 : str_leb ?a ?b = false, H2 : str_leb ?b ?a = false |- _ =>
      rewrite (str_leb_total _ _ H1) in H2; discriminate
  | H1 : str_leb ?a ?b = true, H2 : str_leb ?b ?c = true,
    H3 : str_leb ?a ?c = false |- _ =>
      rewrite (str_leb_trans _ _ _ H1 H2) in H3; discriminate
  end.

Lemma insert_item_comm {A : Type} (x y : string * A) (l : list (string * A)) :
  fst x <> fst y ->
  insert_item x (insert_item y l) = insert_item y (insert_item x l).
Proof.
  intros Hxy.
  induction l as [| c r IH]; simpl;
    destruct (str_leb (fst x) (fst y)) eqn:Exy;
    destruct (str_leb (fst y) (fst x)) eqn:Eyx;
    try order_absurd; try reflexivity;
    destruct (str_leb (fst y) (fst c)) eqn:Eyc;
    destruct (str_leb (fst x) (fst c)) eqn:Exc;
    simpl; rewrite ?Exy, ?Eyx, ?Eyc, ?Exc;
    try order_absurd; try reflexivity;
    now rewrite IH.
Qed.

Lemma sorted_items_perm {A : Type} (l1 l2 : list (string * A)) :
  Permutation l1 l2 -> NoDup (map fst l1) -> sorted_items l1 = sorted_items l2.
Proof.
  induction 1 as [| x l l' HP IH | x y l | l l' l'' HP1 IH1 HP2 IH2];
    intros ND; simpl in *.
  - reflexivity.
  - inversion ND; subst. now rewrite IH.
  - inversion ND as [| ? ? Hnin ND']; subst.
    apply insert_item_comm. intros E. apply Hnin. left. now symmetry.
  - rewrite IH1 by assumption. apply IH2.
    eapply Permutation_NoDup; [| exact ND]. now apply Permutation_map.
Qed.

(** The text of a dictionary does not depend on the order of its items. *)
Lemma dumps_dict_perm (d1 d2 : pydict value) :
  Permutation d1 d2 -> NoDup (keys d1) -> dumps (VDict d1) = dumps (VDict d2).
Proof.
  intros HP ND. simpl. do 4 f_equal.
  apply sorted_items_perm.
  - now apply Permutation_map.
  - unfold keys in ND. now rewrite map_map.
Qed.

(** The text of a value does not depend on the order of the items of
    the dictionaries in it. *)
Scheme same_content_mut := Minimality for same_content Sort Prop
  with same_elements_mut := Minimality for same_elements Sort Prop
  with same_items_mut := Minimality for same_items Sort Prop.

Lemma same_items_refl (d : pydict value) : same_items d d.
Proof.
  induction d as [| [k v] r IH]; constructor; [apply same_value | exact IH].
Qed.

Lemma same_content_dumps (v v' : value) :
  same_content v v' -> dumps v = dumps v'.
Proof.
  intros H.
  apply (same_content_mut
           (fun v v' => dumps v = dumps v')
           (fun l l' => map dumps l = map dumps l')
           (fun d d' => map (fun kv => (fst kv, dumps (snd kv))) d
                        = map (fun kv => (fst kv, dumps (snd kv))) d'));
    try exact H; clear v v' H.
  - reflexivity.
  - intros l l' _ IH. simpl. now rewrite IH.
  - intros d d' p ND HP _ IH. simpl. rewrite <- IH. do 4 f_equal.
    apply sorted_items_perm.
    + now apply Permutation_map.
    + unfold keys in ND. now rewrite map_map.
  - reflexivity.
  - intros x y l l' _ IHx _ IHl. simpl. now rewrite IHx, IHl.
  - reflexivity.
  - intros k x y d d' _ IHx _ IHd. simpl. now rewrite IHx, IHd.
Qed.

(** ** Dictionaries *)

Lemma lookup_setitem_eq {A : Type} (k : string) (v : A) (d : pydict A) :
  lookup k (setitem k v d) = Some v.
Proof.
  induction d as [| [k' v'] r IH]; simpl.
  - now rewrite String.eqb_refl.
  - destruct (String.eqb k k') eqn:E; simpl; rewrite ?String.eqb_refl, ?E; auto.
Qed.

Lemma lookup_setitem_ne {A : Type} (k k' : string) (v : A) (d : pydict A) :
  k' <> k -> lookup k' (setitem k v d) = lookup k' d.
Proof.
  intros Hne. apply String.eqb_neq in Hne.
  induction d as [| [k0 v0] r IH]; simpl.
  - now rewrite Hne.
  - destruct (String.eqb k k0) eqn:E; simpl.
    + apply String.eqb_eq in E. subst k0. now rewrite Hne.
    + now rewrite IH.
Qed.

Lemma contains_setitem_eq {A : Type} (k : string) (v : A) (d : pydict A) :
  contains k (setitem k v d) = true.
Proof. unfold contains. now rewrite lookup_setitem_eq. Qed.

(** Writing into a dictionary never takes a key away. *)
Lemma contains_setitem_mono {A : Type} (k k' : string) (v : A) (d : pydict A) :
  contains k' d = true -> contains k' (setitem k v d) = true.
Proof.
  destruct (String.eqb_spec k' k) as [-> | Hne].
  - intros _. apply contains_setitem_eq.
  - unfold contains. now rewrite lookup_setitem_ne.
Qed.

(** Writing under a key that is there leaves the order of the keys as it
    is. *)
Lemma keys_setitem_present {A : Type} (k : string) (v : A) (d : pydict A) :
  contains k d = true -> keys (setitem k v d) = keys d.
Proof.
  unfold contains, keys.
  induction d as [| [k' v'] r IH]; simpl; [discriminate |].
  destruct (String.eqb k k') eqn:E; simpl; intros H.
  - apply String.eqb_eq in E. now subst.
  - now rewrite IH.
Qed.

Lemma get_setitem_eq (k : string) (v : value) (d : pydict value) :
  get k (setitem k v d) = v.
Proof. unfold get. now rewrite lookup_setitem_eq. Qed.

Lemma get_setitem_ne (k k' : string) (v : value) (d : pydict value) :
  k' <> k -> get k' (setitem k v d) = get k' d.
Proof. intros H. unfold get. now rewrite lookup_setitem_ne. Qed.

Lemma get_default_setitem_ne (k k' : string) (v dflt : value) (d : pydict value) :
  k' <> k -> get_default k' dflt (setitem k v d) = get_default k' dflt d.
Proof. intros H. unfold get_default. now rewrite lookup_setitem_ne. Qed.

End PyFacts.

(* ===================================================================== *)
(** * The audit store and the policy gate                                 *)
(* ===================================================================== *)

Import Py SclCore PyFacts.

(** C1, as stated, fails: a second [store_evidence] under an identifier
    already in the cache replaces the value stored first. *)
Lemma store_evidence_second_write_replaces :
  has_evidence "evidence_get_weather_{}"
    (store_evidence "evidence_get_weather_{}" (VInt 1) Memory_init) = true
  /\ get_evidence "evidence_get_weather_{}"
       (store_evidence "evidence_get_weather_{}" (VInt 1) Memory_init) = VInt 1
  /\ get_evidence "evidence_get_weather_{}"
       (store_evidence "evidence_get_weather_{}" (VInt 2)
          (store_evidence "evidence_get_weather_{}" (VInt 1) Memory_init))
     = VInt 2.
Proof. repeat split. Qed.

(** C1, amended: a [store_evidence] under an identifier already in the
    cache is a plain overwrite.  The identifier then holds the new value,
    the other identifiers keep theirs, the order of the keys, the working
    store and the log are as before; the result of the call is the
    updated memory and nothing else, so a repeated write is not told
    apart from a first one. *)
Theorem store_evidence_last_write_wins
  (evidence_id : string) (data : value) (m : Memory) :
  has_evidence evidence_id m = true ->
  get_evidence evidence_id (store_evidence evidence_id data m) = data
  /\ has_evidence evidence_id (store_evidence evidence_id data m) = true
  /\ (forall other, other <> evidence_id ->
        get_evidence other (store_evidence evidence_id data m)
        = get_evidence other m)
  /\ keys (evidence_cache (store_evidence evidence_id data m))
     = keys (evidence_cache m)
  /\ store (store_evidence evidence_id data m) = store m
  /\ history (store_evidence evidence_id data m) = history m.
Proof.
  intros Hin. unfold get_evidence, has_evidence, store_evidence in *; simpl.
  repeat split.
  - apply get_setitem_eq.
  - apply contains_setitem_eq.
  - intros other Hne. now apply get_setitem_ne.
  - now apply keys_setitem_present.
Qed.

Lemma store_evidence_last_write_wins_witness :
  has_evidence "evidence_get_weather_{}"
    (store_evidence "evidence_get_weather_{}" (VInt 1) Memory_init) = true
  /\ get_evidence "evidence_get_weather_{}"
       (store_evidence "evidence_get_weather_{}" (VInt 2)
          (store_evidence "evidence_get_weather_{}" (VInt 1) Memory_init))
     = VInt 2.
Proof.
  split.
  - reflexivity.
  - exact (proj1 (store_evidence_last_write_wins "evidence_get_weather_{}"
                    (VInt 2)
                    (store_evidence "evidence_get_weather_{}" (VInt 1)
                       Memory_init)
                    eq_refl)).
Defined.

Section Stages.

Context {World : Type}.
Variable I : Interp.

(** ** The evidence identifier *)

(** C3, amended: the evidence identifier does not depend on the order in
    which parameters were inserted, at the top or in a nested mapping,
    as long as the values are identical.  [control] and [action] build
    the identifier with the same expression, [evidence_id_of]; two
    parameter values with the same content get the same identifier, and
    so do two mappings with the same items in any order. *)
Theorem evidence_id_order_independent
  (tool_name parameters parameters' : value) :
  same_content parameters parameters' ->
  evidence_id_of I tool_name parameters
  = evidence_id_of I tool_name parameters'.
Proof.
  intros HS. unfold evidence_id_of. now rewrite (same_content_dumps _ _ HS).
Qed.

(** Two mappings with the same items, in any order, have the same
    content. *)
Lemma same_content_perm (d d' : pydict value) :
  NoDup (keys d) -> Permutation d d' -> same_content (VDict d) (VDict d').
Proof.
  intros ND HP. apply (same_dict d d' d' ND HP). apply same_items_refl.
Qed.

(** ** The action stage *)

Lemma action_unfold (self : StructuredCognitiveLoop World)
  (cognition_output : pydict value) (w : World) (tool_name parameters : value) :
  descriptor_of cognition_output = Some (tool_name, parameters) ->
  truthy tool_name = true ->
  action I self cognition_output w
  = match call_execute I (tools self) tool_name parameters w with
    | (Returned result, w1) =>
        Ok (result,
            with_memory
              (log_trace
                 {| loop_id := "ACT-" ++ fmt_03d (loop_counter self);
                    module := ModuleType_value ACTION;
                    input_state :=
                      get_default "proposed_action" (VDict []) cognition_output;
                    output_state :=
                      VDict [("result", result);
                             ("evidence_id",
                               VStr (evidence_id_of I tool_name parameters))];
                    decision := VNone;
                    validation_result := None;
                    evidence_refs := VNone |}
                 (store_evidence (evidence_id_of I tool_name parameters) result
                    (memory self)))
              self,
            w1)
    | (RaisedException msg, w1) => Ok (error_result msg, self, w1)
    | (RaisedBaseException, _) => Raise
    end.
Proof.
  unfold descriptor_of, action. intros HD HT.
  destruct (get_default "proposed_action" (VDict []) cognition_output);
    try discriminate.
  injection HD as <- <-. rewrite HT. simpl.
  destruct (call_execute I (tools self) (get "tool_name" d)
              (get_default "parameters" (VDict []) d) w) as [[r | msg |] w1];
    reflexivity.
Qed.


(** C8: when the dispatch raises, the action stage returns the dictionary
    [{status: error, message}], the message being [Action execution
    failed: ] followed by the text of the exception, and returns the
    loop object as it was, so that the evidence cache and the log are
    untouched.  A tool name that is not registered is one such case,
    whatever the parameters are; with parameters that bind, the text is
    that of the [ValueError] of [execute]. *)
Theorem action_wraps_dispatch_errors
  (self : StructuredCognitiveLoop World) (cognition_output : pydict value)
  (w : World) (tool_name parameters : value) :
  descriptor_of cognition_output = Some (tool_name, parameters) ->
  truthy tool_name = true ->
  (forall msg w1,
     call_execute I (tools self) tool_name parameters w
     = (RaisedException msg, w1) ->
     exists self',
       action I self cognition_output w
       = Ok (VDict [ ("status", VStr "error");
                     ("message", VStr ("Action execution failed: " ++ msg)) ],
             self', w1)
       /\ self' = self
       /\ evidence_cache (memory self') = evidence_cache (memory self)
       /\ history (memory self') = history (memory self))
  /\ (forall name,
        tool_name = VStr name ->
        lookup name (tools self) = None ->
        exists msg,
          call_execute I (tools self) tool_name parameters w
          = (RaisedException msg, w)
          /\ action I self cognition_output w
             = Ok (VDict [ ("status", VStr "error");
                           ("message",
                             VStr ("Action execution failed: " ++ msg)) ],
                   self, w)
          /\ (forall kwargs,
                parameters = VDict kwargs ->
                contains "self" kwargs = false ->
                contains "tool_name" kwargs = false ->
                msg = "Tool '" ++ name ++ "' not registered")).
Proof.
  intros HD HT.
  rewrite (action_unfold self cognition_output w tool_name parameters HD HT).
  split.
  - intros msg w1 HC. rewrite HC. exists self. repeat split.
  - intros name -> Hnone. unfold call_execute.
    destruct parameters as [| b | z | s | l | kwargs];
      try (eexists; split; [reflexivity |]; split; [reflexivity |];
           intros kwargs' [=]).
    destruct (contains "self" kwargs) eqn:E1;
      [| destruct (contains "tool_name" kwargs) eqn:E2]; simpl.
    + eexists; split; [reflexivity |]. split; [reflexivity |].
      intros kwargs' [= <-] H1. rewrite H1 in E1. discriminate E1.
    + eexists; split; [reflexivity |]. split; [reflexivity |].
      intros kwargs' [= <-] _ H2. rewrite H2 in E2. discriminate E2.
    + unfold execute. rewrite Hnone.
      eexists; split; [reflexivity |]. split; [reflexivity |].
      intros; reflexivity.
Qed.

(** ** The policy gate *)

Lemma mark_validated_final (cognition_output : pydict value) :
  truthy (get "is_final_action" cognition_output) = true ->
  mark_validated cognition_output
  = setitem "control_validated" (VBool true) cognition_output.
Proof. intros H. unfold mark_validated. now rewrite H. Qed.

Lemma mark_validated_not_final (cognition_output : pydict value) :
  truthy (get "is_final_action" cognition_output) = false ->
  mark_validated cognition_output = cognition_output.
Proof. intros H. unfold mark_validated. now rewrite H. Qed.

Lemma final_unvalidated_mark (cognition_output : pydict value) :
  final_unvalidated (mark_validated cognition_output) = false.
Proof.
  unfold final_unvalidated, mark_validated.
  destruct (truthy (get "is_final_action" cognition_output)) eqn:E.
  - rewrite get_setitem_eq. simpl. apply andb_false_r.
  - now rewrite E.
Qed.

(** The issues [validate] collects, from the three things it looks at. *)
Lemma validate_issues_eq (mp : MetaPrompt) (cognition_output : pydict value) :
  validate_issues mp cognition_output
  = ((if must_cite_stored_evidence mp && cites_nothing cognition_output
      then [missing_citations] else [])
     ++ (if final_unvalidated cognition_output
         then [final_without_validation] else []))%list.
Proof.
  unfold validate_issues, cites_nothing, final_unvalidated.
  destruct (must_cite_stored_evidence mp),
    (truthy (get "evidence_refs" cognition_output)),
    (truthy (get "is_final_action" cognition_output)),
    (truthy (get "control_validated" cognition_output)); reflexivity.
Qed.

(** The verdict of the gate, from the four things it looks at. *)
Lemma control_verdict_eq (mp : MetaPrompt) (m : Memory)
  (cognition_output : pydict value) (v : bool * string) :
  control_verdict I mp m cognition_output = Some v ->
  v = if already_cached I m cognition_output
      then (false, redundant_message)
      else validate mp cognition_output.
Proof.
  unfold control_verdict, already_cached, descriptor_of.
  destruct (get_default "proposed_action" (VDict []) cognition_output);
    try discriminate.
  destruct (truthy (get "tool_name" d)); simpl.
  - destruct (has_evidence _ m); now intros [= <-].
  - now intros [= <-].
Qed.

Lemma control_inv (self self' : StructuredCognitiveLoop World)
  (cognition_output evaluated : pydict value) (v : bool * string) :
  control I self cognition_output = Ok (v, evaluated, self') ->
  evaluated = mark_validated cognition_output
  /\ control_verdict I (metaprompt self) (memory self) evaluated = Some v
  /\ exists trace,
       self' = with_memory (log_trace trace (memory self)) self
       /\ module trace = ModuleType_value CONTROL
       /\ validation_result trace = Some (fst v).
Proof.
  unfold control.
  destruct (control_verdict I (metaprompt self) (memory self)
              (mark_validated cognition_output)) as [[is_valid message] |] eqn:E;
    [| discriminate].
  intros [= <- <- <-]. repeat split; auto.
  eexists. repeat split.
Qed.

(** C6: a final proposal has its [control_validated] flag set before the
    rules are evaluated, so the issue "Final action without Control
    validation" is never among the issues the gate finds, for no proposal
    at all; and for a proposal that is not final the issue is not raised
    either, whatever its [control_validated] flag says. *)
Theorem final_proposal_validated_before_rules
  (mp : MetaPrompt) (cognition_output : pydict value) :
  truthy (get "is_final_action" cognition_output) = true ->
  get "control_validated" (mark_validated cognition_output) = VBool true
  /\ ~ In final_without_validation
         (validate_issues mp (mark_validated cognition_output))
  /\ (forall (self self' : StructuredCognitiveLoop World) any evaluated v,
        control I self any = Ok (v, evaluated, self') ->
        evaluated = mark_validated any
        /\ ~ In final_without_validation
               (validate_issues (metaprompt self) evaluated)
        /\ snd v <> "VIOLATIONS: " ++ final_without_validation
        /\ snd v
           <> "VIOLATIONS: " ++ missing_citations ++ "; "
                ++ final_without_validation)
  /\ (forall other,
        truthy (get "is_final_action" other) = false ->
        mark_validated other = other
        /\ ~ In final_without_validation (validate_issues mp other)).
Proof.
  intros Hfinal.
  assert (Hnever : forall mp' out,
            ~ In final_without_validation
                (validate_issues mp' (mark_validated out))).
  { intros mp' out. rewrite validate_issues_eq, final_unvalidated_mark.
    rewrite app_nil_r.
    destruct (must_cite_stored_evidence mp' && cites_nothing (mark_validated out));
      simpl; [| tauto].
    intros [H | []]. discriminate. }
  split; [| split; [| split]].
  - rewrite mark_validated_final by assumption. apply get_setitem_eq.
  - apply Hnever.
  - intros self self' any evaluated v HC.
    apply control_inv in HC. destruct HC as (-> & HV & _).
    split; [reflexivity |]. split; [apply Hnever |].
    apply control_verdict_eq in HV.
    destruct (already_cached I (memory self) (mark_validated any)).
    + subst v. simpl. split; discriminate.
    + subst v. unfold validate.
      rewrite validate_issues_eq, final_unvalidated_mark, app_nil_r.
      destruct (must_cite_stored_evidence (metaprompt self)
                && cites_nothing (mark_validated any));
        simpl; split; discriminate.
  - intros other Hnf. split; [now apply mark_validated_not_final |].
    rewrite validate_issues_eq. unfold final_unvalidated. rewrite Hnf. simpl.
    rewrite app_nil_r.
    destruct (must_cite_stored_evidence mp && cites_nothing other);
      simpl; [| tauto].
    intros [H | []]. discriminate.
Qed.

(** C10: the verdict of the gate is fixed by three facts about the
    proposal it evaluates (it cites nothing; it is final with
    [control_validated] false; its evidence identifier is in the cache)
    and, of the rule set, by the flag [must_cite_stored_evidence] alone.
    The two runs below may differ in every other flag, so
    [single_final_action], [validate_conditional_branches] and
    [avoid_redundant_tool_calls] have no say; and a cached identifier is
    rejected as redundant under any rule set. *)
Theorem gate_verdict_depends_only_on
  (self1 self2 self1' self2' : StructuredCognitiveLoop World)
  (out1 out2 evaluated1 evaluated2 : pydict value) (v1 v2 : bool * string) :
  control I self1 out1 = Ok (v1, evaluated1, self1') ->
  control I self2 out2 = Ok (v2, evaluated2, self2') ->
  must_cite_stored_evidence (metaprompt self1)
  = must_cite_stored_evidence (metaprompt self2) ->
  cites_nothing evaluated1 = cites_nothing evaluated2 ->
  final_unvalidated evaluated1 = final_unvalidated evaluated2 ->
  already_cached I (memory self1) evaluated1
  = already_cached I (memory self2) evaluated2 ->
  v1 = v2
  /\ (already_cached I (memory self1) evaluated1 = true ->
      v1 = (false, redundant_message)).
Proof.
  intros H1 H2 Hm Hc Hf Ha.
  apply control_inv in H1. destruct H1 as (_ & HV1 & _).
  apply control_inv in H2. destruct H2 as (_ & HV2 & _).
  apply control_verdict_eq in HV1. apply control_verdict_eq in HV2.
  split.
  - rewrite HV1, HV2, Ha.
    destruct (already_cached I (memory self2) evaluated2); [reflexivity |].
    unfold validate. now rewrite !validate_issues_eq, Hm, Hc, Hf.
  - intros Hyes. now rewrite HV1, Hyes.
Qed.

End Stages.

(* ===================================================================== *)
(** * The loop                                                            *)
(* ===================================================================== *)

Section Runs.

Context {World : Type}.
Variable I : Interp.

Local Abbreviation SCL := (StructuredCognitiveLoop World).

Lemma frame_trans (a b : Z) (s1 s2 s3 : SCL) :
  frame a s1 s2 -> frame b s2 s3 -> frame (a + b) s1 s3.
Proof.
  intros [] []. split; try congruence. lia.
Qed.

Lemma count_module_app (m : ModuleType) (l : list LoopTrace) (t : LoopTrace) :
  count_module m (l ++ [t])
  = count_module m l
    + (if String.eqb (module t) (ModuleType_value m) then 1 else 0).
Proof.
  unfold count_module. rewrite filter_app, length_app. simpl.
  destruct (String.eqb (module t) (ModuleType_value m)); simpl; lia.
Qed.

(** The gate reads the memory through the evidence cache only. *)
Lemma control_verdict_cache (mp : MetaPrompt) (m m' : Memory)
  (cognition_output : pydict value) :
  evidence_cache m' = evidence_cache m ->
  control_verdict I mp m' cognition_output
  = control_verdict I mp m cognition_output.
Proof.
  intros E. unfold control_verdict, has_evidence. now rewrite E.
Qed.

Lemma descriptor_of_mark (cognition_output : pydict value) :
  descriptor_of (mark_validated cognition_output)
  = descriptor_of cognition_output.
Proof.
  unfold mark_validated, descriptor_of.
  destruct (truthy (get "is_final_action" cognition_output)); [| reflexivity].
  rewrite get_default_setitem_ne; [reflexivity | discriminate].
Qed.

(** ** The stages, one by one *)

Lemma cognition_spec (self : SCL) (context : pydict value) (w : World) :
  match cognition self context w with
  | Ok (response, self1, w1) =>
      cognition_engine self (get_state_summary (memory self))
        (get_tool_descriptions (tools self)) context w
      = (EngineReturned (VDict response), w1)
      /\ frame 1 self self1
      /\ evidence_cache (memory self1) = evidence_cache (memory self)
      /\ exists t,
           history (memory self1) = (history (memory self) ++ [t])%list
           /\ module t = ModuleType_value COGNITION
  | Raise =>
      forall response w1,
        cognition_engine self (get_state_summary (memory self))
          (get_tool_descriptions (tools self)) context w
        <> (EngineReturned (VDict response), w1)
  end.
Proof.
  unfold cognition; simpl.
  destruct (cognition_engine self (get_state_summary (memory self))
              (get_tool_descriptions (tools self)) context w)
    as [[[| b | z | s | l | response] |] w1]; try (intros ? ?; discriminate).
  repeat split; simpl; auto.
  eexists; split; reflexivity.
Qed.

Lemma control_spec (self : SCL) (cognition_output : pydict value) :
  match control I self cognition_output with
  | Ok (v, evaluated, self1) =>
      evaluated = mark_validated cognition_output
      /\ control_verdict I (metaprompt self) (memory self) evaluated = Some v
      /\ frame 0 self self1
      /\ evidence_cache (memory self1) = evidence_cache (memory self)
      /\ exists t,
           history (memory self1) = (history (memory self) ++ [t])%list
           /\ module t = ModuleType_value CONTROL
           /\ validation_result t = Some (fst v)
           /\ output_state t
              = VDict [("validation", VBool (fst v)); ("message", VStr (snd v))]
  | Raise =>
      control_verdict I (metaprompt self) (memory self)
        (mark_validated cognition_output) = None
  end.
Proof.
  unfold control.
  destruct (control_verdict I (metaprompt self) (memory self)
              (mark_validated cognition_output)) as [[is_valid message] |] eqn:E;
    [| reflexivity].
  repeat split; simpl; auto; try lia.
  eexists; repeat split.
Qed.

Lemma action_spec (self : SCL) (cognition_output : pydict value) (w : World) :
  match action I self cognition_output w with
  | Ok (result, self1, w1) =>
      frame 0 self self1
      /\ (forall id, has_evidence id (memory self) = true ->
                     has_evidence id (memory self1) = true)
      /\ count_module COGNITION (history (memory self1))
         = count_module COGNITION (history (memory self))
  | Raise => True
  end.
Proof.
  unfold action.
  destruct (get_default "proposed_action" (VDict []) cognition_output);
    try exact Logic.I.
  destruct (truthy (get "tool_name" d)); simpl.
  - destruct (call_execute I (tools self) (get "tool_name" d)
                (get_default "parameters" (VDict []) d) w)
      as [[result | msg |] w1]; try exact Logic.I.
    + repeat split; simpl; auto; try lia.
      * intros id. unfold has_evidence; simpl. apply contains_setitem_mono.
      * now rewrite count_module_app, Z.add_0_r.
    + repeat split; auto. lia.
  - repeat split; auto. lia.
Qed.

(** ** One pass through the body *)

Lemma loop_body_spec (self : SCL) (context : pydict value) (w : World) :
  match loop_body I self context w with
  | BodyContinue self' _ _ | BodyBreak self' _ _ =>
      frame 1 self self'
      /\ (forall id, has_evidence id (memory self) = true ->
                     has_evidence id (memory self') = true)
      /\ count_module COGNITION (history (memory self'))
         = count_module COGNITION (history (memory self)) + 1
  | BodyRaised => True
  end.
Proof.
  unfold loop_body.
  pose proof (cognition_spec self context w) as HC.
  destruct (cognition self context w) as [[[response self1] w1] |];
    [| exact Logic.I].
  destruct HC as (_ & F1 & E1 & t1 & H1 & M1).
  pose proof (control_spec self1 response) as HK.
  destruct (control I self1 response) as [[[[is_valid msg] evaluated] self2] |];
    [| exact Logic.I].
  destruct HK as (_ & _ & F2 & E2 & t2 & H2 & M2 & _).
  assert (Hcount : count_module COGNITION (history (memory self2))
                   = count_module COGNITION (history (memory self)) + 1).
  { rewrite H2, H1, !count_module_app, M1, M2. simpl. lia. }
  assert (Hcache : forall id, has_evidence id (memory self) = true ->
                              has_evidence id (memory self2) = true).
  { intros id. unfold has_evidence. now rewrite E2, E1. }
  pose proof (frame_trans _ _ _ _ _ F1 F2) as F12.
  destruct is_valid; simpl.
  - pose proof (action_spec self2 evaluated w1) as HA.
    destruct (action I self2 evaluated w1) as [[[result self3] w2] |];
      [| exact Logic.I].
    destruct HA as (F3 & A3 & C3).
    pose proof (frame_trans _ _ _ _ _ F12 F3) as F123.
    destruct (truthy (get "is_final_action" evaluated));
      (split; [exact F123 | split; [auto | now rewrite C3]]).
  - split; [exact F12 | split; assumption].
Qed.

(** A pass in which the gate rejects the proposal: the engine was called,
    the two traces of Cognition and Control were appended, and that is
    all; the action stage did not run, so the world is the one the engine
    left and the evidence cache is the one the pass started with. *)
Lemma rejected_pass (self : SCL) (context response : pydict value)
  (w w1 : World) (message : string) :
  cognition_engine self (get_state_summary (memory self))
    (get_tool_descriptions (tools self)) context w
  = (EngineReturned (VDict response), w1) ->
  control_verdict I (metaprompt self) (memory self) (mark_validated response)
  = Some (false, message) ->
  exists self' tc tk,
    loop_body I self context w
    = BodyContinue self' (setitem "last_rejection" (VStr message) context) w1
    /\ frame 1 self self'
    /\ evidence_cache (memory self') = evidence_cache (memory self)
    /\ history (memory self') = (history (memory self) ++ [tc; tk])%list
    /\ module tc = ModuleType_value COGNITION
    /\ module tk = ModuleType_value CONTROL
    /\ validation_result tk = Some false
    /\ output_state tk
       = VDict [("validation", VBool false); ("message", VStr message)].
Proof.
  intros HE HV. unfold loop_body.
  pose proof (cognition_spec self context w) as HC.
  destruct (cognition self context w) as [[[response' self1] w1'] |].
  2: { exfalso. exact (HC _ _ HE). }
  destruct HC as (HE' & F1 & E1 & tc & H1 & M1).
  rewrite HE in HE'. injection HE' as <- <-.
  pose proof (control_spec self1 response) as HK.
  destruct (control I self1 response) as [[[v evaluated] self2] |].
  2: { rewrite (frame_metaprompt _ _ _ F1) in HK.
       rewrite (control_verdict_cache _ _ _ _ E1), HV in HK. discriminate. }
  destruct HK as (-> & HV' & F2 & E2 & tk & H2 & M2 & V2 & O2).
  rewrite (frame_metaprompt _ _ _ F1) in HV'.
  rewrite (control_verdict_cache _ _ _ _ E1), HV in HV'.
  injection HV' as <-. simpl.
  exists self2, tc, tk. split; [reflexivity |].
  split; [exact (frame_trans _ _ _ _ _ F1 F2) |].
  split; [congruence |].
  split; [rewrite H2, H1, <- app_assoc; reflexivity |].
  repeat split; assumption.
Qed.

(** ** The whole loop *)


Lemma ccam_loop_spec (fuel : nat) :
  forall (self : SCL) (context : pydict value) (w : World),
    match ccam_loop I fuel self context w with
    | LoopExit how self' _ _ =>
        max_loops self' = max_loops self
        /\ loop_counter self' - count_module COGNITION (history (memory self'))
           = loop_counter self - count_module COGNITION (history (memory self))
        /\ loop_counter self' <= Z.max (loop_counter self) (max_loops self)
        /\ store (memory self') = store (memory self)
    | LoopRaised => True
    | LoopOutOfFuel => (fuel <= Z.to_nat (max_loops self - loop_counter self))%nat
    end.
Proof.
  induction fuel as [| fuel IH]; intros self context w; simpl.
  - lia.
  - destruct (loop_counter self <? max_loops self) eqn:G.
    + apply Z.ltb_lt in G.
      pose proof (loop_body_spec self context w) as HS.
      destruct (loop_body I self context w) as [| self' context' w' | self' context' w'];
        try exact Logic.I; destruct HS as (F & _ & HC); destruct F.
      * specialize (IH self' context' w').
        destruct (ccam_loop I fuel self' context' w'); auto; [lia |].
        destruct IH as (A & B & C & D). repeat split; try congruence; lia.
      * repeat split; auto; lia.
    + apply Z.ltb_ge in G. repeat split; auto; lia.
Qed.

Lemma ccam_loop_unfold (fuel : nat) (self : SCL) (context : pydict value)
  (w : World) :
  ccam_loop I (S fuel) self context w
  = if loop_counter self <? max_loops self then
      match loop_body I self context w with
      | BodyRaised => LoopRaised
      | BodyBreak self' context' w' => LoopExit Completed self' context' w'
      | BodyContinue self' context' w' => ccam_loop I fuel self' context' w'
      end
    else LoopExit CeilingReached self context w.
Proof. reflexivity. Qed.


(** ** The report of a run *)

(** C4, amended: a run of a fresh loop object always comes to an end,
    and when it returns its report, [total_loops] is the number of
    Cognition traces in the log and is at most the ceiling [max_loops],
    or at most zero when the ceiling is negative. *)
Theorem total_loops_counts_cognition
  (engine : engine_fn World) (reg : ToolRegistry World) (mp : MetaPrompt)
  (ceiling : Z) (task_text : string) (w : World) :
  run I (StructuredCognitiveLoop_init engine reg mp ceiling) task_text w
  <> RunOutOfFuel
  /\ forall report how self' w',
       run I (StructuredCognitiveLoop_init engine reg mp ceiling) task_text w
       = RunReturned report how self' w' ->
       total_loops (summary report) = count_module COGNITION (log report)
       /\ total_loops (summary report) <= Z.max 0 ceiling.
Proof.
  unfold run.
  destruct (retrieval (StructuredCognitiveLoop_init engine reg mp ceiling)
              task_text) as [plan self1] eqn:HR.
  unfold retrieval in HR. injection HR as _ <-.
  match goal with
  | |- context [ccam_loop I ?f ?s ?c w] =>
      pose proof (ccam_loop_spec f s c w) as HS;
      destruct (ccam_loop I f s c w) as [| | how self2 context2 w2]
  end.
  - split; [discriminate |]. intros; discriminate.
  - exfalso. unfold run_fuel in HS. lia.
  - split; [discriminate |].
    intros report how' self' w' [= <- <- <- <-].
    simpl in HS. destruct HS as (_ & HC & HB & _).
    unfold _generate_audit_report; simpl.
    change (count_module COGNITION
              [{| loop_id := "R-001";
                  module := ModuleType_value RETRIEVAL;
                  input_state := VDict [("task", VStr task_text)];
                  output_state := retrieval_plan;
                  decision := VNone;
                  validation_result := None;
                  evidence_refs := VNone |}]) with 0 in HC.
    lia.
Qed.

(** C7: with the ceiling at one and an engine whose every proposal is not
    final and is turned down by the gate, the run returns its report
    after the loop condition has failed, not through the [break] of a
    completed task; one Cognition cycle was counted and no tool was
    run. *)
Theorem ceiling_one_exhausts
  (engine : engine_fn World) (reg : ToolRegistry World) (mp : MetaPrompt)
  (task_text : string) (w : World) :
  (forall state_summary available_tools context w0,
     exists response w1,
       engine state_summary available_tools context w0
       = (EngineReturned (VDict response), w1)
       /\ truthy (get "is_final_action" response) = false
       /\ forall m, exists message,
            control_verdict I mp m response = Some (false, message)) ->
  exists report self' w',
    run I (StructuredCognitiveLoop_init engine reg mp 1) task_text w
    = RunReturned report CeilingReached self' w'
    /\ total_loops (summary report) = 1
    /\ count_module COGNITION (log report) = 1
    /\ count_module ACTION (log report) = 0.
Proof.
  intros Hengine. unfold run.
  destruct (retrieval (StructuredCognitiveLoop_init engine reg mp 1) task_text)
    as [plan self1] eqn:HR.
  unfold retrieval in HR. injection HR as _ <-.
  match goal with
  | |- context [ccam_loop I ?f ?s ?c w] =>
      set (self1 := s); set (context := c)
  end.
  change (run_fuel self1) with 2%nat.
  destruct (Hengine (get_state_summary (memory self1))
              (get_tool_descriptions (tools self1)) context w)
    as (response & w1 & HE & Hnf & Hrej).
  destruct (Hrej (memory self1)) as (message & HV).
  rewrite <- (mark_validated_not_final response Hnf) in HV.
  destruct (rejected_pass self1 context response w w1 message HE HV)
    as (self2 & tc & tk & HB & F & _ & HH & Mc & Mk & _).
  rewrite ccam_loop_unfold.
  change (loop_counter self1 <? max_loops self1) with true. cbv iota.
  rewrite HB, ccam_loop_unfold.
  destruct F as [_ _ _ Fm _ Fc].
  replace (loop_counter self2 <? max_loops self2) with false
    by (symmetry; apply Z.ltb_ge; rewrite Fm, Fc; simpl; lia).
  do 3 eexists. split; [reflexivity |].
  unfold _generate_audit_report; simpl.
  split; [rewrite Fc; reflexivity |].
  rewrite HH. unfold count_module. simpl. rewrite Mc, Mk. split; reflexivity.
Qed.

(** ** Redundant calls *)


End Runs.

(* ===================================================================== *)
(** * The decision of the mock engine                                     *)
(* ===================================================================== *)

Import MockCognition.

(** C9: on the records San Francisco 60, Miami 75, Atlanta 50 and the
    base temperature 55, whatever the conditions and the chances of rain
    are, the cities above the threshold are San Francisco and Miami, the
    cooler of the two is San Francisco, and the proposal returned is
    final, names the tool [send_email], and carries San Francisco in the
    subject and the body of the mail and as its destination. *)
Theorem scenario_A_selects_san_francisco
  (I : Interp) (c1 c2 c3 : string) (p1 p2 p3 : Z) :
  above_threshold (Examples.scenario_A c1 c2 c3 p1 p2 p3) 55
  = Some [Examples.san_francisco c1 p1; Examples.miami c2 p2]
  /\ min_by_temperature [Examples.san_francisco c1 p1; Examples.miami c2 p2]
     = Some (Examples.san_francisco c1 p1)
  /\ exists response,
       _generate_decision I (Examples.scenario_A c1 c2 c3 p1 p2 p3) 55
       = Some response
       /\ get "is_final_action" response = VBool true
       /\ descriptor_of response
          = Some
              (VStr "send_email",
               VDict
                 [ ("recipient", VStr "test-scl@test.com");
                   ("subject", VStr "Travel Plan Confirmed: San Francisco");
                   ("body",
                     VStr ("Based on weather analysis, traveling to San Francisco. Temperature: 60"
                           ++ degree_F ++ ", Condition: " ++ c1 ++ ". "
                           ++ umbrella_text (30 <? p1) ++ ".")) ])
       /\ get "destination" response = VStr "San Francisco"
       /\ get "decision_branch" response = VStr "two_above_threshold"
       /\ get "evidence_refs" response = all_weather_refs.
Proof.
  split; [reflexivity |]. split; [reflexivity |].
  eexists. split; [reflexivity |]. repeat split.
Qed.

(* ===================================================================== *)
(** * The statements at concrete inputs                                   *)
(* ===================================================================== *)

Import Examples.



Lemma evidence_id_order_independent_witness :
  evidence_id_of interp (VStr "get_weather")
    (VDict [("city", VStr "Miami");
            ("options", VDict [("units", VStr "F"); ("days", VInt 1)])])
  = evidence_id_of interp (VStr "get_weather")
      (VDict [("options", VDict [("days", VInt 1); ("units", VStr "F")]);
              ("city", VStr "Miami")]).
Proof.
  apply (evidence_id_order_independent interp (VStr "get_weather")
           (VDict [("city", VStr "Miami");
                   ("options",
                     VDict [("units", VStr "F"); ("days", VInt 1)])])
           (VDict [("options",
                     VDict [("days", VInt 1); ("units", VStr "F")]);
                   ("city", VStr "Miami")])).
  apply (same_dict _ _
           [("options", VDict [("units", VStr "F"); ("days", VInt 1)]);
            ("city", VStr "Miami")]).
  - repeat constructor; simpl; intuition discriminate.
  - apply perm_swap.
  - constructor; [| apply same_items_refl].
    apply same_content_perm; [| apply perm_swap].
    repeat constructor; simpl; intuition discriminate.
Defined.

(** C3, as stated, fails: the mappings [{n: 1}] and [{n: True}] hold the
    same key bound to equal values ([1 == True] in Python), and their
    evidence identifiers differ. *)
Lemma evidence_id_differs_for_equal_values :
  MockEngine.py_eq (VDict [("n", VInt 1)]) (VDict [("n", VBool true)]) = true
  /\ evidence_id_of interp (VStr "get_weather") (VDict [("n", VInt 1)])
     = "evidence_get_weather_{" ++ String dquote "n" ++ String dquote ": 1}"
  /\ evidence_id_of interp (VStr "get_weather") (VDict [("n", VBool true)])
     = "evidence_get_weather_{" ++ String dquote "n" ++ String dquote ": true}"
  /\ evidence_id_of interp (VStr "get_weather") (VDict [("n", VInt 1)])
     <> evidence_id_of interp (VStr "get_weather") (VDict [("n", VBool true)]).
Proof.
  repeat split. intros H. vm_compute in H. discriminate H.
Qed.

(** C4, as stated, fails: with a negative ceiling the loop body never
    runs, so [total_loops] is zero and lies above the ceiling. *)
Lemma negative_ceiling_is_exceeded :
  exists report self',
    run interp (loop_of (weather_query "Miami") (-1)) "plan a trip" tt
    = RunReturned report CeilingReached self' tt
    /\ total_loops (summary report) = 0
    /\ max_loops self' = -1
    /\ max_loops self' < total_loops (summary report).
Proof. do 2 eexists. repeat split. Qed.

Lemma total_loops_counts_cognition_witness :
  exists report how self' w',
    run interp (loop_of (weather_query "Miami") 3) "plan a trip" tt
    = RunReturned report how self' w'
    /\ total_loops (summary report) = count_module COGNITION (log report)
    /\ total_loops (summary report) <= Z.max 0 3.
Proof.
  destruct (run interp (loop_of (weather_query "Miami") 3) "plan a trip" tt)
    as [| | report how self' w'] eqn:E.
  - vm_compute in E. discriminate.
  - vm_compute in E. discriminate.
  - exists report, how, self', w'. split; [reflexivity |].
    exact (proj2 (total_loops_counts_cognition interp
                    (constant_engine (weather_query "Miami")) registry
                    MetaPrompt_init 3 "plan a trip" tt)
             report how self' w' E).
Defined.



Lemma final_proposal_validated_before_rules_witness :
  get "control_validated" (mark_validated final_email) = VBool true
  /\ ~ In final_without_validation
         (validate_issues MetaPrompt_init (mark_validated final_email)).
Proof.
  destruct (final_proposal_validated_before_rules (World := unit) interp
              MetaPrompt_init final_email eq_refl)
    as (H1 & H2 & _).
  split; assumption.
Defined.

Lemma ceiling_one_exhausts_witness :
  exists report self' w',
    run interp (loop_of (uncited_query "get_weather") 1) "plan a trip" tt
    = RunReturned report CeilingReached self' w'
    /\ total_loops (summary report) = 1.
Proof.
  destruct (ceiling_one_exhausts interp
              (constant_engine (uncited_query "get_weather")) registry
              MetaPrompt_init "plan a trip" tt)
    as (report & self' & w' & HR & HT & _).
  - intros state_summary available_tools context w0.
    exists (uncited_query "get_weather"), w0.
    split; [reflexivity |]. split; [reflexivity |].
    intros m. unfold control_verdict. simpl.
    destruct (has_evidence _ m); eexists; reflexivity.
  - exists report, self', w'. split; assumption.
Defined.

Lemma action_wraps_dispatch_errors_witness :
  action interp (retrieved (uncited_query "broken") 20)
    (uncited_query "broken") tt
  = Ok (VDict [ ("status", VStr "error");
                ("message",
                  VStr "Action execution failed: service unavailable") ],
        retrieved (uncited_query "broken") 20, tt)
  /\ action interp (retrieved (uncited_query "teleport") 20)
       (uncited_query "teleport") tt
     = Ok (VDict [ ("status", VStr "error");
                   ("message",
                     VStr "Action execution failed: Tool 'teleport' not registered") ],
           retrieved (uncited_query "teleport") 20, tt).
Proof.
  split.
  - destruct (proj1 (action_wraps_dispatch_errors interp
                       (retrieved (uncited_query "broken") 20)
                       (uncited_query "broken") tt (VStr "broken") (VDict [])
                       eq_refl eq_refl)
                "service unavailable" tt eq_refl)
      as (self' & HA & -> & _).
    exact HA.
  - destruct (proj2 (action_wraps_dispatch_errors interp
                       (retrieved (uncited_query "teleport") 20)
                       (uncited_query "teleport") tt (VStr "teleport")
                       (VDict []) eq_refl eq_refl)
                "teleport" eq_refl eq_refl)
      as (msg & _ & HA & HM).
    rewrite (HM [] eq_refl eq_refl eq_refl) in HA. exact HA.
Defined.

Lemma gate_verdict_depends_only_on_witness :
  exists v1 v2 e1 e2 s1 s2,
    control interp (loop_of (weather_query "Miami") 20) (weather_query "Miami")
    = Ok (v1, e1, s1)
    /\ control interp (relaxed_loop final_email) final_email = Ok (v2, e2, s2)
    /\ v1 = v2.
Proof.
  destruct (control interp (loop_of (weather_query "Miami") 20)
              (weather_query "Miami")) as [[[v1 e1] s1] |] eqn:E1;
    [| vm_compute in E1; discriminate].
  destruct (control interp (relaxed_loop final_email) final_email)
    as [[[v2 e2] s2] |] eqn:E2;
    [| vm_compute in E2; discriminate].
  exists v1, v2, e1, e2, s1, s2. split; [reflexivity |]. split; [reflexivity |].
  refine (proj1 (gate_verdict_depends_only_on interp _ _ _ _ _ _ _ _ _ _
                   E1 E2 eq_refl _ _ _)).
  - vm_compute in E1, E2.
    injection E1 as _ <- _. injection E2 as _ <- _. reflexivity.
  - vm_compute in E1, E2.
    injection E1 as _ <- _. injection E2 as _ <- _. reflexivity.
  - vm_compute in E1, E2.
    injection E1 as _ <- _. injection E2 as _ <- _. reflexivity.
Defined.

(* ===================================================================== *)
(** * Further properties of the store, the registry and the gate          *)
(* ===================================================================== *)

Import AuditLog.

(** X1: the working store gives back what was written last under a key
    and keeps what is under the other keys; a write touches neither the
    log nor the evidence cache. *)
Theorem write_then_read
  (key : string) (v : value) (evidence_id : option string) (m : Memory) :
  read key (write key v evidence_id m) = v
  /\ (forall other, other <> key ->
        read other (write key v evidence_id m) = read other m)
  /\ history (write key v evidence_id m) = history m
  /\ evidence_cache (write key v evidence_id m) = evidence_cache m.
Proof.
  unfold read, write; simpl. repeat split.
  - now rewrite lookup_setitem_eq.
  - intros other Hne. now rewrite lookup_setitem_ne.
Qed.

Lemma setitem_absent {A : Type} (k : string) (v : A) (d : pydict A) :
  contains k d = false -> setitem k v d = (d ++ [(k, v)])%list.
Proof.
  unfold contains.
  induction d as [| [k' v'] r IH]; simpl; [reflexivity |].
  destruct (String.eqb k k'); [discriminate |].
  intros H. now rewrite IH.
Qed.

Section Registry.

Context {World : Type}.
Variable I : Interp.

(** X2: a registered tool is the one [execute] calls under its name, a
    second registration under the same name replaces the first, and the
    other names dispatch as before. *)
Theorem register_then_execute
  (name description : string) (func : tool_fn World)
  (reg : ToolRegistry World) (kwargs : pydict value) (w : World) :
  execute I (register name func description reg) (VStr name) kwargs w
  = func kwargs w
  /\ (forall func' description',
        execute I
          (register name func' description'
             (register name func description reg))
          (VStr name) kwargs w
        = func' kwargs w)
  /\ (forall other, other <> name ->
        execute I (register name func description reg) (VStr other) kwargs w
        = execute I reg (VStr other) kwargs w).
Proof.
  unfold execute, register. repeat split.
  - now rewrite lookup_setitem_eq.
  - intros. now rewrite lookup_setitem_eq.
  - intros other Hne. now rewrite lookup_setitem_ne.
Qed.

(** X3: the tool listing follows the order of registration: a new name
    is listed last, and registering again under a name already there
    keeps every name at its place. *)
Theorem register_keeps_listing_order
  (name description : string) (func : tool_fn World)
  (reg : ToolRegistry World) (listing : list value) :
  get_tool_descriptions reg = VList listing ->
  (contains name reg = false ->
   get_tool_descriptions (register name func description reg)
   = VList (listing
            ++ [VDict [("name", VStr name);
                       ("description", VStr description)]]))
  /\ (contains name reg = true ->
      keys (register name func description reg) = keys reg).
Proof.
  unfold get_tool_descriptions, register. intros [= <-]. split.
  - intros Hnew. rewrite (setitem_absent _ _ _ Hnew).
    now rewrite !map_app.
  - intros Hold. now apply keys_setitem_present.
Qed.

(** ** The gate *)

Lemma lookup_mark (k : string) (cognition_output : pydict value) :
  k <> "control_validated" ->
  lookup k (mark_validated cognition_output) = lookup k cognition_output.
Proof.
  intros Hne. unfold mark_validated.
  destruct (truthy (get "is_final_action" cognition_output)); [| reflexivity].
  now apply lookup_setitem_ne.
Qed.

Lemma control_verdict_none (mp : MetaPrompt) (m : Memory)
  (cognition_output : pydict value) :
  control_verdict I mp m cognition_output = None
  <-> forall d,
        get_default "proposed_action" (VDict []) cognition_output <> VDict d.
Proof.
  unfold control_verdict.
  destruct (get_default "proposed_action" (VDict []) cognition_output)
    as [| b | z | s | l | d]; split; intros H;
    try reflexivity; try (intros d'; discriminate).
  - destruct (truthy (get "tool_name" d));
      [destruct (has_evidence _ m) |]; discriminate.
  - now destruct (H d).
Qed.

Lemma control_raise_verdict
  (self : StructuredCognitiveLoop World) (cognition_output : pydict value) :
  control I self cognition_output = Raise
  <-> control_verdict I (metaprompt self) (memory self)
        (mark_validated cognition_output) = None.
Proof.
  unfold control.
  destruct (control_verdict I (metaprompt self) (memory self)
              (mark_validated cognition_output)) as [[is_valid message] |];
    split; intros H; try reflexivity; discriminate.
Qed.

(** X5: the gate approves a proposal exactly when the proposal cites
    evidence (or the citation rule is off) and its evidence identifier is
    not in the cache; an approval always carries the message PASS. *)
Theorem control_approves_iff
  (self self' : StructuredCognitiveLoop World)
  (cognition_output evaluated : pydict value)
  (is_valid : bool) (message : string) :
  control I self cognition_output = Ok ((is_valid, message), evaluated, self') ->
  (is_valid = true
   <-> (must_cite_stored_evidence (metaprompt self) = false
        \/ truthy (get "evidence_refs" cognition_output) = true)
       /\ already_cached I (memory self) cognition_output = false)
  /\ (is_valid = true -> message = "PASS").
Proof.
  intros HC. apply control_inv in HC. destruct HC as (-> & HV & _).
  apply control_verdict_eq in HV.
  assert (Hc : already_cached I (memory self) (mark_validated cognition_output)
               = already_cached I (memory self) cognition_output).
  { unfold already_cached. now rewrite descriptor_of_mark. }
  assert (Hr : get "evidence_refs" (mark_validated cognition_output)
               = get "evidence_refs" cognition_output).
  { unfold get. now rewrite lookup_mark by discriminate. }
  rewrite Hc in HV. unfold validate in HV.
  rewrite validate_issues_eq, final_unvalidated_mark, app_nil_r in HV.
  unfold cites_nothing in HV. rewrite Hr in HV.
  destruct (already_cached I (memory self) cognition_output).
  - injection HV as -> ->. intuition congruence.
  - destruct (must_cite_stored_evidence (metaprompt self));
      destruct (truthy (get "evidence_refs" cognition_output));
      simpl in HV; injection HV as -> ->; intuition congruence.
Qed.

End Registry.

(* ===================================================================== *)
(** * Further properties of the loop                                      *)
(* ===================================================================== *)

Section Passes.

Context {World : Type}.
Variable I : Interp.

Local Abbreviation SCL := (StructuredCognitiveLoop World).

(** ** What each stage appends *)

Lemma cognition_exact (self self1 : SCL) (context response : pydict value)
  (w w1 : World) :
  cognition self context w = Ok (response, self1, w1) ->
  cognition_engine self (get_state_summary (memory self))
    (get_tool_descriptions (tools self)) context w
  = (EngineReturned (VDict response), w1)
  /\ exists t,
       self1 = with_memory (log_trace t (memory self))
                 (with_loop_counter (loop_counter self + 1) self)
       /\ stamp t = cognition_stamp (loop_counter self + 1)
       /\ validation_result t = None.
Proof.
  unfold cognition; simpl.
  destruct (cognition_engine self (get_state_summary (memory self))
              (get_tool_descriptions (tools self)) context w)
    as [[[| b | z | s | l | response'] |] w1']; try discriminate.
  intros [= <- <- <-]. split; [reflexivity |].
  eexists. repeat split.
Qed.

Lemma control_exact (self self1 : SCL) (cognition_output evaluated : pydict value)
  (v : bool * string) :
  control I self cognition_output = Ok (v, evaluated, self1) ->
  evaluated = mark_validated cognition_output
  /\ control_verdict I (metaprompt self) (memory self) evaluated = Some v
  /\ exists t,
       self1 = with_memory (log_trace t (memory self)) self
       /\ stamp t = control_stamp (loop_counter self)
       /\ validation_result t = Some (fst v).
Proof.
  unfold control.
  destruct (control_verdict I (metaprompt self) (memory self)
              (mark_validated cognition_output)) as [[is_valid message] |] eqn:E;
    [| discriminate].
  intros [= <- <- <-]. repeat split; auto.
  eexists. repeat split.
Qed.

(** The action stage either leaves the loop object as it is (no tool
    name, or the dispatch raised), or has run the tool and stored its
    result under the evidence identifier. *)
Lemma action_exact (self self1 : SCL) (cognition_output : pydict value)
  (w w1 : World) (result : value) :
  action I self cognition_output w = Ok (result, self1, w1) ->
  self1 = self
  \/ exists tool_name parameters t,
       descriptor_of cognition_output = Some (tool_name, parameters)
       /\ truthy tool_name = true
       /\ call_execute I (tools self) tool_name parameters w
          = (Returned result, w1)
       /\ self1
          = with_memory
              (log_trace t
                 (store_evidence (evidence_id_of I tool_name parameters)
                    result (memory self)))
              self
       /\ stamp t = action_stamp (loop_counter self)
       /\ validation_result t = None.
Proof.
  unfold action, descriptor_of.
  destruct (get_default "proposed_action" (VDict []) cognition_output)
    as [| b | z | s | l | d]; try discriminate.
  destruct (truthy (get "tool_name" d)) eqn:HT; simpl.
  - destruct (call_execute I (tools self) (get "tool_name" d)
                (get_default "parameters" (VDict []) d) w)
      as [[r | msg |] w'] eqn:HX; try discriminate.
    + intros [= <- <- <-]. right.
      do 3 eexists. split; [reflexivity |]. split; [exact HT |].
      split; [exact HX |]. repeat split.
    + intros [= <- <- <-]. now left.
  - intros [= <- <- <-]. now left.
Qed.

(** What a pass that does not raise has done. *)
Lemma loop_body_exact (self self' : SCL) (context context' : pydict value)
  (w w' : World) :
  loop_body I self context w = BodyContinue self' context' w'
  \/ loop_body I self context w = BodyBreak self' context' w' ->
  frame 1 self self'
  /\ exists tc tk b,
       stamp tc = cognition_stamp (loop_counter self + 1)
       /\ validation_result tc = None
       /\ stamp tk = control_stamp (loop_counter self + 1)
       /\ validation_result tk = Some b
       /\ ((history (memory self') = (history (memory self) ++ [tc; tk])%list
            /\ evidence_cache (memory self') = evidence_cache (memory self))
           \/ (b = true
               /\ exists ta id r,
                    stamp ta = action_stamp (loop_counter self + 1)
                    /\ validation_result ta = None
                    /\ history (memory self')
                       = (history (memory self) ++ [tc; tk; ta])%list
                    /\ has_evidence id (memory self) = false
                    /\ evidence_cache (memory self')
                       = setitem id r (evidence_cache (memory self)))).
Proof.
  unfold loop_body.
  destruct (cognition self context w) as [[[response self1] w1] |] eqn:EC.
  2: { intros [H | H]; discriminate. }
  apply cognition_exact in EC. destruct EC as (_ & tc & -> & Sc & Vc).
  match goal with
  | |- context [control I ?s response] => set (self1 := s)
  end.
  destruct (control I self1 response)
    as [[[[is_valid msg] evaluated] self2] |] eqn:EK.
  2: { intros [H | H]; discriminate. }
  apply control_exact in EK. destruct EK as (-> & HV & tk & E2 & Sk & Vk).
  assert (F2 : frame 1 self self2).
  { subst self2 self1. split; reflexivity. }
  assert (H2 : history (memory self2) = (history (memory self) ++ [tc; tk])%list).
  { subst self2 self1. simpl. now rewrite <- app_assoc. }
  assert (C2 : evidence_cache (memory self2) = evidence_cache (memory self)).
  { subst self2 self1. reflexivity. }
  assert (L2 : loop_counter self2 = loop_counter self + 1).
  { subst self2 self1. reflexivity. }
  simpl in Sk, Vk. change (loop_counter self1) with (loop_counter self + 1) in Sk.
  destruct is_valid; simpl.
  - destruct (action I self2 (mark_validated response) w1)
      as [[[result self3] w2] |] eqn:EA.
    2: { intros [H | H]; discriminate. }
    apply action_exact in EA.
    intros Hres.
    assert (self' = self3) as ->.
    { destruct (truthy (get "is_final_action" (mark_validated response)));
        destruct Hres as [H | H]; try discriminate; now injection H. }
    clear Hres.
    destruct EA as [-> | (tool_name & parameters & ta & HD & HT & HX & -> & Sa & Va)].
    + split; [exact F2 |]. exists tc, tk, true. repeat split; auto.
    + split.
      { destruct F2. split; simpl; auto. }
      exists tc, tk, true. repeat split; auto. right. split; [reflexivity |].
      exists ta, (evidence_id_of I tool_name parameters), result.
      rewrite L2 in Sa. repeat split; auto.
      * simpl. rewrite H2. now rewrite <- app_assoc.
      * apply control_verdict_eq in HV.
        unfold already_cached in HV. rewrite HD, HT in HV.
        unfold has_evidence in *. simpl in HV.
        destruct (contains (evidence_id_of I tool_name parameters)
                    (evidence_cache (memory self)));
          [discriminate | reflexivity].
      * simpl. now rewrite C2.
  - intros [H | H]; [| discriminate]. injection H as <- _ _.
    split; [exact F2 |]. exists tc, tk, false. repeat split; auto.
Qed.

(** ** Invariants of the loop *)

(** A property of the loop object that every pass keeps is kept by the
    whole loop. *)
Lemma ccam_loop_keeps (P : SCL -> Prop) :
  (forall self self' context context' w w',
     P self ->
     loop_body I self context w = BodyContinue self' context' w'
     \/ loop_body I self context w = BodyBreak self' context' w' ->
     P self') ->
  forall fuel self context w how self' context' w',
    P self ->
    ccam_loop I fuel self context w = LoopExit how self' context' w' ->
    P self'.
Proof.
  intros Hstep. induction fuel as [| fuel IH];
    intros self context w how self' context' w' HP; simpl; [discriminate |].
  destruct (loop_counter self <? max_loops self).
  - destruct (loop_body I self context w)
      as [| self1 context1 w1 | self1 context1 w1] eqn:EB; [discriminate | |].
    + apply IH. eapply Hstep; [exact HP | left; exact EB].
    + intros [= <- <- <- <-]. eapply Hstep; [exact HP | right; exact EB].
  - now intros [= <- <- <- <-].
Qed.

(** How the loop was left: at the ceiling, or after at least one pass. *)
Lemma ccam_loop_exit (fuel : nat) :
  forall (self : SCL) context w how self' context' w',
    ccam_loop I fuel self context w = LoopExit how self' context' w' ->
    (how = CeilingReached -> max_loops self' <= loop_counter self')
    /\ (how = Completed -> loop_counter self < loop_counter self')
    /\ loop_counter self <= loop_counter self'.
Proof.
  induction fuel as [| fuel IH];
    intros self context w how self' context' w'; simpl; [discriminate |].
  destruct (loop_counter self <? max_loops self) eqn:G.
  - destruct (loop_body I self context w)
      as [| self1 context1 w1 | self1 context1 w1] eqn:EB; [discriminate | |].
    + pose proof (loop_body_exact _ _ _ _ _ _ (or_introl EB)) as (F & _).
      intros HL. apply IH in HL. destruct HL as (A & B & C). destruct F.
      repeat split; [exact A | intros Hh; specialize (B Hh); lia | lia].
    + pose proof (loop_body_exact _ _ _ _ _ _ (or_intror EB)) as (F & _).
      intros [= <- <- <- <-]. destruct F.
      repeat split; try discriminate; lia.
  - apply Z.ltb_ge in G. intros [= <- <- <- <-].
    repeat split; try discriminate; try lia.
Qed.

(** The state [run] enters its loop with. *)
Lemma run_unfold (self : SCL) (task_text : string) (w : World) :
  run I self task_text w
  = match ccam_loop I (run_fuel (snd (retrieval self task_text)))
            (snd (retrieval self task_text))
            [ ("task", VStr task_text);
              ("retrieval_plan", fst (retrieval self task_text));
              ("status", VStr "in_progress") ] w with
    | LoopRaised => RunRaised
    | LoopOutOfFuel => RunOutOfFuel
    | LoopExit how self2 _ w2 =>
        RunReturned (_generate_audit_report self2) how self2 w2
    end.
Proof. reflexivity. Qed.

Lemma run_returned (self self' : SCL) (task_text : string) (w w' : World)
  (report : AuditReport) (how : loop_exit) :
  run I self task_text w = RunReturned report how self' w' ->
  report = _generate_audit_report self'
  /\ exists context',
       ccam_loop I (run_fuel (snd (retrieval self task_text)))
         (snd (retrieval self task_text))
         [ ("task", VStr task_text);
           ("retrieval_plan", fst (retrieval self task_text));
           ("status", VStr "in_progress") ] w
       = LoopExit how self' context' w'.
Proof.
  rewrite run_unfold.
  destruct (ccam_loop I _ _ _ w) as [| | how' self2 context2 w2];
    try discriminate.
  intros [= <- <- <- <-]. split; [reflexivity |]. now exists context2.
Qed.

(** ** Counting in the log *)

Lemma count_module_concat (m : ModuleType) (l1 l2 : list LoopTrace) :
  count_module m (l1 ++ l2) = count_module m l1 + count_module m l2.
Proof.
  unfold count_module. rewrite filter_app, length_app. lia.
Qed.

Lemma count_rejections_concat (l1 l2 : list LoopTrace) :
  count_rejections (l1 ++ l2) = count_rejections l1 + count_rejections l2.
Proof.
  unfold count_rejections. rewrite filter_app, length_app. lia.
Qed.

Lemma stamp_module (t : LoopTrace) (id name : string) :
  stamp t = (id, name) -> module t = name.
Proof. now intros [= _ H]. Qed.

(** Where only the gate records verdicts, the traces with a false
    verdict are the rejections. *)
Lemma false_verdicts_are_rejections (l : list LoopTrace) :
  verdicts_with_control l ->
  filter (fun t => match validation_result t with
                   | Some false => true
                   | _ => false
                   end) l
  = filter is_rejection l.
Proof.
  induction 1 as [| t l Ht Hl IH]; simpl; [reflexivity |].
  unfold is_rejection at 1.
  destruct (validation_result t) as [[|] |] eqn:E;
    rewrite ?andb_false_r; try exact IH.
  rewrite Ht by discriminate. simpl. now rewrite IH.
Qed.

Lemma counts_hold_pass (self self' : SCL) (context context' : pydict value)
  (w w' : World) :
  counts_hold self ->
  loop_body I self context w = BodyContinue self' context' w'
  \/ loop_body I self context w = BodyBreak self' context' w' ->
  counts_hold self'.
Proof.
  intros (HV & HR & HG & HK & HA) HB.
  apply loop_body_exact in HB.
  destruct HB as (F & tc & tk & b & Sc & Vc & Sk & Vk & Hcase).
  pose proof (stamp_module _ _ _ Sc) as Mc.
  pose proof (stamp_module _ _ _ Sk) as Mk.
  assert (Rc : is_rejection tc = false).
  { unfold is_rejection. now rewrite Vc, andb_false_r. }
  assert (Rk : count_rejections [tk] = if b then 0 else 1).
  { unfold count_rejections, is_rejection; simpl. rewrite Mk, Vk.
    now destruct b. }
  destruct F as [_ _ _ _ _ Fc].
  destruct Hcase as [(HH & _) | (-> & ta & id & r & Sa & Va & HH & _)];
    unfold counts_hold; rewrite HH, Fc.
  - repeat split.
    + apply Forall_app. split; [exact HV |].
      repeat constructor; [rewrite Vc; now intros [] | intros _; exact Mk].
    + rewrite count_module_concat, HR. unfold count_module; simpl.
      now rewrite Mc, Mk.
    + rewrite count_module_concat, HG. unfold count_module; simpl.
      now rewrite Mc, Mk.
    + rewrite count_module_concat, HK. unfold count_module; simpl.
      now rewrite Mc, Mk.
    + rewrite count_module_concat, count_rejections_concat.
      change [tc; tk] with ([tc] ++ [tk])%list.
      rewrite count_rejections_concat, Rk.
      unfold count_module at 2, count_rejections at 2; simpl.
      rewrite Mc, Mk, Rc. simpl. destruct b; lia.
  - pose proof (stamp_module _ _ _ Sa) as Ma.
    assert (Ra : is_rejection ta = false).
    { unfold is_rejection. now rewrite Va, andb_false_r. }
    repeat split.
    + apply Forall_app. split; [exact HV |].
      repeat constructor;
        [rewrite Vc; now intros [] | intros _; exact Mk
         | rewrite Va; now intros []].
    + rewrite count_module_concat, HR. unfold count_module; simpl.
      now rewrite Mc, Mk, Ma.
    + rewrite count_module_concat, HG. unfold count_module; simpl.
      now rewrite Mc, Mk, Ma.
    + rewrite count_module_concat, HK. unfold count_module; simpl.
      now rewrite Mc, Mk, Ma.
    + rewrite count_module_concat, count_rejections_concat.
      unfold count_module at 2, count_rejections at 2, is_rejection; simpl.
      rewrite Mc, Mk, Ma, Vc, Vk, Va. simpl. lia.
Qed.

Lemma counts_hold_retrieval (engine : engine_fn World)
  (reg : ToolRegistry World) (mp : MetaPrompt) (ceiling : Z)
  (task_text : string) :
  counts_hold
    (snd (retrieval (StructuredCognitiveLoop_init engine reg mp ceiling)
            task_text)).
Proof.
  unfold counts_hold; simpl. repeat split; try reflexivity; try lia.
  repeat constructor. simpl. now intros [].
Qed.

(** X7: in the report of a run, [policy_violations] is the number of
    Control traces with a false verdict; the log holds one Retrieval
    trace and as many Control traces as [total_loops]; and the passes
    that ran a tool and the rejected passes together are no more than
    [total_loops]. *)
Theorem policy_violations_are_rejections
  (engine : engine_fn World) (reg : ToolRegistry World) (mp : MetaPrompt)
  (ceiling : Z) (task_text : string) (w w' : World)
  (report : AuditReport) (how : loop_exit) (self' : SCL) :
  run I (StructuredCognitiveLoop_init engine reg mp ceiling) task_text w
  = RunReturned report how self' w' ->
  policy_violations (summary report) = count_rejections (log report)
  /\ count_module RETRIEVAL (log report) = 1
  /\ count_module CONTROL (log report) = total_loops (summary report)
  /\ count_module ACTION (log report) + policy_violations (summary report)
     <= total_loops (summary report).
Proof.
  intros HR. apply run_returned in HR. destruct HR as (-> & context' & HL).
  apply (ccam_loop_keeps counts_hold counts_hold_pass) in HL;
    [| apply counts_hold_retrieval].
  destruct HL as (HV & HR & HG & HK & HA).
  unfold _generate_audit_report; simpl.
  rewrite (false_verdicts_are_rejections _ HV).
  fold (count_rejections (history (memory self'))).
  repeat split; assumption.
Qed.

(** ** The order of the traces *)

(** The format [{n:03d}] of a number that is not negative. *)
Lemma short_numeral_small (d : Decimal.uint) :
  (String.length (NilEmpty.string_of_uint d) < 3)%nat ->
  (Pos.of_uint d < 100)%N.
Proof.
  intros H.
  destruct d as [| d | d | d | d | d | d | d | d | d | d];
    [reflexivity | ..];
    (destruct d as [| d | d | d | d | d | d | d | d | d | d];
     [reflexivity | ..]);
    (destruct d; [reflexivity | simpl in H; lia ..]).
Qed.

Lemma long_numeral (k : Z) :
  100 <= k -> (3 <= String.length (str_of_Z k))%nat.
Proof.
  intros Hk. destruct k as [| p | p]; try lia.
  unfold str_of_Z, NilZero.string_of_int, NilZero.string_of_uint.
  cbn [Z.to_int].
  pose proof (DecimalPos.Unsigned.to_uint_nonnil p) as Hnil.
  pose proof (DecimalPos.Unsigned.of_to p) as Hof.
  pose proof (short_numeral_small (Pos.to_uint p)) as Hshort.
  destruct (Pos.to_uint p) eqn:E; [now destruct Hnil | ..];
    (destruct (Nat.lt_ge_cases
                 (String.length (NilEmpty.string_of_uint (Pos.to_uint p))) 3)
       as [Hlt | Hge];
     [rewrite E in Hlt; specialize (Hshort Hlt); rewrite Hof in Hshort; lia
     | rewrite E in Hge; exact Hge]).
Qed.

Lemma fmt_03d_short :
  forallb (fun n => String.eqb (fmt_03d (Z.of_nat n))
                      (pass_number (Z.of_nat n)))
    (seq 0 1000) = true.
Proof. vm_compute. reflexivity. Qed.

Lemma fmt_03d_pass_number (k : Z) : 0 <= k -> fmt_03d k = pass_number k.
Proof.
  intros Hk. destruct (Z.ltb_spec k 1000) as [Hlt | Hge].
  - pose proof fmt_03d_short as H. rewrite forallb_forall in H.
    specialize (H (Z.to_nat k)). rewrite Z2Nat.id in H by exact Hk.
    apply String.eqb_eq, H, in_seq. lia.
  - unfold fmt_03d, pass_number.
    replace (k <? 0) with false by (symmetry; apply Z.ltb_ge; lia).
    replace (k <? 1000) with false by (symmetry; apply Z.ltb_ge; lia).
    rewrite Z.abs_eq by exact Hk.
    pose proof (long_numeral k ltac:(lia)) as HL.
    replace (3 - String.length (str_of_Z k))%nat with 0%nat by lia.
    reflexivity.
Qed.

Lemma log_in_order_pass (self self' : SCL) (context context' : pydict value)
  (w w' : World) :
  log_in_order self ->
  loop_body I self context w = BodyContinue self' context' w'
  \/ loop_body I self context w = BodyBreak self' context' w' ->
  log_in_order self'.
Proof.
  intros (Hpos & l & Hl & HB) Hbody.
  apply loop_body_exact in Hbody.
  destruct Hbody as (F & tc & tk & b & Sc & Vc & Sk & Vk & Hcase).
  destruct F as [_ _ _ _ _ Fc]. unfold log_in_order. rewrite Fc.
  split; [lia |].
  unfold cognition_stamp, control_stamp in Sc, Sk.
  rewrite fmt_03d_pass_number in Sc, Sk by lia.
  destruct Hcase as [(HH & _) | (_ & ta & id & r & Sa & _ & HH & _)];
    rewrite HH, map_app, Hl; simpl; rewrite ?Sc, ?Sk.
  - eexists. split; [rewrite app_comm_cons; reflexivity |].
    apply blocks_more; [exact HB | apply block_without_action].
  - unfold action_stamp in Sa.
    rewrite fmt_03d_pass_number in Sa by lia. rewrite Sa.
    eexists. split; [rewrite app_comm_cons; reflexivity |].
    apply blocks_more; [exact HB | apply block_with_action].
Qed.

(** X8: the log of a run is the Retrieval trace [R-001] followed by the
    blocks of the passes 1, 2, ..., [total_loops], each made of a
    Cognition trace [CCAM-kkk], a Control trace [CTL-kkk] and at most one
    Action trace [ACT-kkk], where [kkk] is the number of the pass in
    three digits (in full from 1000 on). *)
Theorem log_is_retrieval_then_passes
  (engine : engine_fn World) (reg : ToolRegistry World) (mp : MetaPrompt)
  (ceiling : Z) (task_text : string) (w w' : World)
  (report : AuditReport) (how : loop_exit) (self' : SCL) :
  run I (StructuredCognitiveLoop_init engine reg mp ceiling) task_text w
  = RunReturned report how self' w' ->
  exists l,
    map (fun t => (loop_id t, module t)) (log report)
    = ("R-001", "Retrieval") :: l
    /\ pass_blocks 1 (total_loops (summary report) + 1) l.
Proof.
  intros HR. apply run_returned in HR. destruct HR as (-> & context' & HL).
  apply (ccam_loop_keeps log_in_order log_in_order_pass) in HL.
  - destruct HL as (_ & HL). exact HL.
  - split; [simpl; lia |].
    exists []. split; [reflexivity |]. apply blocks_none.
Qed.

(** ** The two ways out *)

(** X9: with a ceiling that is not negative, a run that leaves the loop
    because the ceiling is reached reports [total_loops] equal to the
    ceiling, and a run that leaves through the [break] of a completed
    task reports between one pass and the ceiling. *)
Theorem exit_and_total_loops
  (engine : engine_fn World) (reg : ToolRegistry World) (mp : MetaPrompt)
  (ceiling : Z) (task_text : string) (w w' : World)
  (report : AuditReport) (how : loop_exit) (self' : SCL) :
  0 <= ceiling ->
  run I (StructuredCognitiveLoop_init engine reg mp ceiling) task_text w
  = RunReturned report how self' w' ->
  (how = CeilingReached -> total_loops (summary report) = ceiling)
  /\ (how = Completed -> 1 <= total_loops (summary report) <= ceiling).
Proof.
  intros Hpos HR. apply run_returned in HR.
  destruct HR as (-> & context' & HL).
  match type of HL with
  | ccam_loop I ?f ?s ?c w = _ => pose proof (ccam_loop_spec I f s c w) as HS
  end.
  rewrite HL in HS.
  destruct HS as (HM & _ & HB & _).
  apply ccam_loop_exit in HL. destruct HL as (HC & HD & _).
  simpl in *. split; intros Hhow.
  - specialize (HC Hhow). lia.
  - specialize (HD Hhow). lia.
Qed.


(** ** Evidence along a run *)


(** ** An approved pass *)

Lemma is_final_after_mark (cognition_output : pydict value) :
  truthy (get "is_final_action" (mark_validated cognition_output))
  = truthy (get "is_final_action" cognition_output).
Proof.
  unfold mark_validated.
  destruct (truthy (get "is_final_action" cognition_output)) eqn:E;
    [| exact E].
  rewrite get_setitem_ne; [exact E | discriminate].
Qed.

(** A pass whose proposal the gate approves goes on to the action
    stage, entered with the two traces of Cognition and Control
    appended. *)
Lemma approved_pass (self : SCL) (context response : pydict value)
  (w w1 : World) (message : string) :
  cognition_engine self (get_state_summary (memory self))
    (get_tool_descriptions (tools self)) context w
  = (EngineReturned (VDict response), w1) ->
  control_verdict I (metaprompt self) (memory self) (mark_validated response)
  = Some (true, message) ->
  exists self2 tc tk,
    frame 1 self self2
    /\ evidence_cache (memory self2) = evidence_cache (memory self)
    /\ history (memory self2) = (history (memory self) ++ [tc; tk])%list
    /\ stamp tc = cognition_stamp (loop_counter self + 1)
    /\ validation_result tc = None
    /\ stamp tk = control_stamp (loop_counter self + 1)
    /\ validation_result tk = Some true
    /\ loop_body I self context w
       = match action I self2 (mark_validated response) w1 with
         | Raise => BodyRaised
         | Ok (action_result, self3, w2) =>
             if truthy (get "is_final_action" response)
             then BodyBreak self3
                    (setitem "last_action_result" action_result context) w2
             else BodyContinue self3
                    (setitem "last_action_result" action_result context) w2
         end.
Proof.
  intros HE HV. unfold loop_body.
  pose proof (cognition_spec self context w) as HC.
  destruct (cognition self context w) as [[[response' self1] w1'] |] eqn:EC.
  2: { exfalso. exact (HC _ _ HE). }
  clear HC. apply cognition_exact in EC.
  destruct EC as (HE' & tc & -> & Sc & Vc).
  rewrite HE in HE'. injection HE' as <- <-.
  match goal with
  | |- context [control I ?s response] => set (self1 := s)
  end.
  assert (HV1 : control_verdict I (metaprompt self1) (memory self1)
                  (mark_validated response) = Some (true, message)).
  { rewrite <- HV. apply control_verdict_cache. reflexivity. }
  destruct (control I self1 response) as [[[v evaluated] self2] |] eqn:EK.
  2: { apply control_raise_verdict in EK. rewrite HV1 in EK. discriminate. }
  apply control_exact in EK. destruct EK as (-> & HV' & tk & E2 & Sk & Vk).
  rewrite HV1 in HV'. injection HV' as <-. simpl in Vk.
  exists self2, tc, tk. subst self2 self1. simpl.
  rewrite is_final_after_mark.
  repeat split; auto. now rewrite <- app_assoc.
Qed.

(** X6: a pass whose proposal names no tool (no action descriptor, or a
    falsy tool name) runs no tool and is never a redundant call,
    whatever the cache holds.  When the proposal cites nothing under the
    citation rule it is turned down for the missing citations;
    otherwise the gate approves it, the action result handed to the
    next pass is [{status: no_action, result: None}], and a final
    proposal ends the loop.  Either way the pass appends a Cognition and
    a Control trace, no Action trace, and leaves the evidence cache as
    it was. *)
Theorem pass_without_tool_name
  (self : SCL) (context response : pydict value) (w w1 : World) :
  cognition_engine self (get_state_summary (memory self))
    (get_tool_descriptions (tools self)) context w
  = (EngineReturned (VDict response), w1) ->
  (lookup "proposed_action" response = None
   \/ exists proposed_action,
        lookup "proposed_action" response = Some (VDict proposed_action)
        /\ truthy (get "tool_name" proposed_action) = false) ->
  exists self' tc tk,
    history (memory self') = (history (memory self) ++ [tc; tk])%list
    /\ module tc = "Cognition"
    /\ module tk = "Control"
    /\ evidence_cache (memory self') = evidence_cache (memory self)
    /\ loop_counter self' = loop_counter self + 1
    /\ if must_cite_stored_evidence (metaprompt self)
          && negb (truthy (get "evidence_refs" response))
       then
         validation_result tk = Some false
         /\ loop_body I self context w
            = BodyContinue self'
                (setitem "last_rejection"
                   (VStr "VIOLATIONS: Missing evidence citations") context)
                w1
       else
         validation_result tk = Some true
         /\ loop_body I self context w
            = (if truthy (get "is_final_action" response)
               then BodyBreak self'
                      (setitem "last_action_result"
                         (VDict [ ("status", VStr "no_action");
                                  ("result", VNone) ])
                         context) w1
               else BodyContinue self'
                      (setitem "last_action_result"
                         (VDict [ ("status", VStr "no_action");
                                  ("result", VNone) ])
                         context) w1).
Proof.
  intros HE Hno.
  assert (HP : lookup "proposed_action" (mark_validated response)
               = lookup "proposed_action" response)
    by (apply lookup_mark; discriminate).
  assert (HA : forall (s : SCL) w0,
             action I s (mark_validated response) w0
             = Ok (VDict [("status", VStr "no_action"); ("result", VNone)],
                   s, w0)).
  { intros s w0. unfold action, get_default. rewrite HP.
    destruct Hno as [-> | (pa & -> & Hf)]; [reflexivity |].
    now rewrite Hf. }
  assert (HV : control_verdict I (metaprompt self) (memory self)
                 (mark_validated response)
               = Some (validate (metaprompt self) (mark_validated response))).
  { unfold control_verdict, get_default. rewrite HP.
    destruct Hno as [-> | (pa & -> & Hf)]; [reflexivity |].
    now rewrite Hf. }
  assert (Hr : get "evidence_refs" (mark_validated response)
               = get "evidence_refs" response).
  { unfold get. now rewrite lookup_mark by discriminate. }
  unfold validate in HV.
  rewrite validate_issues_eq, final_unvalidated_mark, app_nil_r in HV.
  unfold cites_nothing in HV. rewrite Hr in HV.
  destruct (must_cite_stored_evidence (metaprompt self)
            && negb (truthy (get "evidence_refs" response))).
  - destruct (rejected_pass I self context response w w1 _ HE HV)
      as (self' & tc & tk & HB & F & HC & HH & Mc & Mk & Vk & _).
    exists self', tc, tk. destruct F.
    repeat split; assumption.
  - destruct (approved_pass self context response w w1 _ HE HV)
      as (self2 & tc & tk & F & HC & HH & Sc & _ & Sk & Vk & HB).
    rewrite HA in HB.
    exists self2, tc, tk. destruct F.
    repeat split; try assumption.
    + exact (stamp_module _ _ _ Sc).
    + exact (stamp_module _ _ _ Sk).
Qed.

(** X12: a final proposal that the gate approves ends the loop even when
    its tool fails: the error dictionary becomes the last action result,
    nothing is stored as evidence, and the loop is left through the
    [break] of a completed task. *)
Theorem failed_final_action_ends_run
  (self : SCL) (context response : pydict value) (w w1 w2 : World)
  (message error : string) (tool_name parameters : value) :
  cognition_engine self (get_state_summary (memory self))
    (get_tool_descriptions (tools self)) context w
  = (EngineReturned (VDict response), w1) ->
  truthy (get "is_final_action" response) = true ->
  control_verdict I (metaprompt self) (memory self) (mark_validated response)
  = Some (true, message) ->
  descriptor_of response = Some (tool_name, parameters) ->
  truthy tool_name = true ->
  call_execute I (tools self) tool_name parameters w1
  = (RaisedException error, w2) ->
  exists self',
    loop_body I self context w
    = BodyBreak self'
        (setitem "last_action_result" (VDict [ ("status", VStr "error");
                    ("message",
                      VStr ("Action execution failed: " ++ error)) ]) context) w2
    /\ evidence_cache (memory self') = evidence_cache (memory self)
    /\ count_module ACTION (history (memory self'))
       = count_module ACTION (history (memory self))
    /\ forall fuel,
         loop_counter self < max_loops self ->
         ccam_loop I (S fuel) self context w
         = LoopExit Completed self'
             (setitem "last_action_result" (VDict [ ("status", VStr "error");
                    ("message",
                      VStr ("Action execution failed: " ++ error)) ]) context) w2.
Proof.
  intros HE HF HV HD HT HX.
  destruct (approved_pass self context response w w1 message HE HV)
    as (self2 & tc & tk & F & HC & HH & Sc & _ & Sk & _ & HB).
  rewrite <- descriptor_of_mark in HD.
  rewrite (action_unfold I self2 (mark_validated response) w1 tool_name
             parameters HD HT) in HB.
  rewrite (frame_tools _ _ _ F), HX, HF in HB.
  exists self2. split; [exact HB |]. split; [exact HC |]. split.
  - rewrite HH, count_module_concat. unfold count_module at 2; simpl.
    rewrite (stamp_module _ _ _ Sc), (stamp_module _ _ _ Sk). simpl. lia.
  - intros fuel Hlt. rewrite ccam_loop_unfold, HB.
    apply Z.ltb_lt in Hlt. now rewrite Hlt.
Qed.

(** A pass in which the gate approves the proposal and the tool
    returns: the result is stored as evidence and carried to the next
    pass, three traces are appended, none of them a rejection. *)
Lemma executed_pass (self : SCL) (context response : pydict value)
  (w w1 w2 : World) (message : string) (tool_name parameters result : value) :
  cognition_engine self (get_state_summary (memory self))
    (get_tool_descriptions (tools self)) context w
  = (EngineReturned (VDict response), w1) ->
  control_verdict I (metaprompt self) (memory self) (mark_validated response)
  = Some (true, message) ->
  descriptor_of response = Some (tool_name, parameters) ->
  truthy tool_name = true ->
  call_execute I (tools self) tool_name parameters w1 = (Returned result, w2) ->
  exists self',
    loop_body I self context w
    = (if truthy (get "is_final_action" response)
       then BodyBreak self'
              (setitem "last_action_result" result context) w2
       else BodyContinue self'
              (setitem "last_action_result" result context) w2)
    /\ frame 1 self self'
    /\ evidence_cache (memory self')
       = setitem (evidence_id_of I tool_name parameters) result
           (evidence_cache (memory self))
    /\ count_module ACTION (history (memory self'))
       = count_module ACTION (history (memory self)) + 1
    /\ count_rejections (history (memory self'))
       = count_rejections (history (memory self)).
Proof.
  intros HE HV HD HT HX.
  destruct (approved_pass self context response w w1 message HE HV)
    as (self2 & tc & tk & F & HC & HH & Sc & Vc & Sk & Vk & HB).
  rewrite <- descriptor_of_mark in HD.
  rewrite (action_unfold I self2 (mark_validated response) w1 tool_name
             parameters HD HT) in HB.
  rewrite (frame_tools _ _ _ F), HX in HB.
  eexists. split.
  { rewrite HB. destruct (truthy (get "is_final_action" response)); reflexivity. }
  destruct F. split; [split; simpl; auto |]. simpl.
  split; [now rewrite HC |].
  rewrite HH.
  pose proof (stamp_module _ _ _ Sc) as Mc.
  pose proof (stamp_module _ _ _ Sk) as Mk.
  split.
  - rewrite !count_module_concat. unfold count_module at 2 3; simpl.
    rewrite Mc, Mk. simpl. lia.
  - rewrite !count_rejections_concat.
    unfold count_rejections at 2 3, is_rejection; simpl.
    rewrite Mc, Mk, Vc, Vk. simpl. lia.
Qed.

End Passes.

(* ===================================================================== *)
(** * The mock engine                                                     *)
(* ===================================================================== *)

Import MockEngine.

Lemma py_in_app (x : value) (l1 l2 : list value) :
  py_in x (l1 ++ l2) = py_in x l1 || py_in x l2.
Proof. unfold py_in. apply existsb_app. Qed.

Lemma cities_differ_snoc (l : list (pydict value)) :
  forall (seen : list value) (d : pydict value),
    cities_differ seen (l ++ [d])
    = cities_differ seen l
      && negb (py_in (get "city" d) (seen ++ map (get "city") l)).
Proof.
  induction l as [| w rest IH]; intros seen d; simpl.
  - now rewrite app_nil_r, andb_true_r.
  - rewrite IH, <- app_assoc. simpl. now rewrite andb_assoc.
Qed.

Lemma next_query_spec (I : Interp) (collected_cities : list value) :
  forall (needed : list value) (response : pydict value),
    next_query I needed collected_cities = Some response ->
    (exists before key after city,
       needed = (before ++ key :: after)%list
       /\ (forall k, In k before ->
             exists c, mapped_city k = Some c
                       /\ py_in c collected_cities = true)
       /\ mapped_city key = Some city
       /\ py_in city collected_cities = false
       /\ response = weather_query_for I city)
    \/ (response = all_collected_response
        /\ forall key, In key needed ->
             exists city, mapped_city key = Some city
                          /\ py_in city collected_cities = true).
Proof.
  induction needed as [| key rest IH]; intros response; simpl.
  - intros [= <-]. right. split; [reflexivity |]. intros key [].
  - destruct (mapped_city key) as [city |] eqn:EM; [| discriminate].
    destruct (py_in city collected_cities) eqn:EP; simpl.
    + intros H.
      destruct (IH _ H)
        as [(bf & k & af & c & -> & Hbf & Hm & Hp & Hr) | (Hr & Hall)].
      * left. exists (key :: bf), k, af, c. repeat split; auto.
        intros k0 [<- | Hin]; [exists city; auto | auto].
      * right. split; [exact Hr |].
        intros k [<- | Hin]; [exists city; auto | auto].
    + intros [= <-]. left. exists [], key, rest, city. repeat split; auto.
      intros k [].
Qed.

Section EngineAndGate.

Context {World : Type}.
Variable I : Interp.

(** X13: the weather query the engine builds asks for the first needed
    city that no collected record names: every city needed before it is
    collected, and the proposal calls [get_weather] for its mapped name.
    The gate, under the default rules, approves it unless the evidence
    of that very call is already cached.  When every needed city is
    collected, and only then, the engine answers with a proposal that is
    not final and whose [proposed_action] is [None], on which [control]
    raises. *)
Theorem weather_query_names_missing_city
  (cities_needed : value) (already_collected : list (pydict value))
  (response : pydict value) :
  _generate_weather_query I cities_needed already_collected = Some response ->
  (exists before key after city,
     iterate cities_needed = Some (before ++ key :: after)%list
     /\ (forall k, In k before ->
           exists c,
             mapped_city k = Some c
             /\ py_in c (map (get "city") already_collected) = true)
     /\ mapped_city key = Some city
     /\ py_in city (map (get "city") already_collected) = false
     /\ descriptor_of response
        = Some (VStr "get_weather", VDict [("city", city)])
     /\ get "evidence_refs" response = VList [VStr "retrieval_plan"]
     /\ get "is_final_action" response = VBool false
     /\ forall m,
          control_verdict I MetaPrompt_init m (mark_validated response)
          = Some (if has_evidence
                       (evidence_id_of I (VStr "get_weather")
                          (VDict [("city", city)])) m
                  then (false, "REJECTED: Redundant tool call (evidence already in Memory)")
                  else (true, "PASS")))
  \/ (exists needed,
        iterate cities_needed = Some needed
        /\ (forall key, In key needed ->
              exists city,
                mapped_city key = Some city
                /\ py_in city (map (get "city") already_collected) = true)
        /\ lookup "proposed_action" response = Some VNone
        /\ get "is_final_action" response = VBool false
        /\ forall self : StructuredCognitiveLoop World,
             control I self response = Raise).
Proof.
  unfold _generate_weather_query.
  destruct (iterate cities_needed) as [needed |] eqn:EI; [| discriminate].
  intros H. apply next_query_spec in H.
  destruct H as [(bf & key & af & city & -> & Hbf & Hm & Hp & ->)
                | (-> & Hall)].
  - left. exists bf, key, af, city. repeat split; auto.
    intros m. unfold control_verdict. simpl.
    destruct (has_evidence _ m); reflexivity.
  - right. exists needed. repeat split; auto.
Qed.

End EngineAndGate.

(** X14: a call of the engine counts itself and keeps at most one new
    record, the last action result, and only when that result is a
    dictionary with a truthy city, a temperature that is not [None], and
    a city no record kept before names; so the records kept always name
    pairwise different cities. *)
Theorem call_keeps_cities_distinct
  (I : Interp) (st st' : engine_state) (context response : pydict value) :
  call I st context = CallReturned response st' ->
  call_count st' = call_count st + 1
  /\ (collected_weather st' = collected_weather st
      \/ exists d,
           collected_weather st' = (collected_weather st ++ [d])%list
           /\ lookup "last_action_result" context = Some (VDict d)
           /\ truthy (get "city" d) = true
           /\ get "temperature_f" d <> VNone
           /\ py_in (get "city" d)
                (map (get "city") (collected_weather st)) = false)
  /\ (cities_differ [] (collected_weather st) = true ->
      cities_differ [] (collected_weather st') = true).
Proof.
  unfold call.
  destruct (tracked (get_default "last_action_result" (VDict []) context)
              (collected_weather st)) as [collected |] eqn:ET;
    [| discriminate].
  assert (HT : collected = collected_weather st
               \/ exists d,
                    collected = (collected_weather st ++ [d])%list
                    /\ lookup "last_action_result" context = Some (VDict d)
                    /\ truthy (get "city" d) = true
                    /\ get "temperature_f" d <> VNone
                    /\ py_in (get "city" d)
                         (map (get "city") (collected_weather st)) = false).
  { unfold tracked, get_default in ET.
    destruct (lookup "last_action_result" context) as [v |] eqn:EL.
    - destruct v as [| b | z | s | l | d].
      + injection ET as <-. now left.
      + destruct b; simpl in ET; [discriminate ET |].
        injection ET as <-. now left.
      + simpl in ET. destruct (negb (z =? 0)); [discriminate ET |].
        injection ET as <-. now left.
      + destruct (truthy (VStr s) && is_substring "temperature_f" s);
          [discriminate ET |]. injection ET as <-. now left.
      + destruct (truthy (VList l) && py_in (VStr "temperature_f") l);
          [discriminate ET |]. injection ET as <-. now left.
      + destruct (truthy (VDict d) && contains "temperature_f" d);
          [| injection ET as <-; now left].
        destruct (truthy (get "city" d)) eqn:EC;
          [| injection ET as <-; now left].
        destruct (py_in (get "city" d)
                    (map (get "city") (collected_weather st))) eqn:EP;
          [rewrite andb_false_r in ET; injection ET as <-; now left |].
        destruct (get "temperature_f" d) eqn:EV; simpl in ET;
          injection ET as <-; try (now left);
          right; exists d; repeat split; auto; rewrite EV; discriminate.
    - simpl in ET. injection ET as <-. now left. }
  destruct (get_default "retrieval_plan" (VDict []) context)
    as [| b | z | s | l | plan]; try discriminate.
  intros HR.
  assert (Hst : st' = {| call_count := call_count st + 1;
                         collected_weather := collected |}).
  { destruct (List.length collected <? 3)%nat.
    - destruct (_generate_weather_query I _ collected); [| discriminate].
      now injection HR.
    - destruct (decide I collected _); [| discriminate].
      now injection HR. }
  subst st'. simpl. split; [reflexivity |]. split; [exact HT |].
  intros Hd. destruct HT as [-> | (d & -> & _ & _ & _ & Hp)]; [exact Hd |].
  rewrite cities_differ_snoc, Hd. simpl. now rewrite Hp.
Qed.

(** ** The decision *)

Lemma above_threshold_filter (weather : list (pydict value)) (base_temp : Z) :
  forall above,
    above_threshold weather base_temp = Some above ->
    above = filter (is_above base_temp) weather.
Proof.
  induction weather as [| w rest IH]; simpl; intros above.
  - now intros [= <-].
  - unfold is_above.
    destruct (py_gt_int (get_default "temperature_f" (VInt 0) w) base_temp)
      as [hot |]; [| discriminate].
    destruct (above_threshold rest base_temp) as [others |]; [| discriminate].
    intros [= <-]. rewrite (IH others eq_refl). now destruct hot.
Qed.

Ltac split_binds :=
  repeat match goal with
         | |- context [match ?x with Some _ => _ | None => _ end] =>
             destruct x; [| discriminate]
         end.



Section DecisionAndGate.

Context {World : Type}.
Variable I : Interp.


End DecisionAndGate.

(** ** The destination *)

Lemma min_scan_spec (rest : list (pydict value)) :
  forall (best chosen : pydict value) (best_key : value) (tb : Z),
    lookup "temperature_f" best = Some best_key ->
    as_number best_key = Some tb ->
    min_scan best best_key rest = Some chosen ->
    In chosen (best :: rest)
    /\ exists tc,
         temperature_of chosen = Some tc
         /\ tc <= tb
         /\ forall w, In w rest ->
              exists tw, temperature_of w = Some tw /\ tc <= tw.
Proof.
  induction rest as [| x rest' IH];
    intros best chosen best_key tb Hbest Hnum; simpl.
  - intros [= <-]. split; [now left |].
    exists tb. unfold temperature_of. rewrite Hbest.
    repeat split; auto; try lia; try (intros w []).
  - destruct (lookup "temperature_f" x) as [k |] eqn:Ek; [| discriminate].
    unfold num_lt. rewrite Hnum.
    destruct (as_number k) as [tk |] eqn:En; [| discriminate].
    assert (Hx : temperature_of x = Some tk).
    { unfold temperature_of. now rewrite Ek. }
    destruct (tk <? tb) eqn:Elt; intros HS.
    + apply Z.ltb_lt in Elt.
      destruct (IH x chosen k tk Ek En HS) as (Hin & tc & Hc & Hle & Hall).
      split; [destruct Hin as [<- | Hin]; [right; now left | right; now right] |].
      exists tc. repeat split; auto; try lia.
      intros w [<- | Hw]; [exists tk; split; [exact Hx | lia] | auto].
    + apply Z.ltb_ge in Elt.
      destruct (IH best chosen best_key tb Hbest Hnum HS)
        as (Hin & tc & Hc & Hle & Hall).
      split; [destruct Hin as [<- | Hin]; [now left | right; now right] |].
      exists tc. repeat split; auto.
      intros w [<- | Hw]; [exists tk; split; [exact Hx | lia] | auto].
Qed.

(** X17: when two or three records are above the base temperature, the
    destination of the decision is the city of one of them, and no
    record above the base temperature is cooler than that one. *)
Theorem destination_is_coolest
  (I : Interp) (weather : list (pydict value)) (base_temp : Z)
  (response : pydict value) :
  (3 <= List.length weather)%nat ->
  (2 <= List.length (filter (is_above base_temp) weather) <= 3)%nat ->
  _generate_decision I weather base_temp = Some response ->
  exists chosen tc,
    In chosen weather
    /\ is_above base_temp chosen = true
    /\ lookup "city" chosen = Some (get "destination" response)
    /\ temperature_of chosen = Some tc
    /\ base_temp < tc
    /\ forall w, In w weather -> is_above base_temp w = true ->
         exists tw, temperature_of w = Some tw /\ tc <= tw.
Proof.
  intros Hlen Hcount HD.
  unfold _generate_decision in HD.
  replace (List.length weather <? 3)%nat with false in HD
    by (symmetry; apply Nat.ltb_ge; exact Hlen).
  destruct (above_threshold weather base_temp) as [above |] eqn:EA;
    [| discriminate].
  pose proof (above_threshold_filter _ _ _ EA) as Hfilter.
  rewrite <- Hfilter in Hcount.
  assert (Hmin : exists chosen,
             min_by_temperature above = Some chosen
             /\ lookup "city" chosen = Some (get "destination" response)).
  { destruct above as [| a [| b [| c [| d r]]]]; simpl in Hcount; try lia;
      cbn - [min_by_temperature cities_of umbrella_needed lookup] in HD;
      (destruct (min_by_temperature _) as [chosen |] eqn:EM;
        [| discriminate HD]);
      exists chosen; (split; [reflexivity |]);
      revert HD; split_binds; intros [= <-]; reflexivity. }
  destruct Hmin as (chosen & HM & Hcity).
  destruct above as [| first others]; [discriminate |].
  unfold min_by_temperature in HM.
  destruct (lookup "temperature_f" first) as [k |] eqn:Ek; [| discriminate].
  assert (Hfirst : In first (filter (is_above base_temp) weather)).
  { rewrite <- Hfilter. now left. }
  apply filter_In in Hfirst. destruct Hfirst as (_ & Hhot).
  assert (Hk : exists tk, as_number k = Some tk).
  { unfold is_above, py_gt_int, get_default in Hhot. rewrite Ek in Hhot.
    destruct (as_number k) as [tk |]; [now exists tk | discriminate]. }
  destruct Hk as (tk & Hk).
  destruct (min_scan_spec others first chosen k tk Ek Hk HM)
    as (Hin & tc & Hc & Hle & Hall).
  assert (Hchosen : In chosen weather /\ is_above base_temp chosen = true).
  { apply filter_In. now rewrite <- Hfilter. }
  destruct Hchosen as (Hcw & Hca).
  exists chosen, tc. repeat split; auto.
  - unfold is_above, py_gt_int, get_default in Hca.
    unfold temperature_of in Hc.
    destruct (lookup "temperature_f" chosen) as [v |]; [| discriminate].
    rewrite Hc in Hca. now apply Z.ltb_lt.
  - intros w Hw Hwa.
    assert (Hwin : In w (first :: others)).
    { rewrite Hfilter. apply filter_In. now split. }
    destruct Hwin as [<- | Hwo]; [| auto].
    exists tk. split; [| exact Hle].
    unfold temperature_of. now rewrite Ek.
Qed.

(* ===================================================================== *)
(** * The mock tools                                                      *)
(* ===================================================================== *)

Import MockTools.

(** X18: under the contract of [random.randint], the weather tool
    answers for each of its three cities with a temperature within five
    degrees of the range drawn for that city (45 to 80 for San Francisco,
    65 to 95 for Miami, 50 to 85 for Atlanta) and a precipitation chance
    between 0 and 50, and draws five random numbers. *)
Theorem get_weather_in_range (H : Host) (I : Interp) (w : world) :
  randint_in_range H ->
  (exists t p,
     get_weather H I [("city", VStr "San Francisco")] w
     = (Returned
          (VDict [ ("city", VStr "San Francisco");
                   ("temperature_f", VInt t);
                   ("condition", VStr "Partly Cloudy");
                   ("precipitation_chance", VInt p);
                   ("api_ref", VStr "wx-sanfrancisco-001") ]),
        draw 5 w)
     /\ 45 <= t <= 80 /\ 0 <= p <= 50)
  /\ (exists t p,
        get_weather H I [("city", VStr "Miami")] w
        = (Returned
             (VDict [ ("city", VStr "Miami");
                      ("temperature_f", VInt t);
                      ("condition", VStr "Sunny");
                      ("precipitation_chance", VInt p);
                      ("api_ref", VStr "wx-miami-001") ]),
           draw 5 w)
        /\ 65 <= t <= 95 /\ 0 <= p <= 50)
  /\ (exists t p,
        get_weather H I [("city", VStr "Atlanta")] w
        = (Returned
             (VDict [ ("city", VStr "Atlanta");
                      ("temperature_f", VInt t);
                      ("condition", VStr "Clear");
                      ("precipitation_chance", VInt p);
                      ("api_ref", VStr "wx-atlanta-001") ]),
           draw 5 w)
        /\ 50 <= t <= 85 /\ 0 <= p <= 50).
Proof.
  intros HR.
  pose proof (HR (drawn w) 50 75 ltac:(lia)).
  pose proof (HR (drawn w + 1)%nat 70 90 ltac:(lia)).
  pose proof (HR (drawn w + 2)%nat 55 80 ltac:(lia)).
  pose proof (HR (drawn w + 3)%nat (-5) 5 ltac:(lia)).
  pose proof (HR (drawn w + 4)%nat 0 50 ltac:(lia)).
  repeat split; do 2 eexists; (split; [reflexivity | lia]).
Qed.


(** X20: whenever [recommend_snacks] returns, it lists five snacks and
    reports five items, and a preference that names none of its lists
    gets the general list. *)
Theorem recommend_snacks_lists_five
  (H : Host) (I : Interp) (kwargs : pydict value) (w w' : world) (r : value) :
  recommend_snacks H I kwargs w = (Returned r, w') ->
  w' = w
  /\ exists snacks,
       r = VDict [ ("status", VStr "recommended");
                   ("preference",
                     get_default "preferences" (VStr "general") kwargs);
                   ("snacks", VList (map VStr snacks));
                   ("total_items", VInt 5) ]
       /\ List.length snacks = 5%nat
       /\ (forall p,
             get_default "preferences" (VStr "general") kwargs = VStr p ->
             lookup p snack_lists = None ->
             snacks = general_snacks)
       /\ ((forall p,
              get_default "preferences" (VStr "general") kwargs <> VStr p) ->
           snacks = general_snacks).
Proof.
  unfold recommend_snacks.
  destruct (binds [] ["preferences"] kwargs); [| discriminate].
  destruct (get_default "preferences" (VStr "general") kwargs)
    as [| b | z | p | l | d]; try discriminate.
  1-3: intros [= <- <-]; (split; [reflexivity |]);
    exists general_snacks; repeat split; auto; intros; discriminate.
  destruct (lookup p snack_lists) as [found |] eqn:EL;
    intros [= <- <-]; (split; [reflexivity |]).
  - exists found.
    assert (Hlen : List.length found = 5%nat).
    { unfold snack_lists in EL. simpl in EL.
      destruct (String.eqb p "general"); [now injection EL as <- |].
      destruct (String.eqb p "sweet"); [now injection EL as <- |].
      destruct (String.eqb p "savory"); [now injection EL as <- |].
      discriminate. }
    rewrite Hlen. split; [reflexivity |]. split; [reflexivity |]. split.
    + intros q [= <-] Hnone. rewrite EL in Hnone. discriminate.
    + intros Hq. now destruct (Hq p).
  - exists general_snacks. repeat split; auto.
Qed.




(** X22: [send_email], called with its three arguments, returns exactly
    when the body is a string; the message identifier it then returns is
    [msg-] followed by a number from 0 to 9999, and the recipient and the
    subject come back as given. *)
Theorem send_email_returns_for_text_body
  (H : Host) (kwargs : pydict value) (w : world) :
  binds ["recipient"; "subject"; "body"] [] kwargs = true ->
  (forall body,
     get "body" kwargs = VStr body ->
     exists k,
       0 <= k < 10000
       /\ send_email H kwargs w
          = (Returned
               (VDict [ ("status", VStr "sent");
                        ("recipient", get "recipient" kwargs);
                        ("subject", get "subject" kwargs);
                        ("timestamp", VStr "2024-01-15T10:30:00Z");
                        ("message_id", VStr ("msg-" ++ str_of_Z k)) ]),
             w))
  /\ ((forall body, get "body" kwargs <> VStr body) ->
      exists msg, send_email H kwargs w = (RaisedException msg, w)).
Proof.
  intros HB. unfold send_email. rewrite HB. split.
  - intros body ->. exists (hash H body mod 10000).
    split; [apply Z.mod_pos_bound; lia | reflexivity].
  - intros Hnot.
    destruct (get "body" kwargs) as [| b | z | body | l | d];
      try (eexists; reflexivity).
    now destruct (Hnot body).
Qed.

(** X23: the umbrella tool and the decision of the engine agree: for a
    precipitation chance that is a number, the recommendation of
    [check_umbrella_needed] is the umbrella sentence the engine writes
    into its mail, and both raise when the chance is no number. *)
Theorem umbrella_advice_agrees
  (H : Host) (city chance : value) (w : world) :
  match MockCognition.umbrella_needed [("precipitation_chance", chance)] with
  | Some needed =>
      exists confidence,
        check_umbrella_needed H
          [("city", city); ("precipitation_chance", chance)] w
        = (Returned
             (VDict [ ("city", city);
                      ("precipitation_chance", chance);
                      ("recommendation",
                        VStr (MockCognition.umbrella_text needed));
                      ("confidence", VStr confidence) ]),
           w)
  | None =>
      exists msg,
        check_umbrella_needed H
          [("city", city); ("precipitation_chance", chance)] w
        = (RaisedException msg, w)
  end.
Proof.
  unfold MockCognition.umbrella_needed, py_gt_int, check_umbrella_needed,
    get, get_default.
  simpl. destruct (as_number chance) as [p |]; simpl; eexists; reflexivity.
Qed.

(* ===================================================================== *)
(** * The experiment                                                      *)
(* ===================================================================== *)

Import RunExperiment.

(** The answers of the weather tool for the three cities of the plan. *)
Lemma weather_answers (H : Host) (I : Interp) (w : world) :
  randint_in_range H ->
  (exists t p,
     get_weather H I [("city", VStr "San Francisco")] w
     = (Returned
          (VDict (Examples.weather_record "San Francisco" t "Partly Cloudy" p
                    "wx-sanfrancisco-001")),
        draw 5 w))
  /\ (exists t p,
        get_weather H I [("city", VStr "Miami")] w
        = (Returned
             (VDict (Examples.weather_record "Miami" t "Sunny" p "wx-miami-001")),
           draw 5 w)
        /\ 55 < t)
  /\ (exists t p,
        get_weather H I [("city", VStr "Atlanta")] w
        = (Returned
             (VDict (Examples.weather_record "Atlanta" t "Clear" p
                       "wx-atlanta-001")),
           draw 5 w)).
Proof.
  intros HR.
  pose proof (HR (drawn w + 1)%nat 70 90 ltac:(lia)).
  pose proof (HR (drawn w + 3)%nat (-5) 5 ltac:(lia)).
  repeat split; do 2 eexists; try split; try reflexivity. lia.
Qed.

Lemma experiment_pass (H : Host) (I : Interp)
  (self : StructuredCognitiveLoop world) (k : Z) (cache : pydict value)
  (context response : pydict value) (w w2 : world) (st : engine_state)
  (message : string) (tool_name parameters result : value) :
  experiment_state H I self k cache ->
  call I (engine w) context = CallReturned response st ->
  control_verdict I MetaPrompt_init
    {| store := []; history := []; evidence_cache := cache |}
    (mark_validated response)
  = Some (true, message) ->
  descriptor_of response = Some (tool_name, parameters) ->
  truthy tool_name = true ->
  call_execute I (tool_registry H I) tool_name parameters
    {| drawn := drawn w; engine := st |}
  = (Returned result, w2) ->
  exists self',
    loop_body I self context w
    = (if truthy (get "is_final_action" response)
       then BodyBreak self'
              (setitem "last_action_result" result context) w2
       else BodyContinue self'
              (setitem "last_action_result" result context) w2)
    /\ experiment_state H I self' (k + 1)
         (setitem (evidence_id_of I tool_name parameters) result cache).
Proof.
  intros (HE & HT & HM & HX & HK & HC & HA & HR & HI) Hcall HV HD Htrue Hexec.
  assert (H1 : cognition_engine self (get_state_summary (memory self))
                 (get_tool_descriptions (tools self)) context w
               = (EngineReturned (VDict response),
                  {| drawn := drawn w; engine := st |})).
  { rewrite HE. unfold mock_cognition_engine. now rewrite Hcall. }
  assert (H2 : control_verdict I (metaprompt self) (memory self)
                 (mark_validated response) = Some (true, message)).
  { rewrite HM, <- HV. apply control_verdict_cache. exact HC. }
  rewrite <- HT in Hexec.
  destruct (executed_pass I self context response w _ w2 message
              tool_name parameters result H1 H2 HD Htrue Hexec)
    as (self' & HB & F & HC' & HA' & HR').
  exists self'. split; [exact HB |].
  assert (HI' : counts_hold self').
  { destruct (truthy (get "is_final_action" response));
      eapply (counts_hold_pass I); eauto. }
  destruct F. unfold experiment_state.
  repeat (split; [congruence || lia |]). exact HI'.
Qed.

(** X24: the experiment as [setup_experiment] builds it, under the
    contract of [random.randint] and whatever numbers are drawn: the run
    asks for the weather of San Francisco, Miami and Atlanta in three
    passes, decides in the fourth, and is left through the [break] of a
    completed task.  The report shows four loops, no policy violation
    and four Action traces; four evidence entries are cached, fifteen
    random numbers were drawn, and the engine was called four times and
    holds three weather records. *)
Theorem experiment_completes_in_four_loops
  (H : Host) (I : Interp) (task_text : string) (already_drawn : nat) :
  randint_in_range H ->
  exists report self' w',
    run_weather_scenario H I task_text already_drawn
    = RunReturned report Completed self' w'
    /\ total_loops (summary report) = 4
    /\ policy_violations (summary report) = 0
    /\ count_module ACTION (log report) = 4
    /\ List.length (evidence_cache (memory self')) = 4%nat
    /\ drawn w' = (already_drawn + 15)%nat
    /\ call_count (engine w') = 4
    /\ List.length (collected_weather (engine w')) = 3%nat.
Proof.
  intros HR. unfold run_weather_scenario. rewrite run_unfold.
  set (self0 := snd (retrieval (setup_experiment H I) task_text)).
  set (w0 := initial_world already_drawn).
  change (fst (retrieval (setup_experiment H I) task_text))
    with retrieval_plan.
  change (run_fuel self0) with 21%nat.
  assert (S0 : experiment_state H I self0 0 []).
  { unfold experiment_state. repeat split; try reflexivity.
    apply counts_hold_retrieval. }
  (* Pass 1: San Francisco *)
  destruct (weather_answers H I
              {| drawn := already_drawn;
                 engine := {| call_count := 1; collected_weather := [] |} |} HR)
    as ((t1 & p1 & W1) & _ & _).
  match goal with
  | |- context [ccam_loop I _ self0 ?c w0] => set (context0 := c)
  end.
  destruct (experiment_pass H I self0 0 [] context0
              (weather_query_for I (VStr "San Francisco")) w0 _ _ "PASS"
              (VStr "get_weather") (VDict [("city", VStr "San Francisco")]) _
              S0 eq_refl eq_refl eq_refl eq_refl W1)
    as (self1 & B1 & S1).
  rewrite ccam_loop_unfold.
  replace (loop_counter self0 <? max_loops self0) with true by reflexivity.
  rewrite B1.
  change (truthy (get "is_final_action"
                    (weather_query_for I (VStr "San Francisco"))))
    with false.
  cbv beta iota.
  set (r1 := Examples.weather_record "San Francisco" t1 "Partly Cloudy" p1
               "wx-sanfrancisco-001") in *.
  (* Pass 2: Miami *)
  destruct (weather_answers H I
              {| drawn := (already_drawn + 5)%nat;
                 engine := {| call_count := 2; collected_weather := [r1] |} |}
              HR)
    as (_ & (t2 & p2 & W2 & Hot2) & _).
  match goal with
  | |- context [ccam_loop I _ self1 ?c ?w] =>
      set (context1 := c); set (w1 := w)
  end.
  destruct (experiment_pass H I self1 _ _ context1
              (weather_query_for I (VStr "Miami")) w1 _ _ "PASS"
              (VStr "get_weather") (VDict [("city", VStr "Miami")]) _
              S1 eq_refl eq_refl eq_refl eq_refl W2)
    as (self2 & B2 & S2).
  rewrite ccam_loop_unfold.
  replace (loop_counter self1 <? max_loops self1) with true
    by (destruct S1 as (_ & _ & _ & -> & -> & _); reflexivity).
  rewrite B2.
  change (truthy (get "is_final_action" (weather_query_for I (VStr "Miami"))))
    with false.
  cbv beta iota.
  set (r2 := Examples.weather_record "Miami" t2 "Sunny" p2 "wx-miami-001") in *.
  (* Pass 3: Atlanta *)
  destruct (weather_answers H I
              {| drawn := (already_drawn + 5 + 5)%nat;
                 engine := {| call_count := 3;
                              collected_weather := [r1; r2] |} |}
              HR)
    as (_ & _ & (t3 & p3 & W3)).
  match goal with
  | |- context [ccam_loop I _ self2 ?c ?w] =>
      set (context2 := c); set (w2 := w)
  end.
  destruct (experiment_pass H I self2 _ _ context2
              (weather_query_for I (VStr "Atlanta")) w2 _ _ "PASS"
              (VStr "get_weather") (VDict [("city", VStr "Atlanta")]) _
              S2 eq_refl eq_refl eq_refl eq_refl W3)
    as (self3 & B3 & S3).
  rewrite ccam_loop_unfold.
  replace (loop_counter self2 <? max_loops self2) with true
    by (destruct S2 as (_ & _ & _ & -> & -> & _); reflexivity).
  rewrite B3.
  change (truthy (get "is_final_action" (weather_query_for I (VStr "Atlanta"))))
    with false.
  cbv beta iota.
  set (r3 := Examples.weather_record "Atlanta" t3 "Clear" p3 "wx-atlanta-001")
    in *.
  match goal with
  | |- context [ccam_loop I _ self3 ?c ?w] =>
      set (context3 := c); set (w3 := w)
  end.
  assert (E2 : (55 <? t2) = true) by (apply Z.ltb_lt; exact Hot2).
  assert (Final : exists self4 context4 w4 cache4,
             loop_body I self3 context3 w3 = BodyBreak self4 context4 w4
             /\ experiment_state H I self4 (0 + 1 + 1 + 1 + 1) cache4
             /\ List.length cache4 = 4%nat
             /\ drawn w4 = (already_drawn + 5 + 5 + 5)%nat
             /\ call_count (engine w4) = 4
             /\ List.length (collected_weather (engine w4)) = 3%nat).
  { remember (call I (engine w3) context3) as res eqn:Hres.
    pose proof Hres as Hcall.
    unfold call in Hres.
    cbn - [Z.ltb min_by_temperature umbrella_needed cities_of] in Hres.
    rewrite E2 in Hres.
    destruct (55 <? t1) eqn:E1; destruct (55 <? t3) eqn:E3;
      cbn - [Z.ltb] in Hres;
      repeat match type of Hres with
             | context [if (?a <? ?b)%Z then _ else _] =>
                 destruct (a <? b)%Z eqn:?; cbn - [Z.ltb] in Hres
             end;
      rewrite Hres in Hcall; symmetry in Hcall;
      destruct (experiment_pass H I self3 _ _ context3 _ w3 _ _ "PASS" _ _ _
                  S3 Hcall eq_refl eq_refl eq_refl eq_refl)
        as (self4 & B4 & S4);
      match type of B4 with
      | context [truthy ?x] => change (truthy x) with true in B4
      end;
      cbv beta iota in B4;
      eexists _, _, _, _; (split; [exact B4 |]); (split; [exact S4 |]);
      repeat split; reflexivity. }
  destruct Final as (self4 & context4 & w4 & cache4 & B4 & S4 & L4 & D4 & N4 & M4).
  rewrite ccam_loop_unfold.
  replace (loop_counter self3 <? max_loops self3) with true
    by (destruct S3 as (_ & _ & _ & -> & -> & _); reflexivity).
  rewrite B4.
  exists (_generate_audit_report self4), self4, w4.
  destruct S4 as (_ & _ & _ & _ & HK & HC & HA & HJ & HV & _).
  split; [reflexivity |].
  split; [exact HK |].
  split.
  { unfold _generate_audit_report; cbn [summary policy_violations].
    rewrite (false_verdicts_are_rejections _ HV). exact HJ. }
  split; [exact HA |].
  split; [rewrite HC; exact L4 |].
  split; [rewrite D4; lia |].
  split; [exact N4 | exact M4].
Qed.


(* ===================================================================== *)
(** * The simplified engine in the loop                                   *)
(* ===================================================================== *)

Section Rejections.

Context {World : Type}.
Variable I : Interp.

Local Abbreviation SCL := (StructuredCognitiveLoop World).

(** A loop whose engine gives the same rejected proposal at every pass
    runs up to the ceiling: each pass adds a rejection, no tool is run
    and nothing is stored. *)
Lemma rejecting_loop (response : pydict value) (message : string) (w : World)
  (n : nat) :
  forall (self : SCL) (context : pydict value),
    (forall s t c,
       cognition_engine self s t c w = (EngineReturned (VDict response), w)) ->
    (forall m, evidence_cache m = [] ->
       control_verdict I (metaprompt self) m (mark_validated response)
       = Some (false, message)) ->
    evidence_cache (memory self) = [] ->
    max_loops self - loop_counter self = Z.of_nat n ->
    exists self' context',
      ccam_loop I (S n) self context w
      = LoopExit CeilingReached self' context' w
      /\ loop_counter self' = max_loops self
      /\ evidence_cache (memory self') = []
      /\ count_module ACTION (history (memory self'))
         = count_module ACTION (history (memory self))
      /\ count_rejections (history (memory self'))
         = count_rejections (history (memory self)) + Z.of_nat n.
Proof.
  induction n as [| n IH]; intros self context HE HV HC Hn;
    rewrite ccam_loop_unfold.
  - replace (loop_counter self <? max_loops self) with false
      by (symmetry; apply Z.ltb_ge; lia).
    exists self, context. repeat split; [lia | exact HC | lia].
  - replace (loop_counter self <? max_loops self) with true
      by (symmetry; apply Z.ltb_lt; lia).
    destruct (rejected_pass I self context response w w message
                (HE _ _ _) (HV _ HC))
      as (self1 & tc & tk & HB & F & HC1 & HH & Mc & Mk & Vk & _).
    rewrite HB.
    destruct F as [Fe _ Fp Fm _ Fc].
    destruct (IH self1 (setitem "last_rejection" (VStr message) context))
      as (self' & context' & HL & HK' & HC' & HA' & HR').
    + intros s t c. rewrite Fe. apply HE.
    + intros m Hm. rewrite Fp. now apply HV.
    + now rewrite HC1.
    + rewrite Fm, Fc. lia.
    + exists self', context'. split; [exact HL |].
      split; [now rewrite HK', Fm |]. split; [exact HC' |].
      rewrite HA', HR', HH, count_module_concat, count_rejections_concat.
      unfold count_module at 2, count_rejections at 2, is_rejection; simpl.
      rewrite Mc, Mk, Vk. simpl. split; lia.
Qed.

End Rejections.

(** X25: the simplified engine, fresh or with no weather of San
    Francisco stored, gets no tool run under a rule set that asks for
    citations: its first proposal cites nothing, and as nothing calls
    [store_weather] in a rejected pass it is proposed again at every
    pass.  The run ends at the ceiling with as many policy violations as
    loops, no Action trace, an empty evidence cache, and the engine as it
    was. *)
Theorem simplified_engine_exhausts_ceiling
  (I : Interp) (reg : ToolRegistry SimplifiedEngine.SimplifiedCognitionEngine)
  (mp : MetaPrompt) (ceiling : Z) (task_text : string)
  (w : SimplifiedEngine.SimplifiedCognitionEngine) :
  must_cite_stored_evidence mp = true ->
  0 <= ceiling ->
  contains "San Francisco" (SimplifiedEngine.weather_data w) = false ->
  exists report self',
    run I (StructuredCognitiveLoop_init SimplifiedEngine.engine reg mp ceiling)
      task_text w
    = RunReturned report CeilingReached self' w
    /\ total_loops (summary report) = ceiling
    /\ policy_violations (summary report) = ceiling
    /\ count_module ACTION (log report) = 0
    /\ evidence_cache (memory self') = [].
Proof.
  intros Hcite Hpos Hsf. rewrite run_unfold.
  set (self0 := StructuredCognitiveLoop_init SimplifiedEngine.engine reg mp
                  ceiling).
  set (response := SimplifiedEngine.query
                     "Need San Francisco weather data first" "San Francisco" []).
  destruct (rejecting_loop I response
              ("VIOLATIONS: " ++ missing_citations) w (Z.to_nat ceiling)
              (snd (retrieval self0 task_text))
              [ ("task", VStr task_text);
                ("retrieval_plan", fst (retrieval self0 task_text));
                ("status", VStr "in_progress") ])
    as (self' & context' & HL & HK & HC & HA & HR).
  - intros s t c. simpl. unfold SimplifiedEngine.engine, SimplifiedEngine.call.
    now rewrite Hsf.
  - intros m Hm. unfold control_verdict, has_evidence. simpl. rewrite Hm.
    simpl. unfold validate, validate_issues. simpl. now rewrite Hcite.
  - reflexivity.
  - simpl. lia.
  - change (run_fuel (snd (retrieval self0 task_text)))
      with (S (Z.to_nat (ceiling - 0))).
    rewrite Z.sub_0_r, HL.
    assert (HI : counts_hold self').
    { apply (ccam_loop_keeps I counts_hold (counts_hold_pass I)) in HL;
        [exact HL | apply counts_hold_retrieval]. }
    destruct HI as (HV & _).
    exists (_generate_audit_report self'), self'.
    split; [reflexivity |].
    unfold _generate_audit_report; cbn [summary total_loops policy_violations log].
    rewrite (false_verdicts_are_rejections _ HV).
    fold (count_rejections (history (memory self'))).
    rewrite HK, HA, HR. simpl.
    repeat split; try reflexivity; try exact HC. lia.
Qed.

(** X26: the simplified engine asks for the first of San Francisco, Miami
    and Atlanta that [weather_data] does not hold: the cities before it
    are stored, the proposal calls [get_weather] for it, cites the
    references of the cities before it and is not final; storing the
    weather of the city asked for makes the engine stop asking for that
    city.  When all three are stored, and only then, the proposal is the
    final mail of the travel decision.  The engine never marks its
    proposal as validated. *)
Theorem simplified_engine_asks_missing_city
  (self : SimplifiedEngine.SimplifiedCognitionEngine) :
  lookup "control_validated" (SimplifiedEngine.call self) = None
  /\ ((exists before city after,
         ["San Francisco"; "Miami"; "Atlanta"]
         = (before ++ city :: after)%list
         /\ (forall c, In c before ->
               contains c (SimplifiedEngine.weather_data self) = true)
         /\ contains city (SimplifiedEngine.weather_data self) = false
         /\ descriptor_of (SimplifiedEngine.call self)
            = Some (VStr "get_weather", VDict [("city", VStr city)])
         /\ get "evidence_refs" (SimplifiedEngine.call self)
            = VList (firstn (List.length before)
                       [VStr "weather_sf"; VStr "weather_miami"])
         /\ get "is_final_action" (SimplifiedEngine.call self) = VBool false
         /\ forall data,
              descriptor_of
                (SimplifiedEngine.call
                   (SimplifiedEngine.store_weather city data self))
              <> descriptor_of (SimplifiedEngine.call self))
      \/ ((forall c, In c ["San Francisco"; "Miami"; "Atlanta"] ->
             contains c (SimplifiedEngine.weather_data self) = true)
          /\ descriptor_of (SimplifiedEngine.call self)
             = Some (VStr "send_email",
                     VDict [ ("recipient", VStr "test-scl@test.com");
                             ("subject", VStr "Travel Decision");
                             ("body",
                               VStr "Decision made based on weather analysis.") ])
          /\ get "evidence_refs" (SimplifiedEngine.call self)
             = VList [VStr "weather_sf"; VStr "weather_miami";
                      VStr "weather_atlanta"]
          /\ get "is_final_action" (SimplifiedEngine.call self) = VBool true)).
Proof.
  unfold SimplifiedEngine.call.
  destruct (contains "San Francisco" (SimplifiedEngine.weather_data self))
    eqn:E1; simpl.
  2: { split; [reflexivity |]. left.
       exists [], "San Francisco", ["Miami"; "Atlanta"].
       repeat split; auto; try (intros c Hc; simpl in Hc; tauto).
       intros data. unfold SimplifiedEngine.call; simpl.
       rewrite contains_setitem_eq; simpl.
       destruct (contains "Miami" _); simpl; [| discriminate].
       destruct (contains "Atlanta" _); discriminate. }
  destruct (contains "Miami" (SimplifiedEngine.weather_data self))
    eqn:E2; simpl.
  2: { split; [reflexivity |]. left.
       exists ["San Francisco"], "Miami", ["Atlanta"].
       repeat split; auto;
         try (intros c Hc; simpl in Hc; intuition (subst; assumption)).
       intros data. unfold SimplifiedEngine.call; simpl.
       rewrite (contains_setitem_mono _ _ _ _ E1); simpl.
       rewrite contains_setitem_eq; simpl.
       destruct (contains "Atlanta" _); discriminate. }
  destruct (contains "Atlanta" (SimplifiedEngine.weather_data self))
    eqn:E3; simpl.
  2: { split; [reflexivity |]. left.
       exists ["San Francisco"; "Miami"], "Atlanta", [].
       repeat split; auto;
         try (intros c Hc; simpl in Hc; intuition (subst; assumption)).
       intros data. unfold SimplifiedEngine.call; simpl.
       rewrite (contains_setitem_mono _ _ _ _ E1),
         (contains_setitem_mono _ _ _ _ E2); simpl.
       rewrite contains_setitem_eq; simpl. discriminate. }
  split; [reflexivity |]. right. repeat split.
  intros c Hc; simpl in Hc; intuition (subst; assumption).
Qed.

(* ===================================================================== *)
(** * Instances of the further properties                                 *)
(* ===================================================================== *)

Import Instances.

Lemma register_keeps_listing_order_witness :
  get_tool_descriptions registry
  = VList [ VDict [ ("name", VStr "get_weather");
                    ("description", VStr "Get current weather for a city") ];
            VDict [ ("name", VStr "broken");
                    ("description", VStr "Always fails") ] ].
Proof.
  exact (proj1 (register_keeps_listing_order "broken" "Always fails"
                  broken_tool
                  (register "get_weather" fixed_weather
                     "Get current weather for a city" ToolRegistry_init)
                  [ VDict [ ("name", VStr "get_weather");
                            ("description",
                              VStr "Get current weather for a city") ] ]
                  eq_refl)
           eq_refl).
Defined.

Lemma control_approves_iff_witness :
  exists evaluated self',
    control interp (retrieved (weather_query "Miami") 20) (weather_query "Miami")
    = Ok ((true, "PASS"), evaluated, self')
    /\ already_cached interp (memory (retrieved (weather_query "Miami") 20))
         (weather_query "Miami") = false.
Proof.
  destruct (control interp (retrieved (weather_query "Miami") 20)
              (weather_query "Miami"))
    as [[[[is_valid message] evaluated] self'] |] eqn:E;
    [| vm_compute in E; discriminate].
  assert (HV : is_valid = true /\ message = "PASS").
  { vm_compute in E. injection E as <- <- _ _. split; reflexivity. }
  destruct HV as [-> ->].
  exists evaluated, self'. split; [reflexivity |].
  exact (proj2 (proj1 (proj1 (control_approves_iff interp _ _ _ _ _ _ E))
                  eq_refl)).
Defined.

Lemma policy_violations_are_rejections_witness :
  exists report how self' w',
    run interp (loop_of (uncited_query "get_weather") 3) "plan a trip" tt
    = RunReturned report how self' w'
    /\ policy_violations (summary report) = count_rejections (log report)
    /\ count_module CONTROL (log report) = total_loops (summary report).
Proof.
  destruct (run interp (loop_of (uncited_query "get_weather") 3)
              "plan a trip" tt)
    as [| | report how self' w'] eqn:E.
  - vm_compute in E. discriminate.
  - vm_compute in E. discriminate.
  - exists report, how, self', w'. split; [reflexivity |].
    destruct (policy_violations_are_rejections interp
                (constant_engine (uncited_query "get_weather")) registry
                MetaPrompt_init 3 "plan a trip" tt w' report how self' E)
      as (H1 & _ & H3 & _).
    split; assumption.
Defined.

Lemma log_is_retrieval_then_passes_witness :
  exists report how self' w',
    run interp (loop_of (weather_query "Miami") 3) "plan a trip" tt
    = RunReturned report how self' w'
    /\ map (fun t => (loop_id t, module t)) (log report)
       = [ ("R-001", "Retrieval");
           ("CCAM-001", "Cognition"); ("CTL-001", "Control");
           ("ACT-001", "Action");
           ("CCAM-002", "Cognition"); ("CTL-002", "Control");
           ("CCAM-003", "Cognition"); ("CTL-003", "Control") ]
    /\ pass_blocks 1 4
         [ ("CCAM-001", "Cognition"); ("CTL-001", "Control");
           ("ACT-001", "Action");
           ("CCAM-002", "Cognition"); ("CTL-002", "Control");
           ("CCAM-003", "Cognition"); ("CTL-003", "Control") ].
Proof.
  destruct (run interp (loop_of (weather_query "Miami") 3) "plan a trip" tt)
    as [| | report how self' w'] eqn:E.
  - vm_compute in E. discriminate.
  - vm_compute in E. discriminate.
  - destruct (log_is_retrieval_then_passes interp
                (constant_engine (weather_query "Miami")) registry
                MetaPrompt_init 3 "plan a trip" tt w' report how self' E)
      as (l & H1 & H2).
    exists report, how, self', w'. split; [reflexivity |].
    pose proof E as E'. vm_compute in E'. injection E' as <- _ _ _.
    vm_compute in H1. injection H1 as <-.
    split; [reflexivity | exact H2].
Defined.

Lemma exit_and_total_loops_witness :
  exists report self' w',
    run interp (loop_of (weather_query "Miami") 3) "plan a trip" tt
    = RunReturned report CeilingReached self' w'
    /\ total_loops (summary report) = 3.
Proof.
  destruct (run interp (loop_of (weather_query "Miami") 3) "plan a trip" tt)
    as [| | report how self' w'] eqn:E.
  - vm_compute in E. discriminate.
  - vm_compute in E. discriminate.
  - assert (Hhow : how = CeilingReached).
    { vm_compute in E. now injection E as _ <- _ _. }
    subst how. exists report, self', w'. split; [reflexivity |].
    exact (proj1 (exit_and_total_loops interp
                    (constant_engine (weather_query "Miami")) registry
                    MetaPrompt_init 3 "plan a trip" tt w' report
                    CeilingReached self' ltac:(lia) E)
             eq_refl).
Defined.



Lemma pass_without_tool_name_witness :
  exists self',
    loop_body interp (retrieved final_idle 20) [] tt
    = BodyBreak self'
        [ ("last_action_result",
           VDict [("status", VStr "no_action"); ("result", VNone)]) ]
        tt
    /\ evidence_cache (memory self') = [].
Proof.
  destruct (pass_without_tool_name interp (retrieved final_idle 20) []
              final_idle tt tt eq_refl (or_introl eq_refl))
    as (self' & tc & tk & _ & _ & _ & HC & _ & _ & HB).
  exists self'. split; [exact HB | exact HC].
Defined.

Lemma failed_final_action_ends_run_witness :
  exists self',
    ccam_loop interp 1 (retrieved final_broken 20) [] tt
    = LoopExit Completed self'
        [ ("last_action_result",
           VDict [ ("status", VStr "error");
                   ("message",
                     VStr "Action execution failed: service unavailable") ]) ]
        tt
    /\ evidence_cache (memory self') = [].
Proof.
  destruct (failed_final_action_ends_run interp (retrieved final_broken 20)
              [] final_broken tt tt tt "PASS" "service unavailable"
              (VStr "broken") (VDict [])
              eq_refl eq_refl eq_refl eq_refl eq_refl eq_refl)
    as (self' & _ & HC & _ & HL).
  exists self'. split; [| exact HC].
  apply HL. reflexivity.
Defined.

Lemma weather_query_names_missing_city_witness :
  exists city,
    descriptor_of (weather_query_for interp (VStr "Miami"))
    = Some (VStr "get_weather", VDict [("city", city)])
    /\ py_in city [VStr "San Francisco"] = false.
Proof.
  destruct (weather_query_names_missing_city (World := unit) interp
              (VList [VStr "SF_weather"; VStr "Miami_weather";
                      VStr "Atlanta_weather"])
              [san_francisco "Partly Cloudy" 10]
              (weather_query_for interp (VStr "Miami")) eq_refl)
    as [(before & key & after & city & _ & _ & _ & HN & HD & _)
       | (needed & _ & _ & HP & _)].
  - exists city. split; [exact HD | exact HN].
  - discriminate HP.
Defined.

Lemma call_keeps_cities_distinct_witness :
  exists response st',
    call interp {| call_count := 1; collected_weather := [] |}
      second_pass_context
    = CallReturned response st'
    /\ call_count st' = 2
    /\ cities_differ [] (collected_weather st') = true.
Proof.
  destruct (call interp {| call_count := 1; collected_weather := [] |}
              second_pass_context) as [| response st'] eqn:E.
  - vm_compute in E. discriminate.
  - destruct (call_keeps_cities_distinct interp _ _ _ _ E) as (HC & _ & HD).
    exists response, st'. split; [reflexivity |].
    split; [exact HC | exact (HD eq_refl)].
Defined.



Lemma destination_is_coolest_witness :
  exists response chosen,
    _generate_decision interp (scenario_A "Partly Cloudy" "Sunny" "Clear" 10 20 30)
      55 = Some response
    /\ In chosen (scenario_A "Partly Cloudy" "Sunny" "Clear" 10 20 30)
    /\ lookup "city" chosen = Some (get "destination" response).
Proof.
  destruct (_generate_decision interp
              (scenario_A "Partly Cloudy" "Sunny" "Clear" 10 20 30) 55)
    as [response |] eqn:E; [| vm_compute in E; discriminate].
  destruct (destination_is_coolest interp
              (scenario_A "Partly Cloudy" "Sunny" "Clear" 10 20 30) 55 response (le_n 3)
              (conj (le_n 2) (le_S 2 2 (le_n 2))) E)
    as (chosen & tc & HI & _ & HC & _).
  exists response, chosen. split; [reflexivity |].
  split; [exact HI | exact HC].
Defined.

Lemma lowest_host_in_range : randint_in_range lowest_host.
Proof. intros n a b Hab. simpl. lia. Qed.

Lemma get_weather_in_range_witness :
  exists t p,
    get_weather lowest_host interp [("city", VStr "Miami")] (initial_world 0)
    = (Returned
         (VDict [ ("city", VStr "Miami");
                  ("temperature_f", VInt t);
                  ("condition", VStr "Sunny");
                  ("precipitation_chance", VInt p);
                  ("api_ref", VStr "wx-miami-001") ]),
       draw 5 (initial_world 0))
    /\ 65 <= t <= 95 /\ 0 <= p <= 50.
Proof.
  exact (proj1 (proj2 (get_weather_in_range lowest_host interp
                         (initial_world 0) lowest_host_in_range))).
Defined.


Lemma recommend_snacks_lists_five_witness :
  exists snacks,
    recommend_snacks lowest_host interp [("preferences", VStr "spicy")]
      (initial_world 0)
    = (Returned
         (VDict [ ("status", VStr "recommended");
                  ("preference", VStr "spicy");
                  ("snacks", VList (map VStr snacks));
                  ("total_items", VInt 5) ]),
       initial_world 0)
    /\ snacks = general_snacks.
Proof.
  destruct (recommend_snacks_lists_five lowest_host interp
              [("preferences", VStr "spicy")] (initial_world 0) _ _ eq_refl)
    as (_ & snacks & HR & _ & HG & _).
  exists snacks. split.
  - exact (f_equal (fun r => (Returned r, initial_world 0)) HR).
  - exact (HG "spicy" eq_refl eq_refl).
Defined.


Lemma send_email_returns_for_text_body_witness :
  exists k,
    0 <= k < 10000
    /\ send_email lowest_host
         [ ("recipient", VStr "test-scl@test.com");
           ("subject", VStr "Travel Plan");
           ("body", VStr "San Francisco") ] (initial_world 0)
       = (Returned
            (VDict [ ("status", VStr "sent");
                     ("recipient", VStr "test-scl@test.com");
                     ("subject", VStr "Travel Plan");
                     ("timestamp", VStr "2024-01-15T10:30:00Z");
                     ("message_id", VStr ("msg-" ++ str_of_Z k)) ]),
          initial_world 0).
Proof.
  exact (proj1 (send_email_returns_for_text_body lowest_host
                  [ ("recipient", VStr "test-scl@test.com");
                    ("subject", VStr "Travel Plan");
                    ("body", VStr "San Francisco") ] (initial_world 0)
                  eq_refl)
           "San Francisco" eq_refl).
Defined.

Lemma experiment_completes_in_four_loops_witness :
  exists report self' w',
    run_weather_scenario lowest_host interp "plan a trip" 0
    = RunReturned report Completed self' w'
    /\ total_loops (summary report) = 4
    /\ policy_violations (summary report) = 0.
Proof.
  destruct (experiment_completes_in_four_loops lowest_host interp
              "plan a trip" 0 lowest_host_in_range)
    as (report & self' & w' & HR & HT & HP & _).
  exists report, self', w'. repeat split; assumption.
Defined.

Lemma simplified_engine_exhausts_ceiling_witness :
  exists report self',
    run interp
      (StructuredCognitiveLoop_init SimplifiedEngine.engine ToolRegistry_init
         MetaPrompt_init 3)
      "plan a trip" SimplifiedEngine.SimplifiedCognitionEngine_init
    = RunReturned report CeilingReached self'
        SimplifiedEngine.SimplifiedCognitionEngine_init
    /\ total_loops (summary report) = 3
    /\ policy_violations (summary report) = 3.
Proof.
  destruct (simplified_engine_exhausts_ceiling interp ToolRegistry_init
              MetaPrompt_init 3 "plan a trip"
              SimplifiedEngine.SimplifiedCognitionEngine_init
              eq_refl ltac:(lia) eq_refl)
    as (report & self' & HR & HT & HP & _).
  exists report, self'. repeat split; assumption.
Defined.
